(** * Incremental-build profiler: kicker, build invoker, orchestrator, reports

    A shallow embedding of the Python sources under [profiler/]:
    - [function_kicker.py], [base_kicker.py], [kicker_interface.py]:
      the source mutator and its dirty-file set;
    - [build_script.py]: [BuildSys], the timed iteration loop, the
      targets and the CSV rows;
    - [build_html_visualiser.py]: [create_summary_stats] and the
      selections of the insights;
    - [build_visualiser.py]: [read_csv_data], [validate_data] and the
      data of the charts.

    Python objects with mutable state become fields of one [state] record
    that every operation threads through; exceptions are an explicit
    [outcome].  Library calls whose result the program only consumes
    (the random generator, the external build processes) are oracles
    stored in the state and read through a counter.  Paths and generated
    text are strings of 8-bit characters (code points below 256); files
    are lists of bytes; durations are Python floats, that is IEEE 754
    binary64 numbers. *)

From Stdlib Require Import ZArith QArith String Ascii List Lia Sorted.
From Stdlib Require Import DecimalString SpecFloat.
From Stdlib.Strings Require Import Byte.
From stdpp Require Import base gmap strings list sets.

Local Open Scope string_scope.
Local Open Scope list_scope.

(** ** Characters and strings as Python sees them *)

Definition LF : ascii := ascii_of_nat 10.
Definition NL : string := String LF EmptyString.

(** [str.lower()]: on code points below 256 only [A-Z] have a lower-case
    image among the ASCII characters; the Latin-1 capitals map to
    non-ASCII letters and never produce a key of the template table, so
    they are left alone here. *)
Definition lower_char (c : ascii) : ascii :=
  let n := nat_of_ascii c in
  if (65 <=? n)%nat && (n <=? 90)%nat then ascii_of_nat (n + 32) else c.

Fixpoint lower (s : string) : string :=
  match s with
  | EmptyString => EmptyString
  | String c s' => String (lower_char c) (lower s')
  end.

(** [str.lstrip(chars)] for a one-character [chars]. *)
Fixpoint lstrip (c : ascii) (s : string) : string :=
  match s with
  | String a s' => if Ascii.eqb a c then lstrip c s' else s
  | EmptyString => EmptyString
  end.

(** [str.rfind(c)] for a one-character needle: the highest index, or -1. *)
Fixpoint rfind_from (c : ascii) (s : string) (i last : Z) : Z :=
  match s with
  | EmptyString => last
  | String a s' => rfind_from c s' (i + 1) (if Ascii.eqb a c then i else last)
  end.

Definition rfind (c : ascii) (s : string) : Z := rfind_from c s 0 (-1).

(** Slices [p[:k]] and [p[k:]]. *)
Definition slice_to (k : nat) (p : string) : string := substring 0 k p.
Definition slice_from (k : nat) (p : string) : string :=
  substring k (String.length p - k) p.

(** The [while filenameIndex < dotIndex] loop of [genericpath._splitext]:
    is there a character other than the extension separator in
    [p[i : i + n]]? *)
Fixpoint non_dot_before (p : string) (i n : nat) : bool :=
  match n with
  | O => false
  | S n' =>
      match String.get i p with
      | Some a => if Ascii.eqb a "." then non_dot_before p (S i) n' else true
      | None => true
      end
  end.

(** [os.path.splitext] of [posixpath]: [sep = "/"], no [altsep],
    [extsep = "."]. *)
Definition splitext (p : string) : string * string :=
  let sepIndex := rfind "/" p in
  let dotIndex := rfind "." p in
  if (sepIndex <? dotIndex)%Z
     && non_dot_before p (Z.to_nat (sepIndex + 1))
          (Z.to_nat (dotIndex - (sepIndex + 1)))
  then (slice_to (Z.to_nat dotIndex) p, slice_from (Z.to_nat dotIndex) p)
  else (p, EmptyString).

(** [str.encode("utf-8")] on code points below 256. *)
Definition encode_char (c : ascii) : list byte :=
  let n := N_of_ascii c in
  if (n <? 128)%N then [byte_of_ascii c]
  else
    match Byte.of_N (192 + N.shiftr n 6), Byte.of_N (128 + N.land n 63) with
    | Some b1, Some b2 => [b1; b2]
    | _, _ => [byte_of_ascii c]
    end.

Fixpoint encode_utf8 (s : string) : list byte :=
  match s with
  | EmptyString => []
  | String c s' => encode_char c ++ encode_utf8 s'
  end.

(** ** Python's [float]: IEEE 754 binary64

    A float is a signed zero, a signed infinity, the NaN, or
    [S754_finite s m e], which stands for (-1)^s * m * 2^e.  Sums,
    differences and quotients are rounded to the nearest float, ties to
    the even mantissa; a result beyond the largest float is an infinity. *)

Definition float : Type := spec_float.
Definition prec : Z := 53.
Definition emax : Z := 1024.

Definition fadd : float -> float -> float := SFadd prec emax.
Definition fsub : float -> float -> float := SFsub prec emax.
(** [x / y] for a [y] that is not zero. *)
Definition fdiv : float -> float -> float := SFdiv prec emax.

(** [x < y] and [x <= y]: false as soon as one side is the NaN. *)
Definition flt : float -> float -> bool := SFltb.
Definition fle : float -> float -> bool := SFleb.

Definition is_nan (x : float) : bool :=
  match x with S754_nan => true | _ => false end.

(** [math.isfinite(x)]. *)
Definition is_finite (x : float) : bool :=
  match x with S754_zero _ | S754_finite _ _ _ => true | _ => false end.

Definition infinity : float := S754_infinity false.

(** [float(z)] for an int within the float range. *)
Definition float_of_Z (z : Z) : float := binary_normalize prec emax z 0 false.
Definition float_of_nat (n : nat) : float := float_of_Z (Z.of_nat n).

(** The float nearest to a rational: what the true division [n / d] of
    two ints returns while the quotient is within the float range, and
    the value of a decimal literal. *)
Definition float_of_Q (q : Q) : float :=
  match Qnum q with
  | Z0 => S754_zero false
  | Zpos n => fdiv (S754_finite false n 0) (S754_finite false (Qden q) 0)
  | Zneg n => fdiv (S754_finite true n 0) (S754_finite false (Qden q) 0)
  end.

(** [x.as_integer_ratio()] as one rational: the number a finite float
    stands for. *)
Definition exact (x : float) : Q :=
  match x with
  | S754_finite s m e =>
      let n := if s then Zneg m else Zpos m in
      match e with
      | Z0 => inject_Z n
      | Zpos k => inject_Z (n * 2 ^ Zpos k)
      | Zneg k => n # 2 ^ k
      end
  | _ => 0
  end.

(** ** Exceptions, printed lines, the world *)

Inductive exn :=
| ValueError (msg : string)
| KeyError (key : string)
| FileNotFoundError (path : string)
| IsADirectoryError (path : string)
| ShutilError (msg : string)
| RuntimeError (msg : string)
| StatisticsError (msg : string)
| TypeError (msg : string)
| AttributeError (msg : string)
| OverflowError (msg : string).

(** [FileNotFoundError], [IsADirectoryError] and [shutil.Error] are
    subclasses of [OSError], of which [IOError] is an alias. *)
Definition is_FileNotFoundError (e : exn) : bool :=
  match e with FileNotFoundError _ => true | _ => false end.

Definition is_IOError (e : exn) : bool :=
  match e with
  | FileNotFoundError _ | IsADirectoryError _ | ShutilError _ => true
  | _ => false
  end.

(** One constructor per [print] statement of the modelled code. *)
Inductive printed :=
| PFileMissing (file : string)
    (* Error: The file '{file}' does not exist. *)
| PWriteError (file : string) (e : exn)
    (* Error: An I/O error occurred while writing to '{file}': {e} *)
| PRevertError (file : string) (e : exn)
    (* Error: An I/O error occurred while reverting '{file}': {e} *)
| PUnexpected (e : exn)
    (* Error: An unexpected error occurred: {e} *)
| PTooSmall (file : string)
    (* Warning: File '{file}' is smaller than expected content length. *)
| PBuildOf (sys : string) (i n : nat)
    (* {build_sys} build {i+1} of {n}: *)
| PBuilding (sys : string)
    (* Building with {build_sys}... *)
| PProcessOutput (text : string)
    (* print(result.stdout) *)
| PBuildTime (sys : string) (t : float)
    (* {build_sys} build time: {time} seconds *)
| PWarmUpHeader
    (* Warm up times: *)
| PWarmUp (sys : string) (t : float)
    (* {sys}: {initial_time} seconds *)
| PAverage (sys : string) (t : float).
    (* Average {sys} incremental build time: {mean} *)

(** A path names a regular file with its bytes, or a directory. *)
Inductive node :=
| Regular (data : list byte)
| Directory.

(** What [subprocess.run] hands back, with the two clock readings taken
    around it. *)
Record completed := Completed {
  returncode : Z;
  captured : string;
  clock_start : float;
  clock_end : float
}.

(** One [subprocess.run] call: the argument vector and [cwd]. *)
Record process_call := ProcessCall {
  command : list string;
  cwd : option string
}.

Record state := State {
  fs : gmap string node;          (* the file system *)
  dirty_files : gset string;      (* BaseKicker.dirty_files *)
  stdout : list printed;          (* oldest line first *)
  entropy : nat -> nat;           (* the random generator, draw by draw *)
  draws : nat;                    (* draws consumed so far *)
  processes : nat -> completed;   (* the external processes, run by run *)
  launched : list process_call     (* the [subprocess.run] calls so far *)
}.

Definition set_fs (f : gmap string node) (s : state) : state :=
  State f (dirty_files s) (stdout s) (entropy s) (draws s) (processes s) (launched s).
Definition set_dirty (d : gset string) (s : state) : state :=
  State (fs s) d (stdout s) (entropy s) (draws s) (processes s) (launched s).
Definition add_line (l : printed) (s : state) : state :=
  State (fs s) (dirty_files s) (stdout s ++ [l]) (entropy s) (draws s) (processes s) (launched s).
Definition set_draws (n : nat) (s : state) : state :=
  State (fs s) (dirty_files s) (stdout s) (entropy s) n (processes s) (launched s).
Definition add_launched (i : process_call) (s : state) : state :=
  State (fs s) (dirty_files s) (stdout s) (entropy s) (draws s) (processes s)
        (launched s ++ [i]).

(** ** The monad of state and exceptions *)

Inductive outcome (A : Type) :=
| Ret (a : A)
| Raise (e : exn).
Arguments Ret {A} a.
Arguments Raise {A} e.

Definition M (A : Type) : Type := state -> outcome A * state.

#[global] Instance M_ret : MRet M := fun A a s => (Ret a, s).
#[global] Instance M_bind : MBind M := fun A B f m s =>
  match m s with
  | (Ret a, s') => f a s'
  | (Raise e, s') => (Raise e, s')
  end.
#[global] Instance M_throw : MThrow exn M := fun A e s => (Raise e, s).

Definition get_state : M state := fun s => (Ret s, s).
Definition modify (f : state -> state) : M unit := fun s => (Ret tt, f s).
Definition print (l : printed) : M unit := modify (add_line l).

(** [try: body  except Exception as e: handler e]. *)
Definition try_except {A} (body : M A) (handler : exn -> M A) : M A := fun s =>
  match body s with
  | (Ret a, s') => (Ret a, s')
  | (Raise e, s') => handler e s'
  end.

(** [try: body  finally: final]: [final] always runs; an exception of
    [final] replaces the pending outcome, otherwise the outcome of [body]
    stands. *)
Definition try_finally {A} (body : M A) (final : M unit) : M A := fun s =>
  match body s with
  | (r, s') =>
      match final s' with
      | (Ret _, s'') => (r, s'')
      | (Raise e, s'') => (Raise e, s'')
      end
  end.

(** [for x in xs: body x]. *)
Fixpoint for_each {A} (xs : list A) (body : A -> M unit) : M unit :=
  match xs with
  | [] => mret tt
  | x :: xs' => body x ;; for_each xs' body
  end.

(** The final state of a computation, whatever its outcome. *)
Definition exec {A} (m : M A) (s : state) : state := snd (m s).
Definition result {A} (m : M A) (s : state) : outcome A := fst (m s).

(** ** function_kicker.py *)

Definition KICK_MARKER : string := "_kicked_".
Definition FUNCTION_LENGTH : nat := 100.

(** A [str.format] template: literal text and the two replacement fields
    [{marker}] and [{name}] (the doubled braces of the source are literal
    braces). *)
Inductive piece :=
| Lit (text : string)
| Marker
| Name.

Definition format (template : list piece) (marker name : string) : string :=
  foldr (fun p rest =>
           match p with
           | Lit text => text +:+ rest
           | Marker => marker +:+ rest
           | Name => name +:+ rest
           end) EmptyString template.

Definition py_template : list piece :=
  [Lit "def _"; Marker; Lit "_"; Name; Lit ("():" +:+ NL +:+ "    pass")].
Definition java_template : list piece :=
  [Lit "public static void _"; Marker; Lit "_"; Name; Lit "() {}"].
Definition kt_template : list piece :=
  [Lit "fun _"; Marker; Lit "_"; Name; Lit "() {}"].

Definition function_templates : gmap string (list piece) :=
  <["py" := py_template]>
    (<["java" := java_template]> (<["kt" := kt_template]> ∅)).

(** [string.ascii_letters]. *)
Definition ascii_letters : string :=
  "abcdefghijklmnopqrstuvwxyzABCDEFGHIJKLMNOPQRSTUVWXYZ".

(** [population[floor(random() * n)]], the generator's number read as an
    index. *)
Definition pick (population : string) (r : nat) : ascii :=
  match String.get (r mod String.length population) population with
  | Some c => c
  | None => zero
  end.

(** ["".join(random.choices(population, k=k))]. *)
Definition random_choices (population : string) (k : nat) : M string := fun s =>
  (Ret (string_of_list_ascii
          (map (fun i => pick population (entropy s (draws s + i))) (seq 0 k))),
   set_draws (draws s + k) s).

(** [os.path.splitext(file)[1].lstrip(".")]. *)
Definition extension (file : string) : string :=
  lstrip "." (snd (splitext file)).

Definition _validate_file_type (file : string) : M unit :=
  let ext := extension file in
  if String.eqb ext EmptyString then
    mthrow (ValueError "File must have an extension")
  else
    match function_templates !! lower ext with
    | None =>
        mthrow (ValueError ("No function template defined for file extension: " +:+ ext))
    | Some _ => mret tt
    end.

Definition _generate_content (file : string) : M string :=
  _validate_file_type file ;;
  let ext := lower (extension file) in
  match function_templates !! ext with
  | None => mthrow (KeyError ext)
  | Some template =>
      func_name ← random_choices ascii_letters FUNCTION_LENGTH;
      mret (format template KICK_MARKER func_name)
  end.

(** ** base_kicker.py *)

(** [os.path.exists(file)]. *)
Definition path_exists (file : string) : M bool := fun s =>
  (Ret (bool_decide (is_Some (fs s !! file))), s).

(** [with open(file, "a") as f: f.write(text)] (no newline translation;
    mode "a" would create a missing file). *)
Definition open_append_write (file text : string) : M unit := fun s =>
  match fs s !! file with
  | Some (Regular data) =>
      (Ret tt, set_fs (<[file := Regular (data ++ encode_utf8 text)]> (fs s)) s)
  | Some Directory => (Raise (IsADirectoryError file), s)
  | None => (Ret tt, set_fs (<[file := Regular (encode_utf8 text)]> (fs s)) s)
  end.

(** The [with open(file, "rb+") as f] block of [_remove_appended_content]:
    seek to the end, compare the size, warn or truncate. *)
Definition open_truncate_tail (file : string) (content_bytes_len : nat) : M unit :=
  fun s =>
  match fs s !! file with
  | Some (Regular data) =>
      let file_size := length data in
      if (file_size <? content_bytes_len)%nat then
        (Ret tt, add_line (PTooSmall file) s)
      else
        (Ret tt,
         set_fs (<[file := Regular (take (file_size - content_bytes_len) data)]> (fs s)) s)
  | Some Directory => (Raise (IsADirectoryError file), s)
  | None => (Raise (FileNotFoundError file), s)
  end.

Definition _remove_appended_content (file : string) : M unit :=
  try_except
    (sample_content ← _generate_content file;
     let content_bytes_len :=
       (length (encode_utf8 NL) * 2 + length (encode_utf8 sample_content))%nat in
     open_truncate_tail file content_bytes_len)
    (fun e =>
       if is_FileNotFoundError e then print (PFileMissing file)
       else if is_IOError e then print (PRevertError file e)
       else print (PUnexpected e)).

Definition _append_content (file content : string) : M unit :=
  s ← get_state;
  (if bool_decide (file ∈ dirty_files s) then _remove_appended_content file
   else mret tt : M unit) ;;
  try_except
    (path_exists file ≫= fun found : bool =>
     (if found then mret tt else mthrow (FileNotFoundError EmptyString) : M unit) ;;
     open_append_write file (NL +:+ content +:+ NL) ;;
     modify (fun s => set_dirty ({[file]} ∪ dirty_files s) s))
    (fun e =>
       if is_FileNotFoundError e then print (PFileMissing file) ;; mthrow e
       else if is_IOError e then print (PWriteError file e) ;; mthrow e
       else print (PUnexpected e) ;; mthrow e).

Definition append (file : string) : M unit :=
  _validate_file_type file ;;
  content ← _generate_content file;
  _append_content file content.

Definition cleanup (file : string) : M unit :=
  _remove_appended_content file.

(** ** kicker_interface.py *)

Definition cleanup_all (files : list string) : M unit :=
  for_each files cleanup.

(** Iterating over a Python [set] visits every element once, in an order
    the language does not fix. *)
Class SetIteration := {
  set_iter : gset string -> list string;
  set_iter_perm : forall d, set_iter d ≡ₚ elements d
}.

#[global] Instance elements_iteration : SetIteration :=
  {| set_iter := elements; set_iter_perm := fun d => Permutation_refl _ |}.

Definition cleanup_all_dirty `{SetIteration} : M unit :=
  s ← get_state;
  cleanup_all (set_iter (dirty_files s)) ;;
  modify (set_dirty ∅).

(** ** The [statistics] functions and builtins the scripts call

    The functions are those of the [statistics] module of CPython 3.11,
    which adds the values as exact fractions and rounds once at the
    end; an empty argument raises. *)

Definition Qsum (data : list Q) : Q := foldr Qplus 0%Q data.

(** [n / d] on two ints, the second positive. *)
Definition int_true_div (n : Z) (d : positive) : outcome float :=
  let x := float_of_Q (n # d) in
  if is_finite x then Ret x
  else Raise (OverflowError "integer division result too large for a float").

(** [sorted(data)] is stable and compares with [<] alone.  On values that
    [<] orders it returns the one stable ascending arrangement, which
    insertion from the right computes: each value is put before the
    first one that is not below it.  A NaN is below nothing and nothing
    is below it; where the sort leaves it and its neighbours depends on
    the runs the algorithm finds, so that arrangement is taken as given. *)
Fixpoint insert_sorted (x : float) (l : list float) : list float :=
  match l with
  | [] => [x]
  | y :: l' => if flt y x then y :: insert_sorted x l' else x :: l
  end.

Class Sorting := {
  sort_unordered : list float -> list float;
  sort_unordered_perm : forall data, sort_unordered data ≡ₚ data
}.

(** Insertion itself is such an arrangement. *)
#[global] Program Instance insertion_sorting : Sorting :=
  {| sort_unordered := foldr insert_sorted [] |}.
Next Obligation.
  induction data as [|x l IH]; [reflexivity|]. cbn [foldr].
  rewrite <- IH at 2. clear IH. generalize (foldr insert_sorted [] l). clear l.
  intros l. induction l as [|y l IH]; [reflexivity|]. cbn [insert_sorted].
  destruct (flt y x); [|reflexivity].
  rewrite IH. apply Permutation_swap.
Qed.

Definition sorted `{Sorting} (data : list float) : list float :=
  if existsb is_nan data then sort_unordered data
  else foldr insert_sorted [] data.

(** [statistics.mean]: the exact sum of the values as fractions, divided
    by their number and rounded once; that quotient lies between two of
    the values, so the rounding stays in range.  As soon as a value is
    not finite, the finite ones are ignored and the others are added as
    floats, from the int 0 on. *)
Definition statistics_mean (data : list float) : outcome float :=
  match data with
  | [] => Raise (StatisticsError "mean requires at least one data point")
  | _ =>
      let n := Z.of_nat (length data) in
      if forallb is_finite data
      then Ret (float_of_Q (Qsum (map exact data) / inject_Z n))
      else
        let total :=
          fold_left fadd (List.filter (fun x => negb (is_finite x)) data)
            (float_of_Z 0) in
        Ret (fdiv total (float_of_Z n))
  end.

Definition statistics_median `{Sorting} (data : list float) : outcome float :=
  let data := sorted data in
  let n := length data in
  if Nat.eqb n 0 then Raise (StatisticsError "no median for empty data")
  else if Nat.eqb (n mod 2) 1 then Ret (nth (n / 2) data S754_nan)
  else
    let i := n / 2 in
    Ret (fdiv (fadd (nth (i - 1) data S754_nan) (nth i data S754_nan))
           (float_of_Z 2)).

(** [n.bit_length()]. *)
Definition bit_length (n : Z) : Z :=
  if (n =? 0)%Z then 0%Z else (Z.log2 (Z.abs n) + 1)%Z.

(** [_integer_sqrt_of_frac_rto]: [a | (a*a*m != n)] for [a = isqrt(n // m)]. *)
Definition _integer_sqrt_of_frac_rto (n m : Z) : Z :=
  let a := Z.sqrt (n / m) in
  Z.lor a (if (a * a * m =? n)%Z then 0 else 1).

Definition _sqrt_bit_width : Z := 2 * prec + 3.

Definition _float_sqrt_of_frac (n m : Z) : outcome float :=
  let q := ((bit_length n - bit_length m - _sqrt_bit_width) / 2)%Z in
  if (0 <=? q)%Z then
    int_true_div
      (Z.shiftl (_integer_sqrt_of_frac_rto n (Z.shiftl m (2 * q))) q) 1
  else
    int_true_div
      (_integer_sqrt_of_frac_rto (Z.shiftl n (-2 * q)) m)
      (Z.to_pos (Z.shiftl 1 (- q))).

(** [statistics.stdev]: with the count [n], the exact sum [sx] and the
    exact sum of squares [sxx], the square root of
    [(n * sxx - sx * sx) / n / (n - 1)], taken on the numerator and the
    denominator of that fraction in lowest terms.  When a value is not
    finite the sum of squares is a float, which has no numerator. *)
Definition statistics_stdev (data : list float) : outcome float :=
  let n := length data in
  if (n <? 2)%nat
  then Raise (StatisticsError "stdev requires at least two data points")
  else if forallb is_finite data then
    let xs := map exact data in
    let count := inject_Z (Z.of_nat n) in
    let sx := Qsum xs in
    let sxx := Qsum (map (fun x => x * x)%Q xs) in
    let ssd := ((count * sxx - sx * sx) / count)%Q in
    let mss := Qred (ssd / inject_Z (Z.of_nat n - 1)) in
    _float_sqrt_of_frac (Qnum mss) (Zpos (Qden mss))
  else Raise (AttributeError "'float' object has no attribute 'numerator'").

(** [min(data)] and [max(data)]: the running extreme is replaced only by
    an item that is below it, respectively above it. *)
Definition py_min (data : list float) : outcome float :=
  match data with
  | [] => Raise (ValueError "min() arg is an empty sequence")
  | x :: rest => Ret (fold_left (fun m y => if flt y m then y else m) rest x)
  end.

Definition py_max (data : list float) : outcome float :=
  match data with
  | [] => Raise (ValueError "max() arg is an empty sequence")
  | x :: rest => Ret (fold_left (fun m y => if flt m y then y else m) rest x)
  end.

(** A pure computation that may raise, run inside [M]. *)
Definition lift {A} (o : outcome A) : M A := fun s => (o, s).

(** ** build_script.py: [BuildSys] *)

Record BuildSys := {
  build_sys : string;           (* the build system's name *)
  invocation : string;          (* the command that invokes it *)
  working_dir : option string   (* its working directory *)
}.

(** [subprocess.run] between two readings of [time.perf_counter]: the
    next process of the oracle, its call recorded. *)
Definition subprocess_run (command : list string) (dir : option string)
  : M completed := fun s =>
  (Ret (processes s (length (launched s))), add_launched (ProcessCall command dir) s).

Definition truthy (target : option string) : bool :=
  match target with
  | Some t => negb (String.eqb t EmptyString)
  | None => false
  end.

Definition execute (self : BuildSys) (cmd : string) (target : option string)
    (args : list (string * string)) : M (completed * float) :=
  let command := [invocation self] in
  let command := command ++ flat_map (fun av => [fst av; snd av]) args in
  let command := command ++ [cmd] in
  let command :=
    if truthy target then command ++ [default EmptyString target] else command in
  result ← subprocess_run command (working_dir self);
  mret (result, fsub (clock_end result) (clock_start result)).

Definition build (self : BuildSys) (build_cmd : string) (target : option string)
    (args : list (string * string)) : M float :=
  print (PBuilding (build_sys self)) ;;
  rt ← execute self build_cmd target args;
  print (PProcessOutput (captured (fst rt))) ;;
  (if negb (Z.eqb (returncode (fst rt)) 0) then
     mthrow (RuntimeError (build_sys self +:+ " build failed: " +:+ captured (fst rt)))
   else mret tt : M unit) ;;
  print (PBuildTime (build_sys self) (snd rt)) ;;
  mret (snd rt).

(** [for i in range(n)]: the body run for [i = 0 .. n-1]. *)
Fixpoint for_range (i n : nat) (body : nat -> M unit) : M unit :=
  match n with
  | O => mret tt
  | S n' => body i ;; for_range (S i) n' body
  end.

Definition build_n_times (self : BuildSys) (build_cmd : string) (n : nat)
    (target : option string) (args : list (string * string)) : M unit :=
  for_range 0 n (fun i =>
    print (PBuildOf (build_sys self) (i + 1) n) ;;
    build self build_cmd target args ;;
    mret tt).

(** ** build_script.py: the timed run *)

(** [needle in s]. *)
Fixpoint contains (needle s : string) : bool :=
  String.prefix needle s
  || match s with
     | EmptyString => false
     | String _ s' => contains needle s'
     end.

Definition basename (p : string) : string :=
  slice_from (Z.to_nat (rfind "/" p + 1)) p.

Definition ends_with_slash (p : string) : bool :=
  match String.get (String.length p - 1) p with
  | Some c => Ascii.eqb c "/"
  | None => false
  end.

(** [os.path.join(a, b)] for a relative [b]. *)
Definition path_join (a b : string) : string :=
  if String.eqb a EmptyString || ends_with_slash a then a +:+ b
  else a +:+ "/" +:+ b.

Definition isdir (file : string) (s : state) : bool :=
  match fs s !! file with
  | Some Directory => true
  | _ => false
  end.

(** [shutil.move(src, dst)]: into [dst] when it is a directory (and the
    name is free there), onto [dst] otherwise. *)
Definition shutil_move (src dst : string) : M string := fun s =>
  if isdir dst s && String.eqb src dst then (Ret dst, s)
  else
    let real_dst := if isdir dst s then path_join dst (basename src) else dst in
    if isdir dst s && bool_decide (is_Some (fs s !! real_dst)) then
      (Raise (ShutilError ("Destination path '" +:+ real_dst +:+ "' already exists")), s)
    else
      match fs s !! src with
      | Some n => (Ret real_dst, set_fs (<[real_dst := n]> (delete src (fs s))) s)
      | None => (Raise (FileNotFoundError src), s)
      end.

Definition res : string := "/path/apps-android-wikipedia-copy/app/src/main/res/".
Definition raw : string := "/path/apps-android-wikipedia-copy/app/src/main/res/raw/".

(** The three measurement lists [bazel_times], [buck_times],
    [gradle_times]. *)
Record times := Times {
  bazel_times : list float;
  buck_times : list float;
  gradle_times : list float
}.

Section Script.
(** What the command line and the warm-up phase have fixed when the
    timed run starts. *)
Variable build_count : nat.
Variables bazel_working_dir bazel_target buck_target gradle_dir : string.
Variable source_files : list string.
Variables initial_bazel_time initial_buck_time initial_gradle_time : float.
Context `{SetIteration}.

Definition bazel_build : BuildSys :=
  {| build_sys := "Bazel"; invocation := "bazel";
     working_dir := Some bazel_working_dir |}.
Definition buck_build : BuildSys :=
  {| build_sys := "Buck2"; invocation := "/Users/b41z33d/.cargo/bin/buck2";
     working_dir := None |}.
Definition gradle_build : BuildSys :=
  {| build_sys := "Gradle"; invocation := "./gradlew";
     working_dir := Some gradle_dir |}.

(** [for file in source_files: ...] *)
Definition kick_sources : M unit :=
  for_each source_files (fun file =>
    if contains "/_generated_databinding/" file then mret tt
    else append file).

(** One pass of [for _ in range(build_count)]. *)
Definition iteration (t : times) : M times :=
  kick_sources ;;
  shutil_move (res +:+ "resources.properties") raw ;;
  bazel ← build bazel_build "build" (Some bazel_target) [];
  shutil_move (raw +:+ "resources.properties") res ;;
  gradle ← build gradle_build "assembleDevRelease" None [];
  buck ← build buck_build "build" (Some buck_target) [];
  mret (Times (bazel_times t ++ [bazel]) (buck_times t ++ [buck])
              (gradle_times t ++ [gradle])).

Fixpoint iterations (n : nat) (t : times) : M times :=
  match n with
  | O => mret t
  | S n' => t' ← iteration t; iterations n' t'
  end.

(** The body of the [try] statement. *)
Definition timed_loop : M times := iterations build_count (Times [] [] []).

(** [try: ... finally: kicker.cleanup_all_dirty()]. *)
Definition guarded_loop : M times := try_finally timed_loop cleanup_all_dirty.

(** The prints that follow the [try] statement. *)
Definition report (t : times) : M unit :=
  print PWarmUpHeader ;;
  print (PWarmUp "Bazel" initial_bazel_time) ;;
  print (PWarmUp "Buck2" initial_buck_time) ;;
  print (PWarmUp "Gradle" initial_gradle_time) ;;
  bazel ← lift (statistics_mean (bazel_times t)); print (PAverage "Bazel" bazel) ;;
  buck ← lift (statistics_mean (buck_times t)); print (PAverage "Buck2" buck) ;;
  gradle ← lift (statistics_mean (gradle_times t)); print (PAverage "Gradle" gradle).

(** From [kicker = FunctionKicker()] to the averages. *)
Definition timed_run : M unit :=
  modify (set_dirty ∅) ;;
  t ← guarded_loop;
  report t.
End Script.

(** ** Python dictionaries: keys in insertion order, each at most once *)

Fixpoint dict_set {V} (key : string) (v : V) (d : list (string * V))
  : list (string * V) :=
  match d with
  | [] => [(key, v)]
  | (k, w) :: d' =>
      if String.eqb k key then (k, v) :: d' else (k, w) :: dict_set key v d'
  end.

Fixpoint dict_get {V} (key : string) (d : list (string * V)) : option V :=
  match d with
  | [] => None
  | (k, w) :: d' => if String.eqb k key then Some w else dict_get key d'
  end.

(** ** build_html_visualiser.py: [create_summary_stats] *)

#[global] Instance outcome_ret : MRet outcome := fun A a => Ret a.
#[global] Instance outcome_bind : MBind outcome := fun A B f o =>
  match o with
  | Ret a => f a
  | Raise e => Raise e
  end.

(** The dictionary built for one build system.  [std_dev] is a float or
    the int [0], which compares and prints ([:.2f]) like the float [0.0]
    and is carried as it. *)
Module Stats.
Record t := Make {
  mean : float;
  median : float;
  min : float;
  max : float;
  std_dev : float;
  count : nat
}.
End Stats.

Section SummaryStats.
Context `{Sorting}.

(** The dictionary display, its entries evaluated in source order. *)
Definition summary_of (times : list float) : outcome Stats.t :=
  mean ← statistics_mean times;
  median ← statistics_median times;
  least ← py_min times;
  greatest ← py_max times;
  std_dev ← (if (1 <? length times)%nat then statistics_stdev times
             else mret (float_of_Z 0));
  mret (Stats.Make mean median least greatest std_dev (length times)).

(** [for build_system, times in build_data.items(): stats[build_system] = ...] *)
Fixpoint summary_loop (items : list (string * list float))
    (stats : list (string * Stats.t)) : outcome (list (string * Stats.t)) :=
  match items with
  | [] => mret stats
  | (build_system, times) :: rest =>
      entry ← summary_of times;
      summary_loop rest (dict_set build_system entry stats)
  end.

Definition create_summary_stats (build_data : list (string * list float))
  : outcome (list (string * Stats.t)) :=
  summary_loop build_data [].
End SummaryStats.

(** No value of [data] is the NaN. *)
Definition no_nan (data : list float) : Prop := existsb is_nan data = false.

(** *** The standard definitions the summary is compared with

    The mean and the median of the numbers the floats stand for. *)

Definition float_le (x y : float) : Prop := fle x y = true.
Definition float_lt (x y : float) : Prop := flt x y = true.


(** A value of the data that none of them is below, respectively above;
    when no value is the NaN, it is at most, respectively at least,
    each of them. *)
Definition is_minimum (m : float) (data : list float) : Prop :=
  In m data /\ forall x, In x data -> flt x m = false.

Definition is_maximum (m : float) (data : list float) : Prop :=
  In m data /\ forall x, In x data -> flt m x = false.


(** *** What the float arithmetic of the library makes of them

    The exact mean rounded once to the nearest float; for an even
    number of values, the float sum of the two middle ones divided by
    the float [2.0]. *)

Definition is_rounded_mean (m : float) (data : list float) : Prop :=
  m = float_of_Q (Qsum (map exact data) / inject_Z (Z.of_nat (length data))).

Definition is_float_median (m : float) (data : list float) : Prop :=
  exists ascending,
    Permutation ascending data
    /\ StronglySorted float_le ascending
    /\ (Nat.Odd (length data) -> m = nth (length data / 2) ascending S754_nan)
    /\ (Nat.Even (length data) ->
        m = fdiv (fadd (nth (length data / 2 - 1) ascending S754_nan)
                       (nth (length data / 2) ascending S754_nan))
                 (float_of_Z 2)).

(** ** build_visualiser.py: [read_csv_data] *)

(** [str.isspace] on code points below 256. *)
Definition is_space (c : ascii) : bool :=
  let n := nat_of_ascii c in
  ((9 <=? n) && (n <=? 13) || (28 <=? n) && (n <=? 32)
   || Nat.eqb n 133 || Nat.eqb n 160)%nat.

Fixpoint lstrip_space (s : string) : string :=
  match s with
  | String c s' => if is_space c then lstrip_space s' else s
  | EmptyString => EmptyString
  end.

Fixpoint rstrip_space (s : string) : string :=
  match s with
  | String c s' =>
      let r := rstrip_space s' in
      if is_space c && String.eqb r EmptyString then EmptyString else String c r
  | EmptyString => EmptyString
  end.

(** [str.strip()]. *)
Definition strip (s : string) : string := rstrip_space (lstrip_space s).

(** The character class [[0-9A-Fa-f]]. *)
Definition is_hex_digit (c : ascii) : bool :=
  let n := nat_of_ascii c in
  ((48 <=? n) && (n <=? 57) || (65 <=? n) && (n <=? 70)
   || (97 <=? n) && (n <=? 102))%nat.

(** [[0-9A-Fa-f]{n}]: what is left after exactly [n] hex digits. *)
Fixpoint hex_run (n : nat) (s : string) : option string :=
  match n with
  | O => Some s
  | S n' =>
      match s with
      | String c s' => if is_hex_digit c then hex_run n' s' else None
      | EmptyString => None
      end
  end.

(** [$]: at the end of the string, or before a newline that ends it. *)
Definition at_dollar (rest : string) : bool :=
  String.eqb rest EmptyString || String.eqb rest NL.

(** [re.match(r"^#([0-9A-Fa-f]{3}|[0-9A-Fa-f]{6})$", color)]. *)
Definition hex_color_match (color : string) : bool :=
  match color with
  | String c rest =>
      Ascii.eqb c "#"
      && (match hex_run 3 rest with Some r => at_dollar r | None => false end
          || match hex_run 6 rest with Some r => at_dollar r | None => false end)
  | EmptyString => false
  end.

(** An element of a list literal, by what [float(x)] does with it. *)
Inductive pyitem :=
| PyNumber (value : float)
    (* a float, bool or int literal, with the float it converts to *)
| PyHuge   (* an int literal beyond the float range: OverflowError *)
| PyString (text : string) (* a str literal: [float] parses the text *)
| PyOther.                 (* None, a list, a tuple, ...: TypeError *)

Inductive pyvalue :=
| PyList (items : list pyitem)
| PyNotList.               (* a number, a string, a tuple, a dict, ... *)

(** What [ast.literal_eval] does with a text. *)
Inductive literal :=
| Malformed                (* ValueError or SyntaxError *)
| Crashes (e : exn)        (* any other exception *)
| Value (v : pyvalue).

(** One constructor per error message of [read_csv_data]. *)
Inductive csv_error :=
| EmptyName (row_num : nat)
| InvalidColor (color build_system : string) (row_num : nat)
| BadMeasurements (build_system : string) (row_num : nat)
| WrongColumns (row_num : nat)
| FileNotFound
| ReadError (e : exn)
| NoBuildSystem
| UnequalCounts
| NoTimeData.

(** Returning, leaving through [sys.exit(code)] after a message, or
    raising an exception. *)
Inductive run (A : Type) :=
| Returns (a : A)
| Exits (code : Z) (why : csv_error)
| Throws (e : exn).
Arguments Returns {A} a.
Arguments Exits {A} code why.
Arguments Throws {A} e.

(** A value of the dictionary [csv.DictReader] yields for a row. *)
Inductive csv_value :=
| Cell (text : string)
| Rest (cells : list string)   (* under [restkey], the surplus cells *)
| Missing.                     (* [restval], that is [None] *)

Definition fieldnames : list string := ["build_system"; "color"; "measurements"].

Fixpoint zip_cells (keys cells : list string) : list (option string * csv_value) :=
  match keys, cells with
  | k :: keys', c :: cells' => (Some k, Cell c) :: zip_cells keys' cells'
  | _, _ => []
  end.

(** [DictReader.__next__] on a non-blank row. *)
Definition dict_row (row : list string) : list (option string * csv_value) :=
  let d := zip_cells fieldnames row in
  let lf := length fieldnames in
  let lr := length row in
  if (lf <? lr)%nat then d ++ [(None, Rest (drop lf row))]
  else if (lr <? lf)%nat then d ++ map (fun key => (Some key, Missing)) (drop lr fieldnames)
  else d.

Definition is_Missing (v : csv_value) : bool :=
  match v with Missing => true | _ => false end.

(** [row[key].strip()]: only a text cell can be stripped. *)
Fixpoint stripped (key : string) (d : list (option string * csv_value)) : run string :=
  match d with
  | [] => Throws (KeyError key)
  | (k, v) :: d' =>
      if bool_decide (k = Some key) then
        match v with
        | Cell text => Returns (strip text)
        | _ => Throws (TypeError "no attribute strip")
        end
      else stripped key d'
  end.

Section ReadCsv.
(** The two parsers of the Python library. *)
Variable literal_eval : string -> literal.
Variable float_of_str : string -> option float.

(** [float(x)]. *)
Definition py_float (x : pyitem) : outcome float :=
  match x with
  | PyNumber value => Ret value
  | PyHuge => Raise (OverflowError "int too large to convert to float")
  | PyString text =>
      match float_of_str text with
      | Some value => Ret value
      | None => Raise (ValueError "could not convert string to float")
      end
  | PyOther => Raise (TypeError "float() argument must be a string or a real number")
  end.

(** [[float(x) for x in measurements]]. *)
Fixpoint floats (measurements : list pyitem) : outcome (list float) :=
  match measurements with
  | [] => Ret []
  | x :: rest =>
      match py_float x with
      | Ret value =>
          match floats rest with
          | Ret values => Ret (value :: values)
          | Raise e => Raise e
          end
      | Raise e => Raise e
      end
  end.

Definition is_ValueError (e : exn) : bool :=
  match e with ValueError _ => true | _ => false end.

Definition _parse_row (row : list (option string * csv_value)) (row_num : nat)
  : run (string * string * list float) :=
  match stripped "build_system" row with
  | Returns build_system =>
    match stripped "color" row with
    | Returns color =>
      match stripped "measurements" row with
      | Returns measurements_str =>
          if String.eqb build_system EmptyString then Exits 1 (EmptyName row_num)
          else if negb (hex_color_match color) then
            Exits 1 (InvalidColor color build_system row_num)
          else
            match literal_eval measurements_str with
            | Malformed => Exits 1 (BadMeasurements build_system row_num)
            | Crashes e => Throws e
            | Value PyNotList => Exits 1 (BadMeasurements build_system row_num)
            | Value (PyList measurements) =>
                match floats measurements with
                | Ret measurements => Returns (build_system, color, measurements)
                | Raise e =>
                    if is_ValueError e then
                      Exits 1 (BadMeasurements build_system row_num)
                    else Throws e
                end
            end
      | Exits c w => Exits c w
      | Throws e => Throws e
      end
    | Exits c w => Exits c w
    | Throws e => Throws e
    end
  | Exits c w => Exits c w
  | Throws e => Throws e
  end.

(** The [for row_num, row in enumerate(reader, start=1)] loop; blank rows
    are not yielded by the reader. *)
Fixpoint read_rows (rows : list (list string)) (row_num : nat)
    (data : list (string * list float)) (colors : list (string * string))
  : run (list (string * list float) * list (string * string)) :=
  match rows with
  | [] => Returns (data, colors)
  | [] :: rest => read_rows rest row_num data colors
  | row :: rest =>
      let row_values := map snd (dict_row row) in
      if negb (Nat.eqb (length (List.filter (fun v => negb (is_Missing v)) row_values)) 3)
      then Exits 1 (WrongColumns row_num)
      else
        match _parse_row (dict_row row) row_num with
        | Returns (build_system, color, measurements) =>
            read_rows rest (S row_num)
              (dict_set build_system measurements data)
              (dict_set build_system color colors)
        | Exits c w => Exits c w
        | Throws e => Throws e
        end
  end.

(** [csv_file] is the content of the file as [csv.reader] splits it, or
    [None] when there is no such file. *)
Definition read_csv_data (csv_file : option (list (list string)))
  : run (list (string * list float) * list (string * string)) :=
  match csv_file with
  | None => Exits 1 FileNotFound
  | Some rows =>
      match read_rows rows 1 [] [] with
      | Throws e => Exits 1 (ReadError e)
      | Exits c w => Exits c w
      | Returns (data, colors) =>
          if Nat.eqb (length data) 0 then Exits 1 NoBuildSystem
          else
            let measurement_counts := map (fun kv => length (snd kv)) data in
            if negb (forallb (fun count => Nat.eqb count (nth 0 measurement_counts 0))
                       measurement_counts)
            then Exits 1 UnequalCounts
            else if Nat.eqb (nth 0 measurement_counts 0) 0 then Exits 1 NoTimeData
            else Returns (data, colors)
      end
  end.
End ReadCsv.

(** * Vocabulary of the statements, sample data *)

(** ** Kicker *)

(** The file types the kicker has a template for. *)
Definition supported (file : string) : bool :=
  bool_decide (lower (extension file) ∈ ["py"; "java"; "kt"]).

(** Bytes of the declaration generated for [file]: the template with the
    marker and a name of [FUNCTION_LENGTH] letters. *)
Definition content_length (file : string) : nat :=
  match function_templates !! lower (extension file) with
  | Some template =>
      length (encode_utf8 (format template KICK_MARKER EmptyString)) + FUNCTION_LENGTH
  | None => 0
  end.

(** ... and of what [append] adds and [cleanup] removes: the declaration
    between two newlines. *)
Definition removal_length (file : string) : nat := 2 + content_length file.

(** The bytes [append] adds for a generated [content]. *)
Definition mutation (content : string) : list byte :=
  encode_utf8 (NL +:+ content +:+ NL).

(** [file] is a regular file whose original content is [data], and the
    dirty set is accurate about it: either the file is not dirty and
    holds [data], or it is dirty and holds [data] followed by one
    mutation. *)
Definition holds_original (s : state) (file : string) (data : list byte) : Prop :=
  ((file ∉ dirty_files s) /\ fs s !! file = Some (Regular data))
  \/ ((file ∈ dirty_files s)
      /\ exists m, fs s !! file = Some (Regular (data ++ m))
                   /\ length m = removal_length file).

(** Every file of the dirty set is a supported regular file that holds
    what it held in [s0] followed by one mutation; every other supported
    path is as in [s0]. *)
Definition marked (s0 s : state) : Prop :=
  (forall f, f ∈ dirty_files s ->
     supported f = true
     /\ exists data m,
          fs s0 !! f = Some (Regular data)
          /\ fs s !! f = Some (Regular (data ++ m))
          /\ length m = removal_length f)
  /\ (forall f, f ∉ dirty_files s -> supported f = true -> fs s !! f = fs s0 !! f).

(** ** Build invoker and timed run *)

(** The argument vector [execute] assembles. *)
Definition argv (self : BuildSys) (cmd : string) (target : option string)
    (args : list (string * string)) : list string :=
  [invocation self] ++ flat_map (fun av => [fst av; snd av]) args ++ [cmd]
  ++ (if truthy target then [default EmptyString target] else []).

(** The duration [execute] returns: the difference of the two clock
    readings. *)
Definition elapsed (r : completed) : float := fsub (clock_end r) (clock_start r).

(** What one round of [build_n_times] prints: the announcement, then the
    lines of [build] with the duration of that very process. *)
Definition round_lines (self : BuildSys) (n : nat) (s : state) (i pos : nat)
  : list printed :=
  [PBuildOf (build_sys self) (i + 1) n;
   PBuilding (build_sys self);
   PProcessOutput (captured (processes s pos));
   PBuildTime (build_sys self) (elapsed (processes s pos))].

(** [m] keeps [P] true, whatever its outcome. *)
Definition preserves {A} (P : state -> Prop) (m : M A) : Prop :=
  forall s, P s -> P (exec m s).

(** A property of the files and the dirty set only. *)
Definition on_files (P : state -> Prop) : Prop :=
  forall s s', fs s' = fs s -> dirty_files s' = dirty_files s -> P s -> P s'.

(** ** Measurement table *)

(** Hex digits only. *)
Definition all_hex (s : string) : bool :=
  forallb is_hex_digit (list_ascii_of_string s).

(** ['#'] followed by exactly 3 or 6 hex digits. *)
Definition is_hex_color (s : string) : Prop :=
  exists h, s = String "#" h /\ all_hex h = true
            /\ (String.length h = 3 \/ String.length h = 6).

(** The last character of a string, if it has one. *)
Fixpoint last_char (s : string) : option ascii :=
  match s with
  | EmptyString => None
  | String c EmptyString => Some c
  | String _ s' => last_char s'
  end.

(** The rows the reader yields: the blank ones are dropped. *)
Definition non_blank (rows : list (list string)) : list (list string) :=
  List.filter (fun row => negb (Nat.eqb (length row) 0)) rows.

(** The dictionary obtained by assigning the pairs in order: one entry
    per key, at the place of its first assignment, with the value of its
    last. *)
Definition table_of {V} (pairs : list (string * V)) : list (string * V) :=
  foldl (fun d kv => dict_set (fst kv) (snd kv) d) [] pairs.

(** The pairs assigned to [data] and to [colors], record by record. *)
Definition durations_of (records : list (string * string * list float))
  : list (string * list float) :=
  map (fun r => (fst (fst r), snd r)) records.

Definition colors_of (records : list (string * string * list float))
  : list (string * string) :=
  map fst records.

(** [row] is a well-formed record and reads as [(name, color, durations)]:
    three cells; the name, stripped, is not empty; the color, stripped, is
    a hex color; the third cell, stripped, is a list literal each element
    of which [float] converts. *)
Definition record_of_row (literal_eval : string -> literal)
    (float_of_str : string -> option float)
    (row : list string) (r : string * string * list float) : Prop :=
  exists a b c items,
    row = [a; b; c]
    /\ fst (fst r) = strip a /\ strip a <> EmptyString
    /\ snd (fst r) = strip b /\ is_hex_color (strip b)
    /\ literal_eval (strip c) = Value (PyList items)
    /\ Forall2 (fun x q => py_float float_of_str x = Ret q) items (snd r).

(** A record as the interface description words it, with [n]
    measurements: three fields, a non-empty name, a hex color, a
    bracketed list of [n] numbers. *)
Definition stated_record (literal_eval : string -> literal)
    (row : list string) (n : nat) : Prop :=
  exists name color text items,
    row = [name; color; text]
    /\ name <> EmptyString
    /\ is_hex_color color
    /\ literal_eval text = Value (PyList items)
    /\ Forall (fun x => exists q, x = PyNumber q) items
    /\ length items = n.


(** The same with the mean and the median as float arithmetic gives
    them, the mean for finite durations. *)
Definition summarises_rounded (st : Stats.t) (times : list float) : Prop :=
  Stats.count st = length times
  /\ (forallb is_finite times = true -> is_rounded_mean (Stats.mean st) times)
  /\ is_float_median (Stats.median st) times
  /\ is_minimum (Stats.min st) times
  /\ is_maximum (Stats.max st) times
  /\ (length times < 2 -> Stats.std_dev st = float_of_Z 0)
  /\ (2 <= length times -> statistics_stdev times = Ret (Stats.std_dev st)).

(** What [summary_of] needs in order to return: a list that is not
    empty, on which [statistics.stdev] returns if it is called. *)
Definition summable (times : list float) : Prop :=
  times <> [] /\ (2 <= length times -> exists v, statistics_stdev times = Ret v).

(** ** Sample data *)

(** A state with the given files, a fresh kicker, a fixed generator and
    processes that all succeed. *)
Definition sample_state (files : list (string * node)) : state :=
  State (list_to_map files) ∅ [] (fun i => i * 7 + 3) 0
        (fun _ => Completed 0 "" (float_of_Z 0) (float_of_Z 1)) [].

Definition foo_java : node := Regular (encode_utf8 "class Foo {}").

Definition bar_kt : node := Regular (encode_utf8 "fun bar() = 1").

Definition big_kt : node := Regular (repeat "x"%byte 130).

(** Two eligible sources and one generated source that the loop skips. *)
Definition scenario_sources : list string :=
  ["app/Foo.java"; "app/_generated_databinding/Gen.java"; "app/Bar.kt"].

(** The sources on disk, the resource file where the warm-up left it, a
    kicker object of an earlier run, and processes of which the fifth
    (Gradle in the second iteration) fails. *)
Definition scenario : state :=
  State (list_to_map [("app/Foo.java", foo_java); ("app/Bar.kt", bar_kt);
                      ("app/_generated_databinding/Gen.java", foo_java);
                      (res, Directory); (raw, Directory);
                      (res +:+ "resources.properties", Regular [])])
        {["stale.kt"]} [] (fun i => i * 7 + 3) 0
        (fun i => Completed (if Nat.eqb i 4 then 1 else 0) "out" (float_of_Z 0)
                            (float_of_nat i)) [].

Definition sample_build_data : list (string * list float) :=
  [("Bazel", map float_of_Z [3; 1; 2]%Z); ("Buck2", [float_of_Q (5 # 2)]);
   ("Gradle", map float_of_Z [4; 1; 3; 2]%Z)].



(** The literals of the examples below, as [ast.literal_eval] and [float]
    read them. *)
Definition sample_literal_eval (text : string) : literal :=
  if String.eqb text "[]" then Value (PyList [])
  else if String.eqb text "[1.0]" then Value (PyList [PyNumber (float_of_Z 1)])
  else if String.eqb text "[1.0, 2.0]" then Value (PyList [PyNumber (float_of_Z 1); PyNumber (float_of_Z 2)])
  else if String.eqb text "['1.5']" then Value (PyList [PyString "1.5"])
  else if String.eqb text "[4.2, 3.9, 4.1]" then
    Value (PyList (map (fun q => PyNumber (float_of_Q q)) [42 # 10; 39 # 10; 41 # 10]%Q))
  else if String.eqb text "[8.7, 8.5, 8.6]" then
    Value (PyList (map (fun q => PyNumber (float_of_Q q)) [87 # 10; 85 # 10; 86 # 10]%Q))
  else if String.eqb text "4.2" then Value PyNotList
  else Malformed.

Definition sample_float_of_str (text : string) : option float :=
  if String.eqb text "1.5" then Some (float_of_Q (3 # 2)) else None.

Definition sample_rows : list (list string) :=
  [["Bazel"; "#4CAF50"; "[4.2, 3.9, 4.1]"];
   [];
   [" Buck2"; "#fb0 "; "[8.7, 8.5, 8.6]"]].

(** * Further vocabulary *)

(** ** Footprints *)

(** Every state a computation can end in, whatever its outcome, is
    related to the state it started from. *)
Definition always {A} (R : state -> state -> Prop) (m : M A) : Prop :=
  forall s, R s (exec m s).

(** What a kicker operation on [file] may change: the node of [file]
    itself, the dirty set by adding [file], the output and the position
    of the generator; nothing else. *)
Definition kicker_step (file : string) (s s' : state) : Prop :=
  (forall g, g <> file -> fs s' !! g = fs s !! g)
  /\ dirty_files s ⊆ dirty_files s'
  /\ dirty_files s' ⊆ {[file]} ∪ dirty_files s
  /\ launched s' = launched s
  /\ processes s' = processes s
  /\ entropy s' = entropy s.

(** The generated declaration for an extension of the template table. *)
Definition declaration_bytes (ext : string) : nat :=
  if String.eqb ext "py" then 126
  else if String.eqb ext "java" then 134
  else 119.

(** The dirty set is accurate about every file: [s] differs from [s0]
    by one mutation at the end of each dirty file, which is a regular
    file of a supported type, and in nothing else of the file system. *)
Definition tracked (s0 s : state) : Prop :=
  (forall f, f ∈ dirty_files s ->
     supported f = true
     /\ exists data m,
          fs s0 !! f = Some (Regular data)
          /\ fs s !! f = Some (Regular (data ++ m))
          /\ length m = removal_length f)
  /\ (forall f, f ∉ dirty_files s -> fs s !! f = fs s0 !! f).


(** The bytes an [append] to [file] takes off the end of [data] before
    it writes: the removal length when the file is marked dirty and
    holds that many bytes, none otherwise. *)
Definition cut_before_write (s : state) (file : string) (data : list byte) : nat :=
  if bool_decide (file ∈ dirty_files s) && (removal_length file <=? length data)%nat
  then removal_length file
  else 0.

(** ** build_script.py: what one pass of the loop starts *)

(** The three commands of a pass, in the order of the loop body. *)
Definition round_calls (bazel_working_dir bazel_target buck_target gradle_dir : string)
  : list process_call :=
  [ProcessCall (argv (bazel_build bazel_working_dir) "build" (Some bazel_target) [])
               (Some bazel_working_dir);
   ProcessCall (argv (gradle_build gradle_dir) "assembleDevRelease" None [])
               (Some gradle_dir);
   ProcessCall (argv buck_build "build" (Some buck_target) []) None].

(** ** build_script.py: targets *)

(** [s.split(sep)] for a non-empty [sep]: the pieces between the
    occurrences of [sep], which are found from the left and do not
    overlap.  [skip] counts the characters of the separator just found
    that are still to be passed, [piece] holds the piece read so far. *)
Fixpoint split_from (sep s : string) (skip : nat) (piece : string) : list string :=
  match s with
  | EmptyString => [piece]
  | String c s' =>
      match skip with
      | S k => split_from sep s' k piece
      | O =>
          if String.prefix sep s then
            piece :: split_from sep s' (String.length sep - 1) EmptyString
          else split_from sep s' 0 (piece +:+ String c EmptyString)
      end
  end.

Definition str_split (sep s : string) : list string :=
  split_from sep s 0 EmptyString.

Definition replace_target_prefix (target_file dir : string) : outcome string :=
  let dir_str := dir in
  let parts := str_split "//" target_file in
  if negb (Nat.eqb (length parts) 2) then
    Raise (ValueError "target_file must contain '//' once")
  else
    let dir_str :=
      if negb (ends_with_slash dir_str) then dir_str +:+ "/" else dir_str in
    Ret (dir_str +:+ nth 1 parts EmptyString).

(** What an [argparse] type function gives: the converted value, or
    [argparse.ArgumentTypeError] with its message. *)
Inductive argument (A : Type) : Type :=
  | Accepted (value : A)
  | ArgumentTypeError (message : string).
Arguments Accepted {A} value.
Arguments ArgumentTypeError {A} message.

Definition bazel_target_type (value : string) : argument string :=
  let parts := str_split "//" value in
  if negb (Nat.eqb (length parts) 2)
     || String.eqb (nth 0 parts EmptyString) EmptyString
     || String.eqb (nth 1 parts EmptyString) EmptyString
  then
    ArgumentTypeError
      ("Invalid bazel target format: '" +:+ value
       +:+ "'. Expected format: 'path/to/root//target'")
  else Accepted value.

(** The script splits the accepted argument again:
    [bazel_working_dir = bazel_parts[0]] and
    [bazel_target = f"//{bazel_parts[1]}"]; [None] stands for the
    [IndexError] of an index out of range. *)
Definition bazel_parts (bazel_target_arg : string) : option (string * string) :=
  let bazel_parts := str_split "//" bazel_target_arg in
  match nth_error bazel_parts 0, nth_error bazel_parts 1 with
  | Some bazel_working_dir, Some name => Some (bazel_working_dir, "//" +:+ name)
  | _, _ => None
  end.

(** ** build_script.py: the CSV file of the measurements *)

Definition custom_colors : list (string * string) :=
  [("Bazel", "#4CAF50"); ("Buck2", "#FF9800"); ("Gradle", "#9C27B0")].

Section WriteCsv.
(** [str(times)] for a list of floats. *)
Variable py_str : list float -> string.

(** The rows given to [writer.writerow], one per build system in the
    order of [custom_colors], the cells in the order of the field
    names.  No header row is written. *)
Definition written_rows (t : times) : list (list string) :=
  map (fun entry => [fst (fst entry); snd (fst entry); py_str (snd entry)])
      (zip custom_colors [bazel_times t; buck_times t; gradle_times t]).
End WriteCsv.

(** A [str] for the sample literals. *)
Definition sample_py_str (times : list float) : string :=
  match times with
  | x :: _ => if SFeqb x (float_of_Q (42 # 10)) then "[4.2, 3.9, 4.1]" else "[8.7, 8.5, 8.6]"
  | [] => "[]"
  end.

(** ** build_html_visualiser.py: the systems the insights name *)

(** [min(items, key=key)] and [max(items, key=key)]: of several items
    with the extreme key the first one is kept; an empty argument
    raises. *)
Definition min_by {A} (key : A -> float) (items : list A) : outcome A :=
  match items with
  | [] => Raise (ValueError "min() arg is an empty sequence")
  | x :: rest =>
      Ret (fold_left (fun m y => if flt (key y) (key m) then y else m) rest x)
  end.

Definition max_by {A} (key : A -> float) (items : list A) : outcome A :=
  match items with
  | [] => Raise (ValueError "max() arg is an empty sequence")
  | x :: rest =>
      Ret (fold_left (fun m y => if flt (key m) (key y) then y else m) rest x)
  end.

Definition fastest_system (stats : list (string * Stats.t)) : outcome (string * Stats.t) :=
  min_by (fun x => Stats.mean (snd x)) stats.

Definition slowest_system (stats : list (string * Stats.t)) : outcome (string * Stats.t) :=
  max_by (fun x => Stats.mean (snd x)) stats.

Definition most_consistent (stats : list (string * Stats.t)) : outcome (string * Stats.t) :=
  min_by (fun x => Stats.std_dev (snd x)) stats.

(** ** build_visualiser.py: the data of the charts *)

(** The Python values the chart functions are given. *)
#[warnings="-register-all"] Inductive pyobj :=
| PyDict (entries : list (string * pyobj))
| PyFloat (value : float)
| PyStr (text : string)
| PyFloats (values : list float).

(** [type(o).__name__]. *)
Definition type_name (o : pyobj) : string :=
  match o with
  | PyDict _ => "dict"
  | PyFloat _ => "float"
  | PyStr _ => "str"
  | PyFloats _ => "list"
  end.

(** The double quote. *)
Definition DQ : string := String (ascii_of_nat 34) EmptyString.

(** [sep.join(parts)]. *)
Fixpoint join (sep : string) (parts : list string) : string :=
  match parts with
  | [] => EmptyString
  | [p] => p
  | p :: rest => p +:+ sep +:+ join sep rest
  end.

(** [str(index)] for a non-negative [int]. *)
Definition str_of_nat (n : nat) : string := NilZero.string_of_uint (Nat.to_uint n).

Definition format_label_block (expected_keys : list string) (index : nat) : string :=
  let inner :=
    join ", " (map (fun key => DQ +:+ key +:+ DQ +:+ ": " +:+ key +:+ str_of_nat index)
                   expected_keys) in
  DQ +:+ "Label" +:+ str_of_nat index +:+ DQ +:+ ": {" +:+ inner +:+ "}".

Definition expected_data_format (expected_keys : list string) : string :=
  NL +:+ "Expected data format:" +:+ NL +:+ "{" +:+ NL
  +:+ "    " +:+ format_label_block expected_keys 1 +:+ "," +:+ NL
  +:+ "    " +:+ format_label_block expected_keys 2 +:+ "," +:+ NL
  +:+ "    ..." +:+ NL +:+ "}" +:+ NL.

(** [expected_key not in value], tried for the expected keys in turn. *)
Fixpoint check_keys (key : string) (value : list (string * pyobj))
    (expected_keys all_keys : list string) : outcome unit :=
  match expected_keys with
  | [] => Ret tt
  | expected_key :: rest =>
      if negb (existsb (String.eqb expected_key) (map fst value)) then
        Raise (ValueError ("Missing required key '" +:+ expected_key
                           +:+ "' in data for '" +:+ key +:+ "'" +:+ NL
                           +:+ expected_data_format all_keys))
      else check_keys key value rest all_keys
  end.

(** [for key, value in data.items(): ...] *)
Fixpoint validate_items (items : list (string * pyobj)) (expected_keys : list string)
  : outcome unit :=
  match items with
  | [] => Ret tt
  | (key, value) :: rest =>
      match value with
      | PyDict entries =>
          match check_keys key entries expected_keys expected_keys with
          | Ret _ => validate_items rest expected_keys
          | Raise e => Raise e
          end
      | _ => Raise (ValueError ("Value for key '" +:+ key +:+ "' must be a dictionary"))
      end
  end.

Definition validate_data (data : pyobj) (expected_keys : list string) : outcome unit :=
  match data with
  | PyDict items => validate_items items expected_keys
  | _ =>
      Raise (TypeError ("Expected a dictionary for data parameter, got "
                        +:+ type_name data))
  end.

(** A result of code that also indexes lists: a value, [IndexError], or
    one of the other exceptions. *)
Inductive indexed (A : Type) : Type :=
| Got (a : A)
| IndexError
| Raised (e : exn).
Arguments Got {A} a.
Arguments IndexError {A}.
Arguments Raised {A} e.

(** [len(list(build_data.values())[0])]. *)
Definition num_rounds (build_data : list (string * list float)) : indexed nat :=
  match build_data with
  | [] => IndexError
  | (_, times) :: _ => Got (length times)
  end.

(** The three loops of [generate_build_visualisations] that fill [data]:
    [data[build_system] = {field: value, "color": colors[build_system]}],
    the value being computed from [times] before the color is looked
    up. *)
Fixpoint fill_data (field : string) (value_of : list float -> indexed pyobj)
    (items : list (string * list float)) (colors : list (string * string))
    (data : list (string * pyobj)) : indexed (list (string * pyobj)) :=
  match items with
  | [] => Got data
  | (build_system, times) :: rest =>
      match value_of times with
      | Got value =>
          match dict_get build_system colors with
          | Some color =>
              fill_data field value_of rest colors
                (dict_set build_system
                   (PyDict [(field, value); ("color", PyStr color)]) data)
          | None => Raised (KeyError build_system)
          end
      | IndexError => IndexError
      | Raised e => Raised e
      end
  end.

(** [{"value": statistics.mean(times), ...}] *)
Definition average_data (build_data : list (string * list float))
    (colors : list (string * string)) : indexed (list (string * pyobj)) :=
  fill_data "value"
    (fun times => match statistics_mean times with
                  | Ret avg_time => Got (PyFloat avg_time)
                  | Raise e => Raised e
                  end)
    build_data colors [].

(** [{"y_values": times, ...}] *)
Definition sequential_data (build_data : list (string * list float))
    (colors : list (string * string)) : indexed (list (string * pyobj)) :=
  fill_data "y_values" (fun times => Got (PyFloats times)) build_data colors [].

(** [{"value": times[i], ...}] for round [i]. *)
Definition round_data (i : nat) (build_data : list (string * list float))
    (colors : list (string * string)) : indexed (list (string * pyobj)) :=
  fill_data "value"
    (fun times => match nth_error times i with
                  | Some time => Got (PyFloat time)
                  | None => IndexError
                  end)
    build_data colors [].

(** ** build_script.py: the sources of the Buck target *)

(** [s.endswith(suffix)]: some tail of [s] is [suffix]. *)
Fixpoint ends_with (suffix s : string) : bool :=
  String.eqb s suffix
  || match s with
     | EmptyString => false
     | String _ s' => ends_with suffix s'
     end.

(** [[replace_target_prefix(source_file, path_to_cell) for source_file in
    ...]]: the first call that raises ends the comprehension. *)
Fixpoint replace_prefixes (source_files : list string) (path_to_cell : string)
  : outcome (list string) :=
  match source_files with
  | [] => Ret []
  | source_file :: rest =>
      match replace_target_prefix source_file path_to_cell with
      | Ret path =>
          match replace_prefixes rest path_to_cell with
          | Ret paths => Ret (path :: paths)
          | Raise e => Raise e
          end
      | Raise e => Raise e
      end
  end.

(** The sources of every target, [attrs.get("srcs", [])], in the order
    of [data]. *)
Definition collect_sources (data : list (string * list (string * list string)))
  : list string :=
  flat_map (fun entry => default [] (dict_get "srcs" (snd entry))) data.

Definition not_xml (source_file : string) : bool :=
  negb (ends_with ".xml" (lower source_file)).

(** [get_source_files_buck] from [data = json.loads(result.stdout)] on:
    the sources are collected, the XML files dropped, and the cell
    prefix of each remaining one replaced. *)
Definition get_source_files_buck (path_to_cell : string)
    (data : list (string * list (string * list string))) : outcome (list string) :=
  let source_files := collect_sources data in
  let filtered_source_files := List.filter not_xml source_files in
  replace_prefixes filtered_source_files path_to_cell.

(** A query result with a Kotlin source, a layout and a target without
    sources. *)
Definition sample_query : list (string * list (string * list string)) :=
  [("root//app:app", [("srcs", ["root//app/src/Main.kt"; "root//app/res/Layout.XML"])]);
   ("root//app:lib", [("visibility", ["PUBLIC"])])].

(** ** File names *)

(** [n] extension separators in a row. *)
Definition dots (n : nat) : string := string_of_list_ascii (repeat "."%char n).
(** The place of a float that is not the NaN in the order of [<]: the
    sign class first, then exponent and mantissa. *)
Definition fkey (x : float) : Z * Z * Z :=
  match x with
  | S754_nan => (0, 0, 0)
  | S754_zero _ => (0, 0, 0)
  | S754_infinity true => (-2, 0, 0)
  | S754_infinity false => (2, 0, 0)
  | S754_finite true m e => (-1, - e, Zneg m)
  | S754_finite false m e => (1, e, Zpos m)
  end%Z.

Definition lex_le (a b : Z * Z * Z) : Prop :=
  (a.1.1 < b.1.1
   \/ (a.1.1 = b.1.1
       /\ (a.1.2 < b.1.2 \/ (a.1.2 = b.1.2 /\ a.2 <= b.2))))%Z.
(** ** The order of floats *)

Lemma fle_fkey (x y : float) :
  is_nan x = false -> is_nan y = false ->
  fle x y = true <-> lex_le (fkey x) (fkey y).
Proof.
  unfold fle, SFleb, lex_le.
  destruct x as [sx|sx| |sx mx ex], y as [sy|sy| |sy my ey];
    try discriminate; intros _ _;
    try destruct sx; try destruct sy; cbn -[Z.compare Z.lt Z.le Z.opp];
    try (split; [intros _; lia | reflexivity]);
    try (split; [discriminate | lia]).
  - change (Pos.compare_cont Eq mx my) with (Pos.compare mx my).
    destruct (Z.compare_spec ex ey), (Pos.compare_spec mx my);
      cbn; split; try discriminate; try reflexivity; lia.
  - change (Pos.compare_cont Eq mx my) with (Pos.compare mx my).
    destruct (Z.compare_spec ex ey), (Pos.compare_spec mx my);
      cbn; split; try discriminate; try reflexivity; lia.
Qed.

Lemma flt_fkey (x y : float) :
  is_nan x = false -> is_nan y = false ->
  flt x y = true <-> ~ lex_le (fkey y) (fkey x).
Proof.
  unfold flt, SFltb, lex_le.
  destruct x as [sx|sx| |sx mx ex], y as [sy|sy| |sy my ey];
    try discriminate; intros _ _;
    try destruct sx; try destruct sy; cbn -[Z.compare Z.lt Z.le Z.opp];
    try (split; [intros _; lia | reflexivity]);
    try (split; [discriminate | lia]).
  - change (Pos.compare_cont Eq mx my) with (Pos.compare mx my).
    destruct (Z.compare_spec ex ey), (Pos.compare_spec mx my);
      cbn; split; try discriminate; try reflexivity; lia.
  - change (Pos.compare_cont Eq mx my) with (Pos.compare mx my).
    destruct (Z.compare_spec ex ey), (Pos.compare_spec mx my);
      cbn; split; try discriminate; try reflexivity; lia.
Qed.

Lemma fle_not_nan (x y : float) :
  fle x y = true -> is_nan x = false /\ is_nan y = false.
Proof. destruct x, y; try discriminate; now split. Qed.

Lemma flt_not_nan (x y : float) :
  flt x y = true -> is_nan x = false /\ is_nan y = false.
Proof. destruct x, y; try discriminate; now split. Qed.

Lemma fle_refl (x : float) : is_nan x = false -> fle x x = true.
Proof. intros N. apply fle_fkey; auto. unfold lex_le. lia. Qed.

Lemma fle_trans (x y z : float) :
  fle x y = true -> fle y z = true -> fle x z = true.
Proof.
  intros A B.
  destruct (fle_not_nan _ _ A) as [Nx Ny], (fle_not_nan _ _ B) as [_ Nz].
  apply fle_fkey in A, B; auto. apply fle_fkey; auto.
  unfold lex_le in *. lia.
Qed.

(** Two floats that are not the NaN are comparable. *)
Lemma flt_false_fle (x y : float) :
  is_nan x = false -> is_nan y = false -> flt x y = false -> fle y x = true.
Proof.
  intros Nx Ny L. apply fle_fkey; auto.
  destruct (flt x y) eqn:E; [discriminate|].
  assert (X : ~ ~ lex_le (fkey y) (fkey x)).
  { intros C. apply flt_fkey in C; auto. congruence. }
  unfold lex_le in *. lia.
Qed.

Lemma flt_fle (x y : float) : flt x y = true -> fle x y = true.
Proof.
  intros L. destruct (flt_not_nan _ _ L) as [Nx Ny].
  apply flt_fkey in L; auto. apply fle_fkey; auto. unfold lex_le in *. lia.
Qed.

Lemma flt_not_fle (x y : float) : flt x y = true -> fle y x = false.
Proof.
  intros L. destruct (flt_not_nan _ _ L) as [Nx Ny].
  apply flt_fkey in L; auto.
  destruct (fle y x) eqn:E; [|reflexivity].
  apply fle_fkey in E; auto. contradiction.
Qed.

Lemma flt_trans (x y z : float) :
  flt x y = true -> flt y z = true -> flt x z = true.
Proof.
  intros A B.
  destruct (flt_not_nan _ _ A) as [Nx Ny], (flt_not_nan _ _ B) as [_ Nz].
  apply flt_fkey in A, B; auto. apply flt_fkey; auto.
  unfold lex_le in *. lia.
Qed.

Lemma flt_fle_trans (x y z : float) :
  flt x y = true -> fle y z = true -> flt x z = true.
Proof.
  intros A B.
  destruct (flt_not_nan _ _ A) as [Nx Ny], (fle_not_nan _ _ B) as [_ Nz].
  apply flt_fkey in A; auto. apply fle_fkey in B; auto. apply flt_fkey; auto.
  unfold lex_le in *. lia.
Qed.

Lemma fle_flt_trans (x y z : float) :
  fle x y = true -> flt y z = true -> flt x z = true.
Proof.
  intros A B.
  destruct (fle_not_nan _ _ A) as [Nx Ny], (flt_not_nan _ _ B) as [_ Nz].
  apply fle_fkey in A; auto. apply flt_fkey in B; auto. apply flt_fkey; auto.
  unfold lex_le in *. lia.
Qed.

Lemma flt_irrefl (x : float) : flt x x = false.
Proof.
  destruct (flt x x) eqn:C; [|reflexivity].
  pose proof (flt_not_fle _ _ C) as A. pose proof (flt_fle _ _ C) as B. congruence.
Qed.
(** * Properties *)

(** ** The monad *)

Lemma bind_Ret {A B} (m : M A) (f : A -> M B) s a s' :
  m s = (Ret a, s') -> (m ≫= f) s = f a s'.
Proof. intros E. unfold mbind, M_bind. now rewrite E. Qed.

Lemma bind_Raise {A B} (m : M A) (f : A -> M B) s e s' :
  m s = (Raise e, s') -> (m ≫= f) s = (Raise e, s').
Proof. intros E. unfold mbind, M_bind. now rewrite E. Qed.

Lemma try_except_Ret {A} (m : M A) h s a s' :
  m s = (Ret a, s') -> try_except m h s = (Ret a, s').
Proof. intros E. unfold try_except. now rewrite E. Qed.

Lemma try_except_Raise {A} (m : M A) h s e s' :
  m s = (Raise e, s') -> try_except m h s = h e s'.
Proof. intros E. unfold try_except. now rewrite E. Qed.

(** ** Strings and bytes *)

Lemma encode_utf8_app a b :
  encode_utf8 (a +:+ b) = encode_utf8 a ++ encode_utf8 b.
Proof.
  induction a as [|c a IH]; simpl; [reflexivity|].
  now rewrite IH, app_assoc.
Qed.

Lemma pick_letter_one_byte r :
  length (encode_char (pick ascii_letters r)) = 1.
Proof.
  assert (H : forallb (fun i => Nat.eqb (length (encode_char (pick ascii_letters i))) 1)
                (seq 0 52) = true) by (vm_compute; reflexivity).
  rewrite forallb_forall in H.
  assert (E : pick ascii_letters r = pick ascii_letters (r mod 52)).
  { unfold pick. change (String.length ascii_letters) with 52.
    now rewrite Nat.Div0.mod_mod. }
  rewrite E. apply Nat.eqb_eq, H, in_seq.
  pose proof (Nat.mod_upper_bound r 52). lia.
Qed.

Lemma encode_letters_length (g : nat -> nat) l :
  length (encode_utf8
            (string_of_list_ascii (map (fun i => pick ascii_letters (g i)) l)))
  = length l.
Proof.
  induction l as [|i l IH]; simpl; [reflexivity|].
  rewrite length_app, pick_letter_one_byte, IH. reflexivity.
Qed.

Lemma lower_supported_cases file :
  supported file = true ->
  lower (extension file) = "py" \/ lower (extension file) = "java"
  \/ lower (extension file) = "kt".
Proof.
  unfold supported. intros H. apply bool_decide_eq_true in H.
  rewrite !elem_of_cons, elem_of_nil in H. tauto.
Qed.

Lemma templates_lookup_unsupported file :
  supported file = false -> function_templates !! lower (extension file) = None.
Proof.
  unfold supported. intros H. apply bool_decide_eq_false in H.
  unfold function_templates.
  rewrite !elem_of_cons, elem_of_nil in H.
  rewrite !lookup_insert_ne, lookup_empty by (intros E; rewrite <- E in H; tauto).
  reflexivity.
Qed.

Lemma templates_lookup_supported file :
  supported file = true -> is_Some (function_templates !! lower (extension file)).
Proof.
  intros H. destruct (lower_supported_cases file H) as [E|[E|E]];
    rewrite E; vm_compute; eauto.
Qed.

Lemma extension_nonempty file :
  supported file = true -> String.eqb (extension file) EmptyString = false.
Proof.
  intros H. apply String.eqb_neq. intros E.
  destruct (lower_supported_cases file H) as [X|[X|X]];
    rewrite E in X; discriminate.
Qed.

(** ** Validation and generation *)

Lemma validate_supported file s :
  supported file = true -> _validate_file_type file s = (Ret tt, s).
Proof.
  intros H. unfold _validate_file_type.
  rewrite (extension_nonempty _ H).
  destruct (templates_lookup_supported _ H) as [t ->]. reflexivity.
Qed.

Lemma validate_unsupported file s :
  supported file = false ->
  exists msg, _validate_file_type file s = (Raise (ValueError msg), s).
Proof.
  intros H. unfold _validate_file_type.
  destruct (String.eqb (extension file) EmptyString); [eauto|].
  rewrite (templates_lookup_unsupported _ H). eauto.
Qed.

Lemma generate_supported file s :
  supported file = true ->
  exists content,
    _generate_content file s
      = (Ret content, set_draws (draws s + FUNCTION_LENGTH) s)
    /\ length (encode_utf8 content) = content_length file.
Proof.
  intros H. unfold _generate_content, content_length.
  rewrite (bind_Ret _ _ _ _ _ (validate_supported _ s H)).
  destruct (lower_supported_cases file H) as [E|[E|E]]; rewrite E;
    (eexists; split; [reflexivity|]);
    cbn [format foldr py_template java_template kt_template];
    rewrite !encode_utf8_app, !length_app, encode_letters_length, length_seq;
    vm_compute; reflexivity.
Qed.

Lemma generate_unsupported file s :
  supported file = false ->
  exists msg, _generate_content file s = (Raise (ValueError msg), s).
Proof.
  intros H. destruct (validate_unsupported file s H) as [msg E].
  exists msg. unfold _generate_content. now rewrite (bind_Raise _ _ _ _ _ E).
Qed.

(** ** Reverting one file *)

Lemma remove_truncates file s data :
  supported file = true ->
  fs s !! file = Some (Regular data) ->
  removal_length file <= length data ->
  _remove_appended_content file s
  = (Ret tt,
     set_fs (<[file := Regular (take (length data - removal_length file) data)]> (fs s))
            (set_draws (draws s + FUNCTION_LENGTH) s)).
Proof.
  intros H F L. unfold _remove_appended_content.
  destruct (generate_supported file s H) as (content & G & Len).
  apply try_except_Ret. rewrite (bind_Ret _ _ _ _ _ G).
  unfold open_truncate_tail. cbn [set_draws fs]. rewrite F.
  change (length (encode_utf8 NL) * 2) with 2. rewrite Len.
  fold (removal_length file).
  destruct (Nat.ltb_spec (length data) (removal_length file)); [lia|reflexivity].
Qed.

(** ** Appending to one file *)

Lemma mutation_length content :
  length (encode_utf8 (NL +:+ content +:+ NL)) = 2 + length (encode_utf8 content).
Proof.
  rewrite !encode_utf8_app, !length_app. change (length (encode_utf8 NL)) with 1. lia.
Qed.

Lemma append_content_fresh file content s data :
  fs s !! file = Some (Regular data) ->
  file ∉ dirty_files s ->
  _append_content file content s
  = (Ret tt,
     set_dirty ({[file]} ∪ dirty_files s)
       (set_fs (<[file := Regular (data ++ mutation content)]> (fs s)) s)).
Proof.
  intros F D. unfold _append_content.
  rewrite (bind_Ret _ _ s s s) by reflexivity.
  rewrite bool_decide_eq_false_2 by exact D.
  rewrite (bind_Ret _ _ s tt s) by reflexivity.
  apply try_except_Ret.
  unfold mbind, M_bind, mret, M_ret, path_exists, open_append_write, modify.
  rewrite bool_decide_eq_true_2 by (rewrite F; eauto).
  cbn beta iota. rewrite F. reflexivity.
Qed.

Lemma append_fresh file s data :
  supported file = true ->
  fs s !! file = Some (Regular data) ->
  file ∉ dirty_files s ->
  exists content,
    length (mutation content) = removal_length file
    /\ append file s
       = (Ret tt,
          set_dirty ({[file]} ∪ dirty_files s)
            (set_fs (<[file := Regular (data ++ mutation content)]> (fs s))
               (set_draws (draws s + FUNCTION_LENGTH) s))).
Proof.
  intros H F D.
  destruct (generate_supported file s H) as (content & G & Len).
  exists content. split.
  { unfold mutation, removal_length. rewrite mutation_length. lia. }
  unfold append.
  rewrite (bind_Ret _ _ _ _ _ (validate_supported _ s H)).
  rewrite (bind_Ret _ _ _ _ _ G).
  now rewrite (append_content_fresh file content _ data).
Qed.

Lemma append_marked file s data m :
  supported file = true ->
  fs s !! file = Some (Regular (data ++ m)) ->
  length m = removal_length file ->
  file ∈ dirty_files s ->
  exists content,
    length (mutation content) = removal_length file
    /\ append file s
       = (Ret tt,
          set_dirty ({[file]} ∪ dirty_files s)
            (set_fs (<[file := Regular (data ++ mutation content)]> (fs s))
               (set_draws (draws s + FUNCTION_LENGTH + FUNCTION_LENGTH) s))).
Proof.
  intros H F L D.
  destruct (generate_supported file s H) as (content & G & Len).
  exists content. split.
  { unfold mutation, removal_length. rewrite mutation_length. lia. }
  unfold append.
  rewrite (bind_Ret _ _ _ _ _ (validate_supported _ s H)).
  rewrite (bind_Ret _ _ _ _ _ G).
  unfold _append_content.
  set (s1 := set_draws (draws s + FUNCTION_LENGTH) s).
  rewrite (bind_Ret _ _ s1 s1 s1) by reflexivity.
  rewrite bool_decide_eq_true_2 by exact D.
  assert (R := remove_truncates file s1 (data ++ m) H F).
  rewrite length_app, L in R.
  replace (length data + removal_length file - removal_length file)
    with (length data) in R by lia.
  rewrite take_app_length in R.
  rewrite (bind_Ret _ _ _ _ _ (R ltac:(lia))).
  apply try_except_Ret.
  unfold mbind, M_bind, mret, M_ret, path_exists, open_append_write, modify.
  cbn [fs set_fs set_draws]. rewrite lookup_insert_eq.
  rewrite bool_decide_eq_true_2 by eauto.
  cbn beta iota. cbn [fs set_fs set_draws]. rewrite lookup_insert_eq.
  rewrite insert_insert_eq. reflexivity.
Qed.

Lemma append_tracked file s data :
  supported file = true ->
  holds_original s file data ->
  exists content s1,
    length (mutation content) = removal_length file
    /\ append file s = (Ret tt, s1)
    /\ fs s1 = <[file := Regular (data ++ mutation content)]> (fs s)
    /\ dirty_files s1 = {[file]} ∪ dirty_files s
    /\ draws s + FUNCTION_LENGTH <= draws s1.
Proof.
  intros H [[D F]|(D & m & F & L)].
  - destruct (append_fresh file s data H F D) as (content & Len & A).
    eexists content, _. split; [exact Len|]. split; [exact A|].
    cbn [fs dirty_files draws set_fs set_dirty set_draws]. auto.
  - destruct (append_marked file s data m H F L D) as (content & Len & A).
    eexists content, _. split; [exact Len|]. split; [exact A|].
    cbn [fs dirty_files draws set_fs set_dirty set_draws].
    repeat split; lia.
Qed.

Lemma cleanup_after_append file s1 data content :
  supported file = true ->
  length (mutation content) = removal_length file ->
  fs s1 !! file = Some (Regular (data ++ mutation content)) ->
  cleanup file s1
  = (Ret tt, set_fs (<[file := Regular data]> (fs s1))
               (set_draws (draws s1 + FUNCTION_LENGTH) s1)).
Proof.
  intros H Len F. unfold cleanup.
  rewrite (remove_truncates file s1 (data ++ mutation content) H F)
    by (rewrite length_app; lia).
  rewrite length_app, Len.
  replace (length data + removal_length file - removal_length file)
    with (length data) by lia.
  now rewrite take_app_length.
Qed.

(** Round trip under an accurate dirty set: let [file] be a regular file
    of a supported type whose original content is [data], the dirty set
    being accurate about it ([holds_original]).  [append]
    returns and leaves [data] followed by a newline-wrapped declaration;
    [cleanup] then returns, having drawn a random identifier of its
    own, and [file] holds [data] again, every other path being untouched:
    when the file was not dirty, the file system is what it was before
    [append]. *)
Theorem append_then_cleanup_restores (file : string) (data : list byte) (s : state) :
  supported file = true ->
  holds_original s file data ->
  exists content s1 s2,
    append file s = (Ret tt, s1)
    /\ fs s1 = <[file := Regular (data ++ mutation content)]> (fs s)
    /\ cleanup file s1 = (Ret tt, s2)
    /\ draws s2 = draws s1 + FUNCTION_LENGTH
    /\ fs s2 = <[file := Regular data]> (fs s)
    /\ (file ∉ dirty_files s -> fs s2 = fs s).
Proof.
  intros H O.
  destruct (append_tracked file s data H O) as (content & s1 & Len & A & F1 & _).
  exists content, s1. eexists. split; [exact A|]. split; [exact F1|].
  assert (F : fs s1 !! file = Some (Regular (data ++ mutation content)))
    by (rewrite F1; apply lookup_insert_eq).
  split; [exact (cleanup_after_append file s1 data content H Len F)|].
  cbn [fs draws set_fs set_draws]. split; [reflexivity|].
  rewrite F1, insert_insert_eq. split; [reflexivity|].
  intros D. destruct O as [[_ F0]|[D' _]]; [|contradiction].
  now apply insert_id.
Qed.

Lemma append_then_cleanup_restores_witness :
  supported "src/Foo.java" = true
  /\ holds_original (sample_state [("src/Foo.java", foo_java)]) "src/Foo.java"
       (encode_utf8 "class Foo {}")
  /\ exists content s1 s2,
       append "src/Foo.java" (sample_state [("src/Foo.java", foo_java)]) = (Ret tt, s1)
       /\ fs s1 = <["src/Foo.java" :=
                    Regular (encode_utf8 "class Foo {}" ++ mutation content)]>
                  (fs (sample_state [("src/Foo.java", foo_java)]))
       /\ cleanup "src/Foo.java" s1 = (Ret tt, s2)
       /\ draws s2 = draws s1 + FUNCTION_LENGTH
       /\ fs s2 = <["src/Foo.java" := Regular (encode_utf8 "class Foo {}")]>
                  (fs (sample_state [("src/Foo.java", foo_java)]))
       /\ ("src/Foo.java" ∉ dirty_files (sample_state [("src/Foo.java", foo_java)])
           -> fs s2 = fs (sample_state [("src/Foo.java", foo_java)])).
Proof.
  assert (H1 : supported "src/Foo.java" = true) by (vm_compute; reflexivity).
  assert (H2 : holds_original (sample_state [("src/Foo.java", foo_java)])
                 "src/Foo.java" (encode_utf8 "class Foo {}")).
  { left. split; [simpl; apply not_elem_of_empty|vm_compute; reflexivity]. }
  exact (conj H1 (conj H2 (append_then_cleanup_restores _ _ _ H1 H2))).
Defined.

(** Under the same assumption, two [append]s in a row leave [data]
    followed by exactly one mutation (the second call finds the file in
    the dirty set and reverts the first mutation before it writes), and
    one [cleanup] leaves [data]; when the file was not dirty at first,
    the file system is what it was. *)
Theorem append_twice_then_cleanup_restores (file : string) (data : list byte) (s : state) :
  supported file = true ->
  holds_original s file data ->
  exists c1 c2 s1 s2 s3,
    append file s = (Ret tt, s1)
    /\ fs s1 !! file = Some (Regular (data ++ mutation c1))
    /\ file ∈ dirty_files s1
    /\ append file s1 = (Ret tt, s2)
    /\ fs s2 !! file = Some (Regular (data ++ mutation c2))
    /\ length (mutation c2) = removal_length file
    /\ cleanup file s2 = (Ret tt, s3)
    /\ fs s3 = <[file := Regular data]> (fs s)
    /\ (file ∉ dirty_files s -> fs s3 = fs s).
Proof.
  intros H O.
  destruct (append_tracked file s data H O) as (c1 & s1 & L1 & A1 & F1 & D1 & _).
  assert (G1 : fs s1 !! file = Some (Regular (data ++ mutation c1)))
    by (rewrite F1; apply lookup_insert_eq).
  assert (I1 : file ∈ dirty_files s1)
    by (rewrite D1; apply elem_of_union_l, elem_of_singleton; reflexivity).
  assert (O1 : holds_original s1 file data) by (right; eauto).
  destruct (append_tracked file s1 data H O1) as (c2 & s2 & L2 & A2 & F2 & _).
  assert (G2 : fs s2 !! file = Some (Regular (data ++ mutation c2)))
    by (rewrite F2; apply lookup_insert_eq).
  exists c1, c2, s1, s2. eexists.
  split; [exact A1|]. split; [exact G1|]. split; [exact I1|].
  split; [exact A2|]. split; [exact G2|]. split; [exact L2|].
  split; [exact (cleanup_after_append file s2 data c2 H L2 G2)|].
  cbn [fs set_fs set_draws]. rewrite F2, F1, !insert_insert_eq.
  split; [reflexivity|].
  intros D. destruct O as [[_ F0]|[D' _]]; [|contradiction].
  now apply insert_id.
Qed.

Lemma append_twice_then_cleanup_restores_witness :
  supported "app/Bar.kt" = true
  /\ holds_original (sample_state [("app/Bar.kt", bar_kt)]) "app/Bar.kt"
       (encode_utf8 "fun bar() = 1")
  /\ exists c1 c2 s1 s2 s3,
       append "app/Bar.kt" (sample_state [("app/Bar.kt", bar_kt)]) = (Ret tt, s1)
       /\ fs s1 !! "app/Bar.kt"
          = Some (Regular (encode_utf8 "fun bar() = 1" ++ mutation c1))
       /\ "app/Bar.kt" ∈ dirty_files s1
       /\ append "app/Bar.kt" s1 = (Ret tt, s2)
       /\ fs s2 !! "app/Bar.kt"
          = Some (Regular (encode_utf8 "fun bar() = 1" ++ mutation c2))
       /\ length (mutation c2) = removal_length "app/Bar.kt"
       /\ cleanup "app/Bar.kt" s2 = (Ret tt, s3)
       /\ fs s3 = <["app/Bar.kt" := Regular (encode_utf8 "fun bar() = 1")]>
                  (fs (sample_state [("app/Bar.kt", bar_kt)]))
       /\ ("app/Bar.kt" ∉ dirty_files (sample_state [("app/Bar.kt", bar_kt)])
           -> fs s3 = fs (sample_state [("app/Bar.kt", bar_kt)])).
Proof.
  assert (H1 : supported "app/Bar.kt" = true) by (vm_compute; reflexivity).
  assert (H2 : holds_original (sample_state [("app/Bar.kt", bar_kt)]) "app/Bar.kt"
                 (encode_utf8 "fun bar() = 1")).
  { left. split; [simpl; apply not_elem_of_empty|vm_compute; reflexivity]. }
  exact (conj H1 (conj H2 (append_twice_then_cleanup_restores _ _ _ H1 H2))).
Defined.

(** ** Reverting: the small file, the dirty set, errors *)

Lemma generate_Ret_state file s content s' :
  _generate_content file s = (Ret content, s') ->
  s' = set_draws (draws s + FUNCTION_LENGTH) s.
Proof.
  intros G. destruct (supported file) eqn:H.
  - destruct (generate_supported file s H) as (c & G' & _). congruence.
  - destruct (generate_unsupported file s H) as (msg & G'). congruence.
Qed.

(** C4: when the file holds fewer bytes than two newlines plus the
    content regenerated by this very call, [cleanup] returns normally,
    prints the warning, and the file system is untouched. *)
Theorem cleanup_small_file_untouched
    (file : string) (data : list byte) (s s' : state) (content : string) :
  fs s !! file = Some (Regular data) ->
  _generate_content file s = (Ret content, s') ->
  length data < 2 + length (encode_utf8 content) ->
  cleanup file s = (Ret tt, add_line (PTooSmall file) s')
  /\ fs (add_line (PTooSmall file) s') = fs s
  /\ stdout (add_line (PTooSmall file) s') = stdout s ++ [PTooSmall file].
Proof.
  intros F G L. pose proof (generate_Ret_state _ _ _ _ G) as ->.
  split; [|split; reflexivity].
  unfold cleanup, _remove_appended_content. apply try_except_Ret.
  rewrite (bind_Ret _ _ _ _ _ G). unfold open_truncate_tail.
  cbn [fs set_draws]. rewrite F.
  change (length (encode_utf8 NL) * 2) with 2.
  destruct (Nat.ltb_spec (length data) (2 + length (encode_utf8 content)));
    [reflexivity|lia].
Qed.

Lemma cleanup_small_file_untouched_witness :
  exists content s',
    fs (sample_state [("src/Foo.java", foo_java)]) !! "src/Foo.java" = Some foo_java
    /\ _generate_content "src/Foo.java" (sample_state [("src/Foo.java", foo_java)])
       = (Ret content, s')
    /\ length (encode_utf8 "class Foo {}") < 2 + length (encode_utf8 content)
    /\ cleanup "src/Foo.java" (sample_state [("src/Foo.java", foo_java)])
       = (Ret tt, add_line (PTooSmall "src/Foo.java") s')
    /\ fs (add_line (PTooSmall "src/Foo.java") s')
       = fs (sample_state [("src/Foo.java", foo_java)])
    /\ stdout (add_line (PTooSmall "src/Foo.java") s')
       = stdout (sample_state [("src/Foo.java", foo_java)]) ++ [PTooSmall "src/Foo.java"].
Proof.
  eexists _, _.
  assert (H1 : fs (sample_state [("src/Foo.java", foo_java)]) !! "src/Foo.java"
               = Some foo_java) by (vm_compute; reflexivity).
  split; [exact H1|]. split; [vm_compute; reflexivity|].
  split; [vm_compute; lia|].
  eapply cleanup_small_file_untouched;
    [exact H1 | vm_compute; reflexivity | vm_compute; lia].
Defined.

Lemma remove_never_raises file s :
  exists s',
    _remove_appended_content file s = (Ret tt, s')
    /\ dirty_files s' = dirty_files s.
Proof.
  unfold _remove_appended_content, try_except.
  destruct (supported file) eqn:H.
  - destruct (generate_supported file s H) as (content & G & _).
    rewrite (bind_Ret _ _ _ _ _ G). unfold open_truncate_tail.
    cbn [fs set_draws].
    destruct (fs s !! file) as [[data|]|]; cbn.
    + match goal with |- context [if ?b then _ else _] => destruct b end; eauto.
    + eauto.
    + eauto.
  - destruct (generate_unsupported file s H) as (msg & G).
    rewrite (bind_Raise _ _ _ _ _ G). cbn. eauto.
Qed.

Lemma cleanup_keeps_dirty_set file s :
  result (cleanup file) s = Ret tt
  /\ dirty_files (exec (cleanup file) s) = dirty_files s.
Proof.
  unfold result, exec, cleanup.
  destruct (remove_never_raises file s) as (s' & -> & D). auto.
Qed.

(** C10: in every state [cleanup] leaves the dirty set as it finds it;
    and whatever that set [d] is (in particular when [file] was never
    appended to and is not in it), [cleanup] cuts the recomputed number of
    bytes off the end of a large enough file of a supported type. *)
Theorem cleanup_ignores_dirty_set (file : string) (s : state) :
  dirty_files (exec (cleanup file) s) = dirty_files s
  /\ forall (data : list byte) (d : gset string),
       supported file = true ->
       fs s !! file = Some (Regular data) ->
       removal_length file <= length data ->
       cleanup file (set_dirty d s)
       = (Ret tt,
          set_dirty d
            (set_fs (<[file := Regular (take (length data - removal_length file) data)]>
                       (fs s))
               (set_draws (draws s + FUNCTION_LENGTH) s))).
Proof.
  split; [apply cleanup_keeps_dirty_set|].
  intros data d H F L. unfold cleanup.
  now rewrite (remove_truncates file (set_dirty d s) data H F L).
Qed.

Lemma cleanup_ignores_dirty_set_witness :
  supported "Big.kt" = true
  /\ fs (sample_state [("Big.kt", big_kt)]) !! "Big.kt" = Some big_kt
  /\ removal_length "Big.kt" <= length (repeat "x"%byte 130)
  /\ fs (exec (cleanup "Big.kt") (set_dirty ∅ (sample_state [("Big.kt", big_kt)])))
       !! "Big.kt"
     = Some (Regular (repeat "x"%byte 9)).
Proof.
  assert (H1 : supported "Big.kt" = true) by (vm_compute; reflexivity).
  assert (H2 : fs (sample_state [("Big.kt", big_kt)]) !! "Big.kt" = Some big_kt)
    by (vm_compute; reflexivity).
  assert (H3 : removal_length "Big.kt" <= length (repeat "x"%byte 130))
    by (vm_compute; lia).
  repeat (split; [assumption|]).
  unfold exec.
  rewrite (proj2 (cleanup_ignores_dirty_set "Big.kt" _) _ ∅ H1 H2 H3).
  vm_compute; reflexivity.
Defined.

(** C1: [append] followed immediately by [cleanup] does not restore the
    file in every state the two operations themselves lead to.  On a
    fresh kicker a first [append], [cleanup] pair restores the 130 bytes
    of [Big.kt] but leaves the file in the dirty set, which only
    [cleanup_all_dirty] ever empties; the [append] of a second pair then
    reverts a mutation that is no longer there, and after its [cleanup]
    9 of the 130 original bytes are left. *)
Theorem append_cleanup_loses_bytes_in_second_round :
  let s := sample_state [("Big.kt", big_kt)] in
  let once := exec (append "Big.kt" ;; cleanup "Big.kt") s in
  dirty_files s = ∅
  /\ fs s !! "Big.kt" = Some (Regular (repeat "x"%byte 130))
  /\ result (append "Big.kt" ;; cleanup "Big.kt") s = Ret tt
  /\ fs once !! "Big.kt" = Some (Regular (repeat "x"%byte 130))
  /\ "Big.kt" ∈ dirty_files once
  /\ result (append "Big.kt" ;; cleanup "Big.kt") once = Ret tt
  /\ fs (exec (append "Big.kt" ;; cleanup "Big.kt") once) !! "Big.kt"
     = Some (Regular (repeat "x"%byte 9)).
Proof.
  cbv zeta. do 4 (split; [vm_compute; reflexivity|]). split.
  { apply (bool_decide_unpack _). vm_compute. exact I. }
  split; vm_compute; reflexivity.
Qed.

(** C3: after the same first round, two [append]s in a row and one
    [cleanup] do not restore the file either: the first of the two
    [append]s finds the file in the dirty set and cuts
    [removal_length] bytes of original content before it writes, the
    second replaces the mutation of the first, and [cleanup] leaves 9 of
    the 130 original bytes. *)
Theorem append_twice_cleanup_loses_bytes_after_a_round :
  let s := sample_state [("Big.kt", big_kt)] in
  let once := exec (append "Big.kt" ;; cleanup "Big.kt") s in
  let first := exec (append "Big.kt") once in
  let second := exec (append "Big.kt") first in
  fs once !! "Big.kt" = Some (Regular (repeat "x"%byte 130))
  /\ "Big.kt" ∈ dirty_files once
  /\ result (append "Big.kt") once = Ret tt
  /\ (exists m, fs first !! "Big.kt" = Some (Regular (repeat "x"%byte 9 ++ m))
                /\ length m = removal_length "Big.kt")
  /\ result (append "Big.kt") first = Ret tt
  /\ (exists m, fs second !! "Big.kt" = Some (Regular (repeat "x"%byte 9 ++ m))
                /\ length m = removal_length "Big.kt")
  /\ result (cleanup "Big.kt") second = Ret tt
  /\ fs (exec (cleanup "Big.kt") second) !! "Big.kt"
     = Some (Regular (repeat "x"%byte 9)).
Proof.
  cbv zeta. split; [vm_compute; reflexivity|]. split.
  { apply (bool_decide_unpack _). vm_compute. exact I. }
  split; [vm_compute; reflexivity|]. split.
  { eexists. split; [vm_compute; reflexivity|]. vm_compute; reflexivity. }
  split; [vm_compute; reflexivity|]. split.
  { eexists. split; [vm_compute; reflexivity|]. vm_compute; reflexivity. }
  split; vm_compute; reflexivity.
Qed.

(** The same in short: of the 130 original bytes, 9 are left after a
    second round. *)
Example second_round_cuts_original :
  let s := sample_state [("Big.kt", big_kt)] in
  let once := exec (append "Big.kt" ;; cleanup "Big.kt") s in
  let twice := exec (append "Big.kt" ;; cleanup "Big.kt") once in
  fs once !! "Big.kt" = Some big_kt
  /\ "Big.kt" ∈ dirty_files once
  /\ fs twice !! "Big.kt" = Some (Regular (repeat "x"%byte 9)).
Proof.
  cbv zeta. split; [vm_compute; reflexivity|]. split; [|vm_compute; reflexivity].
  apply (bool_decide_unpack _). vm_compute. exact I.
Qed.

(** ** Errors of [append] *)

(** C6: an unsupported or missing extension makes [append] raise the
    [ValueError] of [_validate_file_type] with the state (files, dirty
    set, output, random draws) exactly as it was; a supported but absent
    file makes it raise [FileNotFoundError] to the caller, with the file
    system and the dirty set as they were. *)
Theorem append_errors (file : string) (s : state) :
  (supported file = false ->
   append file s
   = (Raise (ValueError
               (if String.eqb (extension file) EmptyString
                then "File must have an extension"
                else "No function template defined for file extension: "
                     +:+ extension file)), s))
  /\ (supported file = true ->
      fs s !! file = None ->
      exists s',
        append file s = (Raise (FileNotFoundError EmptyString), s')
        /\ fs s' = fs s
        /\ dirty_files s' = dirty_files s).
Proof.
  split.
  - intros H. unfold append. apply bind_Raise. unfold _validate_file_type.
    destruct (String.eqb (extension file) EmptyString); [reflexivity|].
    now rewrite (templates_lookup_unsupported _ H).
  - intros H F. unfold append.
    rewrite (bind_Ret _ _ _ _ _ (validate_supported _ s H)).
    destruct (generate_supported file s H) as (content & G & _).
    rewrite (bind_Ret _ _ _ _ _ G). unfold _append_content.
    set (s1 := set_draws _ s).
    rewrite (bind_Ret _ _ s1 s1 s1) by reflexivity.
    assert (Hs2 : exists s2,
               (if bool_decide (file ∈ dirty_files s1)
                then _remove_appended_content file else mret tt) s1 = (Ret tt, s2)
               /\ fs s2 = fs s /\ dirty_files s2 = dirty_files s).
    { destruct (bool_decide (file ∈ dirty_files s1)).
      - unfold _remove_appended_content.
        destruct (generate_supported file s1 H) as (c2 & G2 & _).
        erewrite (try_except_Raise _ _ s1 (FileNotFoundError file)).
        2:{ rewrite (bind_Ret _ _ _ _ _ G2). unfold open_truncate_tail, s1.
            cbn [fs set_draws]. now rewrite F. }
        cbn. eauto.
      - exists s1. auto. }
    destruct Hs2 as (s2 & R & F2 & D2).
    rewrite (bind_Ret _ _ _ _ _ R).
    erewrite (try_except_Raise _ _ s2 (FileNotFoundError EmptyString)).
    2:{ unfold mbind, M_bind, path_exists.
        rewrite bool_decide_eq_false_2; [reflexivity|].
        rewrite F2, F. now intros [? ?]. }
    cbn. eauto.
Qed.

Lemma append_errors_witness :
  supported "notes.txt" = false
  /\ supported "Gone.kt" = true
  /\ fs (sample_state [("notes.txt", Regular [])]) !! "Gone.kt" = None
  /\ append "notes.txt" (sample_state [("notes.txt", Regular [])])
     = (Raise (ValueError "No function template defined for file extension: txt"),
        sample_state [("notes.txt", Regular [])])
  /\ exists s',
       append "Gone.kt" (sample_state [("notes.txt", Regular [])])
       = (Raise (FileNotFoundError EmptyString), s')
       /\ fs s' = fs (sample_state [("notes.txt", Regular [])])
       /\ dirty_files s' = dirty_files (sample_state [("notes.txt", Regular [])]).
Proof.
  assert (H1 : supported "notes.txt" = false) by (vm_compute; reflexivity).
  assert (H2 : supported "Gone.kt" = true) by (vm_compute; reflexivity).
  assert (H3 : fs (sample_state [("notes.txt", Regular [])]) !! "Gone.kt" = None)
    by (vm_compute; reflexivity).
  repeat (split; [assumption|]). split.
  - exact (proj1 (append_errors "notes.txt" _) H1).
  - exact (proj2 (append_errors "Gone.kt" _) H2 H3).
Defined.

(** ** Bulk cleanup *)

Lemma cleanup_all_fold files s :
  cleanup_all files s
  = (Ret tt, foldl (fun st f => exec (cleanup f) st) s files).
Proof.
  revert s. induction files as [|f files IH]; intros s; [reflexivity|].
  unfold cleanup_all in *. cbn [for_each foldl].
  destruct (cleanup_keeps_dirty_set f s) as [R _].
  unfold result, exec in *. destruct (cleanup f s) as [r s'] eqn:E.
  cbn in R. subst r. rewrite (bind_Ret _ _ _ _ _ E). apply IH.
Qed.

Lemma cleanup_all_dirty_fold `{SetIteration} s :
  cleanup_all_dirty s
  = (Ret tt,
     set_dirty ∅ (foldl (fun st f => exec (cleanup f) st) s (set_iter (dirty_files s)))).
Proof.
  unfold cleanup_all_dirty.
  rewrite (bind_Ret _ _ s s s) by reflexivity.
  now rewrite (bind_Ret _ _ _ _ _ (cleanup_all_fold _ s)).
Qed.

(** C5: [cleanup_all_dirty] runs [cleanup] once on each file of the dirty
    set; no [cleanup] ever raises, whatever the file is (missing,
    a directory, of an unsupported type); the call itself returns
    normally and the dirty set is empty afterwards. *)
Theorem cleanup_all_dirty_clears `{SetIteration} (s : state) :
  let files := set_iter (dirty_files s) in
  (forall f, f ∈ files <-> f ∈ dirty_files s)
  /\ NoDup files
  /\ (forall f st, result (cleanup f) st = Ret tt)
  /\ cleanup_all_dirty s
     = (Ret tt, set_dirty ∅ (foldl (fun st f => exec (cleanup f) st) s files))
  /\ dirty_files (exec cleanup_all_dirty s) = ∅.
Proof.
  intros files.
  assert (P : files ≡ₚ elements (dirty_files s)) by apply set_iter_perm.
  assert (E : cleanup_all_dirty s
              = (Ret tt, set_dirty ∅ (foldl (fun st f => exec (cleanup f) st) s files))).
  { apply cleanup_all_dirty_fold. }
  split; [|split; [|split; [|split]]].
  - intros f. now rewrite P, elem_of_elements.
  - rewrite P. apply NoDup_elements.
  - intros f st. apply cleanup_keeps_dirty_set.
  - exact E.
  - unfold exec. now rewrite E.
Qed.

(** A dirty set holding a vanished file, a directory and a file of a type
    without template: three errors are printed, none is raised, the set
    is emptied and the one healthy file is reverted. *)
Example cleanup_all_dirty_with_errors :
  let s := set_dirty {[ "gone/A.kt"; "dir/B.java"; "c.txt"; "ok/D.kt" ]}
             (sample_state [("dir/B.java", Directory); ("c.txt", Regular []);
                            ("ok/D.kt", big_kt)]) in
  result cleanup_all_dirty s = Ret tt
  /\ dirty_files (exec cleanup_all_dirty s) = ∅
  /\ length (stdout (exec cleanup_all_dirty s)) = 3
  /\ fs (exec cleanup_all_dirty s) !! "ok/D.kt" = Some (Regular (repeat "x"%byte 9)).
Proof. vm_compute. repeat split; reflexivity. Qed.

(** ** The build invoker *)

Lemma execute_eq self cmd target args s :
  execute self cmd target args s
  = (Ret (processes s (length (launched s)),
          elapsed (processes s (length (launched s)))),
     add_launched (ProcessCall (argv self cmd target args) (working_dir self)) s).
Proof.
  unfold execute, argv, subprocess_run, mbind, M_bind, mret, M_ret.
  destruct (truthy target); cbn; rewrite <- ?app_assoc; reflexivity.
Qed.

Lemma build_success self cmd target args s :
  returncode (processes s (length (launched s))) = 0%Z ->
  build self cmd target args s
  = (Ret (elapsed (processes s (length (launched s)))),
     add_line (PBuildTime (build_sys self) (elapsed (processes s (length (launched s)))))
       (add_line (PProcessOutput (captured (processes s (length (launched s)))))
          (add_launched (ProcessCall (argv self cmd target args) (working_dir self))
             (add_line (PBuilding (build_sys self)) s)))).
Proof.
  intros R. unfold build.
  rewrite (bind_Ret _ _ s tt (add_line (PBuilding (build_sys self)) s)) by reflexivity.
  rewrite (bind_Ret _ _ _ _ _ (execute_eq _ _ _ _ _)).
  cbn [fst snd launched add_line processes]. rewrite R. reflexivity.
Qed.

Lemma build_failure self cmd target args s :
  returncode (processes s (length (launched s))) <> 0%Z ->
  build self cmd target args s
  = (Raise (RuntimeError (build_sys self +:+ " build failed: "
                          +:+ captured (processes s (length (launched s))))),
     add_line (PProcessOutput (captured (processes s (length (launched s)))))
       (add_launched (ProcessCall (argv self cmd target args) (working_dir self))
          (add_line (PBuilding (build_sys self)) s))).
Proof.
  intros R. unfold build.
  rewrite (bind_Ret _ _ s tt (add_line (PBuilding (build_sys self)) s)) by reflexivity.
  rewrite (bind_Ret _ _ _ _ _ (execute_eq _ _ _ _ _)).
  cbn [fst snd launched add_line processes].
  apply Z.eqb_neq in R. rewrite R. reflexivity.
Qed.

Lemma flat_map_seq_S {A} (f : nat -> list A) a k :
  flat_map f (seq (S a) k) = flat_map (fun j => f (S j)) (seq a k).
Proof.
  revert a. induction k as [|k IH]; intros a; [reflexivity|].
  cbn [seq flat_map]. now rewrite IH.
Qed.

Lemma for_range_builds self cmd n target args k i s :
  (forall j, j < k -> returncode (processes s (length (launched s) + j)) = 0%Z) ->
  exists s',
    for_range i k (fun i =>
      print (PBuildOf (build_sys self) (i + 1) n) ;;
      build self cmd target args ;; mret tt) s = (Ret tt, s')
    /\ launched s'
       = launched s
         ++ repeat (ProcessCall (argv self cmd target args) (working_dir self)) k
    /\ stdout s'
       = stdout s
         ++ flat_map (fun j => round_lines self n s (i + j) (length (launched s) + j))
              (seq 0 k)
    /\ processes s' = processes s
    /\ fs s' = fs s /\ dirty_files s' = dirty_files s.
Proof.
  revert i s. induction k as [|k IH]; intros i s R.
  - exists s. cbn. rewrite !app_nil_r. repeat split; reflexivity.
  - cbn [for_range].
    pose (s1 := add_line (PBuildOf (build_sys self) (i + 1) n) s).
    assert (R0 : returncode (processes s1 (length (launched s1))) = 0%Z).
    { specialize (R 0 ltac:(lia)). now rewrite Nat.add_0_r in R. }
    pose proof (build_success self cmd target args s1 R0) as B.
    match type of B with _ = (_, ?st) => pose (s2 := st) end.
    destruct (IH (S i) s2) as (s' & E & La & Out & Pr & Fs & Di).
    { intros j Hj. specialize (R (S j) ltac:(lia)).
      subst s2 s1. cbn [processes launched add_line add_launched].
      rewrite length_app. cbn [length].
      now replace (length (launched s) + 1 + j) with (length (launched s) + S j) by lia. }
    exists s'. split.
    { rewrite (bind_Ret _ _ s tt s2); [exact E|].
      rewrite (bind_Ret _ _ s tt s1) by reflexivity.
      rewrite (bind_Ret _ _ _ _ _ B). reflexivity. }
    rewrite La, Out, Pr, Fs, Di. subst s2 s1.
    cbn [processes launched stdout fs dirty_files add_line add_launched].
    repeat split; try reflexivity.
    + now rewrite <- app_assoc.
    + cbn [seq flat_map]. rewrite flat_map_seq_S, !Nat.add_0_r.
      rewrite <- !app_assoc. f_equal. unfold round_lines.
      cbn [app processes launched add_line add_launched].
      do 4 f_equal. apply flat_map_ext. intros j.
      rewrite length_app. cbn [length].
      now replace (i + S j) with (S i + j) by lia;
          replace (length (launched s) + 1 + j) with (length (launched s) + S j) by lia.
Qed.

(** C7: when the next [n] processes all exit with status 0,
    [build_n_times] makes exactly [n] calls of the same command, one after
    the other, and returns [None]; the duration of the [j]-th call is
    printed on a line of its own, and nothing is computed from the [n]
    durations together. *)
Theorem build_n_times_sequential
    (self : BuildSys) (build_cmd : string) (n : nat) (target : option string)
    (args : list (string * string)) (s : state) :
  (forall j, j < n -> returncode (processes s (length (launched s) + j)) = 0%Z) ->
  exists s',
    build_n_times self build_cmd n target args s = (Ret tt, s')
    /\ launched s'
       = launched s
         ++ repeat (ProcessCall (argv self build_cmd target args) (working_dir self)) n
    /\ stdout s'
       = stdout s
         ++ flat_map (fun j => round_lines self n s j (length (launched s) + j))
              (seq 0 n).
Proof.
  intros R.
  destruct (for_range_builds self build_cmd n target args n 0 s R)
    as (s' & E & La & Out & _).
  exists s'. auto.
Qed.

Lemma build_n_times_sequential_witness :
  (forall j, j < 3 ->
     returncode (processes (sample_state []) (length (launched (sample_state [])) + j))
     = 0%Z)
  /\ exists s',
       build_n_times (Build_BuildSys "Gradle" "./gradlew" None) "assemble" 3 None []
         (sample_state []) = (Ret tt, s')
       /\ launched s' = repeat (ProcessCall ["./gradlew"; "assemble"] None) 3
       /\ stdout s'
          = flat_map (fun j =>
                        round_lines (Build_BuildSys "Gradle" "./gradlew" None) 3
                          (sample_state []) j j) (seq 0 3).
Proof.
  assert (H1 : forall j, j < 3 ->
     returncode (processes (sample_state []) (length (launched (sample_state [])) + j))
     = 0%Z) by (intros j _; reflexivity).
  split; [exact H1|].
  exact (build_n_times_sequential (Build_BuildSys "Gradle" "./gradlew" None)
           "assemble" 3 None [] (sample_state []) H1).
Defined.

(** A failing process ends the repetition: of three requested builds with
    the second failing, two processes are run and the error reaches the
    caller. *)
Example build_n_times_stops_at_failure :
  let s := State ∅ ∅ [] (fun i => i) 0
             (fun i => Completed (if Nat.eqb i 1 then 2 else 0) "log" (float_of_Z 0) (float_of_Z 1)) [] in
  result (build_n_times (Build_BuildSys "Gradle" "./gradlew" None) "assemble" 3 None []) s
  = Raise (RuntimeError "Gradle build failed: log")
  /\ length (launched
               (exec (build_n_times (Build_BuildSys "Gradle" "./gradlew" None)
                        "assemble" 3 None []) s)) = 2.
Proof. vm_compute. split; reflexivity. Qed.

(** ** The timed run: what the loop keeps true *)

Lemma preserves_ret {A} P (a : A) : preserves P (mret a).
Proof. intros s H. exact H. Qed.

Lemma preserves_bind {A B} P (m : M A) (f : A -> M B) :
  preserves P m -> (forall a, preserves P (f a)) -> preserves P (m ≫= f).
Proof.
  intros Hm Hf s H. specialize (Hm s H). unfold exec, mbind, M_bind in *.
  destruct (m s) as [[a|e] s']; [apply Hf|]; exact Hm.
Qed.

Lemma preserves_for_each {A} P (xs : list A) body :
  (forall x, preserves P (body x)) -> preserves P (for_each xs body).
Proof.
  intros Hb. induction xs as [|x xs IH]; cbn [for_each].
  - apply preserves_ret.
  - apply preserves_bind; auto.
Qed.

Lemma build_keeps_files self cmd target args s :
  fs (exec (build self cmd target args) s) = fs s
  /\ dirty_files (exec (build self cmd target args) s) = dirty_files s.
Proof.
  unfold exec.
  destruct (Z.eq_dec (returncode (processes s (length (launched s)))) 0%Z) as [R|R].
  - rewrite (build_success _ _ _ _ _ R). auto.
  - rewrite (build_failure _ _ _ _ _ R). auto.
Qed.

Lemma preserves_build P self cmd target args :
  on_files P -> preserves P (build self cmd target args).
Proof.
  intros F s H. destruct (build_keeps_files self cmd target args s).
  apply (F s); auto.
Qed.

Lemma marked_on_files s0 : on_files (marked s0).
Proof. intros s s' F D H. unfold marked in *. now rewrite F, D. Qed.

Lemma marked_start s : marked (set_dirty ∅ s) (set_dirty ∅ s).
Proof.
  split.
  - intros f Hf. cbn in Hf. now apply not_elem_of_empty in Hf.
  - reflexivity.
Qed.

Lemma append_unsupported file s :
  supported file = false ->
  exists msg, append file s = (Raise (ValueError msg), s).
Proof.
  intros H. destruct (validate_unsupported file s H) as [msg E].
  exists msg. unfold append. now apply bind_Raise.
Qed.

Lemma append_not_regular file s :
  supported file = true ->
  file ∉ dirty_files s ->
  (forall data, fs s !! file <> Some (Regular data)) ->
  exists e s',
    append file s = (Raise e, s')
    /\ fs s' = fs s /\ dirty_files s' = dirty_files s.
Proof.
  intros H D F. unfold append.
  rewrite (bind_Ret _ _ _ _ _ (validate_supported _ s H)).
  destruct (generate_supported file s H) as (content & G & _).
  rewrite (bind_Ret _ _ _ _ _ G). unfold _append_content.
  pose (s1 := set_draws (draws s + FUNCTION_LENGTH) s).
  rewrite (bind_Ret _ _ s1 s1 s1) by reflexivity.
  rewrite bool_decide_eq_false_2 by exact D.
  rewrite (bind_Ret _ _ s1 tt s1) by reflexivity.
  unfold try_except, mbind, M_bind, mret, M_ret, path_exists, open_append_write.
  subst s1. cbn [fs set_draws].
  destruct (fs s !! file) as [[data|]|] eqn:E.
  - now destruct (F data).
  - rewrite bool_decide_eq_true_2 by eauto. cbn. rewrite E. cbn. eauto.
  - rewrite bool_decide_eq_false_2 by (now intros [? ?]). cbn. eauto.
Qed.

Lemma in_added_other (g f : string) (d : gset string) :
  f ∈ ({[g]} ∪ d : gset string) -> f <> g -> f ∈ d.
Proof.
  intros Hf N. apply elem_of_union in Hf as [Hf|Hf]; [|exact Hf].
  apply elem_of_singleton in Hf. contradiction.
Qed.

Lemma not_in_added (g f : string) (d : gset string) :
  f ∉ ({[g]} ∪ d : gset string) -> g <> f /\ f ∉ d.
Proof.
  intros Hf. split.
  - intros ->. apply Hf, elem_of_union_l, elem_of_singleton. reflexivity.
  - intros X. apply Hf, elem_of_union_r, X.
Qed.

Lemma append_preserves_marked s0 g : preserves (marked s0) (append g).
Proof.
  intros s [Hd Hc]. destruct (supported g) eqn:Hs.
  2:{ destruct (append_unsupported g s Hs) as [msg E].
      unfold exec. rewrite E. now split. }
  destruct (decide (g ∈ dirty_files s)) as [D|D].
  - destruct (Hd g D) as (_ & data & m & F0 & F & L).
    destruct (append_marked g s data m Hs F L D) as (c & Lc & E).
    unfold exec. rewrite E. unfold marked.
      cbn [snd fs dirty_files set_fs set_dirty set_draws]. split.
    + intros f Hf. destruct (decide (f = g)) as [->|N].
      * split; [exact Hs|]. exists data, (mutation c).
        now rewrite lookup_insert_eq.
      * rewrite lookup_insert_ne by auto. apply Hd. eapply in_added_other; eauto.
    + intros f Hf Hsf. apply not_in_added in Hf as [N Hf].
      rewrite lookup_insert_ne by exact N. now apply Hc.
  - destruct (fs s !! g) as [[data|]|] eqn:F.
    + destruct (append_fresh g s data Hs F D) as (c & Lc & E).
      unfold exec. rewrite E. unfold marked.
      cbn [snd fs dirty_files set_fs set_dirty set_draws]. split.
      * intros f Hf. destruct (decide (f = g)) as [->|N].
        -- split; [exact Hs|]. exists data, (mutation c).
           rewrite lookup_insert_eq, <- (Hc g D Hs), F. auto.
        -- rewrite lookup_insert_ne by auto. apply Hd. eapply in_added_other; eauto.
      * intros f Hf Hsf. apply not_in_added in Hf as [N Hf].
        rewrite lookup_insert_ne by exact N. now apply Hc.
    + destruct (append_not_regular g s Hs D) as (e & s' & E & Fs & Di).
      { intros data. rewrite F. discriminate. }
      unfold exec. rewrite E. cbn [snd].
      apply (marked_on_files s0 s); auto. now split.
    + destruct (append_not_regular g s Hs D) as (e & s' & E & Fs & Di).
      { intros data. rewrite F. discriminate. }
      unfold exec. rewrite E. cbn [snd].
      apply (marked_on_files s0 s); auto. now split.
Qed.

Lemma shutil_move_preserves_marked s0 src dst :
  supported src = false ->
  supported dst = false ->
  supported (path_join dst (basename src)) = false ->
  preserves (marked s0) (shutil_move src dst).
Proof.
  intros U1 U2 U3 s [Hd Hc]. unfold exec, shutil_move.
  destruct (isdir dst s && String.eqb src dst); [now split|].
  match goal with |- context [bool_decide ?P] => destruct (bool_decide P) end;
    rewrite ?andb_true_r, ?andb_false_r.
  - destruct (isdir dst s); [now split|].
    destruct (fs s !! src) eqn:F; [|now split].
    unfold marked. cbn [snd fs dirty_files set_fs]. split.
    + intros f Hf. destruct (Hd f Hf) as (Sf & data & m & F0 & F1 & L).
      split; [exact Sf|]. exists data, m.
      rewrite lookup_insert_ne, lookup_delete_ne by congruence. auto.
    + intros f Hf Sf. rewrite lookup_insert_ne, lookup_delete_ne by congruence.
      now apply Hc.
  - destruct (fs s !! src) eqn:F; [|now split].
    unfold marked. cbn [snd fs dirty_files set_fs].
    assert (N : forall f, supported f = true ->
                (if isdir dst s then path_join dst (basename src) else dst) <> f)
      by (intros f Sf; destruct (isdir dst s); congruence).
    split.
    + intros f Hf. destruct (Hd f Hf) as (Sf & data & m & F0 & F1 & L).
      split; [exact Sf|]. exists data, m.
      rewrite lookup_insert_ne, lookup_delete_ne by (auto; congruence). auto.
    + intros f Hf Sf.
      rewrite lookup_insert_ne, lookup_delete_ne by (auto; congruence).
      now apply Hc.
Qed.

Lemma cleanup_marked g s data m :
  supported g = true ->
  fs s !! g = Some (Regular (data ++ m)) ->
  length m = removal_length g ->
  fs (exec (cleanup g) s) = <[g := Regular data]> (fs s).
Proof.
  intros Sg F L. unfold exec, cleanup.
  rewrite (remove_truncates g s (data ++ m) Sg F) by (rewrite length_app; lia).
  cbn [snd fs set_fs set_draws]. rewrite length_app, L.
  replace (length data + removal_length g - removal_length g)
    with (length data) by lia.
  now rewrite take_app_length.
Qed.

Lemma cleanup_fold_restores s0 todo : forall s,
  NoDup todo ->
  (forall f, f ∈ todo ->
     supported f = true
     /\ exists data m,
          fs s0 !! f = Some (Regular data)
          /\ fs s !! f = Some (Regular (data ++ m))
          /\ length m = removal_length f) ->
  (forall f, f ∉ todo -> supported f = true -> fs s !! f = fs s0 !! f) ->
  forall f, supported f = true ->
    fs (foldl (fun st f => exec (cleanup f) st) s todo) !! f = fs s0 !! f.
Proof.
  induction todo as [|g todo IH]; intros s ND Hd Hc.
  - intros f Sf. cbn [foldl]. apply Hc; [apply not_elem_of_nil|exact Sf].
  - apply NoDup_cons in ND as [Ng ND]. cbn [foldl].
    destruct (Hd g (list_elem_of_here _ _)) as (Sg & data & m & F0 & F & L).
    pose proof (cleanup_marked g s data m Sg F L) as C.
    apply IH; [exact ND| |].
    + intros f Hf. destruct (Hd f (list_elem_of_further _ _ _ Hf))
        as (Sf & d' & m' & G0 & G & L').
      split; [exact Sf|]. exists d', m'. rewrite C.
      rewrite lookup_insert_ne by (intros ->; contradiction). auto.
    + intros f Hf Sf. rewrite C. destruct (decide (g = f)) as [->|N].
      * now rewrite lookup_insert_eq, F0.
      * rewrite lookup_insert_ne by exact N. apply Hc; [|exact Sf].
        intros X. apply elem_of_cons in X as [->|X]; [now apply N|now apply Hf].
Qed.

Section ScriptProperties.
Variable build_count : nat.
Variables bazel_working_dir bazel_target buck_target gradle_dir : string.
Variable source_files : list string.
Variables initial_bazel_time initial_buck_time initial_gradle_time : float.
Context `{SetIteration}.

Local Abbreviation the_loop :=
  (timed_loop build_count bazel_working_dir bazel_target buck_target gradle_dir
     source_files).
Local Abbreviation the_guarded_loop :=
  (guarded_loop build_count bazel_working_dir bazel_target buck_target gradle_dir
     source_files).
Local Abbreviation the_run :=
  (timed_run build_count bazel_working_dir bazel_target buck_target gradle_dir
     source_files initial_bazel_time initial_buck_time initial_gradle_time).

Lemma iteration_preserves_marked s0 t :
  preserves (marked s0)
    (iteration bazel_working_dir bazel_target buck_target gradle_dir source_files t).
Proof.
  pose proof (marked_on_files s0) as F. unfold iteration.
  apply preserves_bind.
  { apply preserves_for_each. intros file.
    destruct (contains _ file);
      [apply preserves_ret|apply append_preserves_marked]. }
  intros _. apply preserves_bind.
  { apply shutil_move_preserves_marked; vm_compute; reflexivity. }
  intros _. apply preserves_bind; [now apply preserves_build|].
  intros bazel. apply preserves_bind.
  { apply shutil_move_preserves_marked; vm_compute; reflexivity. }
  intros _. apply preserves_bind; [now apply preserves_build|].
  intros gradle. apply preserves_bind; [now apply preserves_build|].
  intros buck. apply preserves_ret.
Qed.

Lemma iterations_preserves_marked s0 n : forall t,
  preserves (marked s0)
    (iterations bazel_working_dir bazel_target buck_target gradle_dir source_files n t).
Proof.
  induction n as [|n IH]; intros t; cbn [iterations].
  - apply preserves_ret.
  - apply preserves_bind; [apply iteration_preserves_marked|exact IH].
Qed.

Lemma cleanup_all_dirty_restores s0 s :
  marked s0 s ->
  forall f, supported f = true ->
    fs (exec cleanup_all_dirty s) !! f = fs s0 !! f.
Proof.
  intros [Hd Hc] f Sf. unfold exec. rewrite cleanup_all_dirty_fold.
  cbn [snd fs set_dirty].
  pose proof (set_iter_perm (dirty_files s)) as P.
  apply cleanup_fold_restores; [| | |exact Sf].
  - rewrite P. apply NoDup_elements.
  - intros g Hg. apply Hd. rewrite P in Hg. now apply elem_of_elements in Hg.
  - intros g Hg. apply Hc. intros X. apply Hg. rewrite P.
    now apply elem_of_elements.
Qed.

(** C2: with a fresh kicker, whatever happens in the loop (in particular
    a build that raises), [cleanup_all_dirty] runs on the state in which
    the loop stopped and the outcome of the loop stands; afterwards the
    dirty set is empty and every path of a supported type holds exactly
    what it held before the loop; when the loop raised, the exception
    leaves the script after that cleanup and nothing is reported. *)
Theorem guarded_loop_cleans_up (s : state) :
  let s0 := set_dirty ∅ s in
  guarded_loop build_count bazel_working_dir bazel_target buck_target gradle_dir
    source_files s0
  = (result the_loop s0, exec cleanup_all_dirty (exec the_loop s0))
  /\ dirty_files (exec the_guarded_loop s0) = ∅
  /\ (forall f, supported f = true ->
        fs (exec the_guarded_loop s0) !! f = fs s !! f)
  /\ (forall e, result the_loop s0 = Raise e ->
        the_run s = (Raise e, exec the_guarded_loop s0)).
Proof.
  intros s0.
  assert (E : the_guarded_loop s0
              = (result the_loop s0, exec cleanup_all_dirty (exec the_loop s0))).
  { unfold guarded_loop, try_finally, result, exec.
    destruct (the_loop s0) as [r s1]. cbn [fst snd].
    now rewrite cleanup_all_dirty_fold. }
  assert (X : exec the_guarded_loop s0
              = exec cleanup_all_dirty (exec the_loop s0))
    by (unfold exec at 1; now rewrite E).
  split; [exact E|]. rewrite X. split; [|split].
  - unfold exec at 1. now rewrite cleanup_all_dirty_fold.
  - intros f Sf.
    rewrite (cleanup_all_dirty_restores s0 (exec the_loop s0)); [reflexivity| |exact Sf].
    apply iterations_preserves_marked, marked_start.
  - intros e R. unfold timed_run.
    rewrite (bind_Ret _ _ s tt s0) by reflexivity.
    apply bind_Raise. now rewrite E, R.
Qed.
End ScriptProperties.

Lemma guarded_loop_cleans_up_witness :
  result (timed_loop 3 "ws" "//app" "root//app:app" "android" scenario_sources)
    (set_dirty ∅ scenario)
  = Raise (RuntimeError "Gradle build failed: out")
  /\ timed_run 3 "ws" "//app" "root//app:app" "android" scenario_sources (float_of_Z 1) (float_of_Z 2) (float_of_Z 3) scenario
     = (Raise (RuntimeError "Gradle build failed: out"),
        exec (guarded_loop 3 "ws" "//app" "root//app:app" "android" scenario_sources)
          (set_dirty ∅ scenario))
  /\ fs (exec (guarded_loop 3 "ws" "//app" "root//app:app" "android" scenario_sources)
           (set_dirty ∅ scenario)) !! "app/Foo.java" = Some foo_java
  /\ fs (exec (guarded_loop 3 "ws" "//app" "root//app:app" "android" scenario_sources)
           (set_dirty ∅ scenario)) !! "app/Bar.kt" = Some bar_kt.
Proof.
  destruct (guarded_loop_cleans_up 3 "ws" "//app" "root//app:app" "android"
              scenario_sources (float_of_Z 1) (float_of_Z 2) (float_of_Z 3) scenario) as (_ & _ & F & R).
  assert (H1 : result (timed_loop 3 "ws" "//app" "root//app:app" "android"
                         scenario_sources) (set_dirty ∅ scenario)
               = Raise (RuntimeError "Gradle build failed: out"))
    by (vm_compute; reflexivity).
  split; [exact H1|]. split; [exact (R _ H1)|]. split.
  - rewrite F by (vm_compute; reflexivity). vm_compute; reflexivity.
  - rewrite F by (vm_compute; reflexivity). vm_compute; reflexivity.
Defined.

(** In the same scenario the files do carry a mutation when the build
    fails: the cleanup of the [finally] clause is what restores them. *)
Example scenario_files_mutated_at_failure :
  let stopped :=
    exec (timed_loop 3 "ws" "//app" "root//app:app" "android" scenario_sources)
      (set_dirty ∅ scenario) in
  elements (dirty_files stopped) ≡ₚ ["app/Foo.java"; "app/Bar.kt"]
  /\ (exists m, fs stopped !! "app/Foo.java"
                = Some (Regular (encode_utf8 "class Foo {}" ++ m))
                /\ length m = 136)
  /\ fs stopped !! "app/_generated_databinding/Gen.java" = Some foo_java
  /\ length (launched stopped) = 5.
Proof.
  cbv zeta. split; [|split; [|split]].
  - vm_compute. apply perm_swap || reflexivity.
  - eexists. split; [vm_compute; reflexivity|reflexivity].
  - vm_compute; reflexivity.
  - vm_compute; reflexivity.
Qed.
(** ** Summary statistics *)

Lemma no_nan_Forall data : no_nan data <-> Forall (fun x => is_nan x = false) data.
Proof.
  unfold no_nan. induction data as [|x l IH]; cbn [existsb].
  - split; [constructor|reflexivity].
  - rewrite orb_false_iff, IH. split.
    + intros [A B]. now constructor.
    + intros F. inversion F. now split.
Qed.

Lemma no_nan_In data x : no_nan data -> In x data -> is_nan x = false.
Proof.
  intros N I. apply no_nan_Forall in N.
  rewrite List.Forall_forall in N. now apply N.
Qed.

Lemma insertion_perm (data : list float) : foldr insert_sorted [] data ≡ₚ data.
Proof. exact (@sort_unordered_perm insertion_sorting data). Qed.

Lemma insert_sorted_perm x l : Permutation (insert_sorted x l) (x :: l).
Proof.
  induction l as [|y l IH]; cbn [insert_sorted]; [reflexivity|].
  destruct (flt y x); [|reflexivity].
  rewrite IH. apply perm_swap.
Qed.

Section Sorted.
Context `{Sorting}.

Lemma sorted_perm data : Permutation (sorted data) data.
Proof.
  unfold sorted. destruct (existsb is_nan data).
  - apply sort_unordered_perm.
  - apply insertion_perm.
Qed.

Lemma sorted_length data : length (sorted data) = length data.
Proof. apply Permutation_length, sorted_perm. Qed.

Lemma sorted_no_nan data : no_nan data -> sorted data = foldr insert_sorted [] data.
Proof. unfold no_nan, sorted. now intros ->. Qed.
End Sorted.

Lemma insert_sorted_sorted x l :
  is_nan x = false -> Forall (fun y => is_nan y = false) l ->
  StronglySorted float_le l -> StronglySorted float_le (insert_sorted x l).
Proof.
  intros Nx Nl S. induction S as [|y l S IH F]; cbn [insert_sorted].
  - constructor; constructor.
  - inversion Nl as [|? ? Ny Nl']; subst.
    destruct (flt y x) eqn:C.
    + constructor; [now apply IH|].
      rewrite (insert_sorted_perm x l). constructor; [|exact F].
      now apply flt_fle.
    + assert (C' : float_le x y) by now apply flt_false_fle.
      constructor; [now constructor|].
      constructor; [exact C'|].
      eapply Forall_impl; [exact F|]. intros z Hz. cbn in Hz.
      eapply fle_trans; [exact C'|exact Hz].
Qed.

Lemma insertion_sorted data :
  no_nan data -> StronglySorted float_le (foldr insert_sorted [] data).
Proof.
  intros N. apply no_nan_Forall in N.
  induction N as [|x data Nx N IH]; cbn [foldr]; [constructor|].
  apply insert_sorted_sorted; [exact Nx| |exact IH].
  now rewrite insertion_perm.
Qed.

Lemma sorted_sorted `{Sorting} data :
  no_nan data -> StronglySorted float_le (sorted data).
Proof. intros N. rewrite sorted_no_nan by exact N. now apply insertion_sorted. Qed.

Lemma fold_min_spec rest : forall x,
  let m := fold_left (fun m y => if flt y m then y else m) rest x in
  (m = x \/ flt m x = true)
  /\ In m (x :: rest) /\ forall z, In z (x :: rest) -> flt z m = false.
Proof.
  induction rest as [|y rest IH]; intros x; cbn [fold_left].
  - split; [now left|]. split; [now left|]. intros z [<-|[]]. apply flt_irrefl.
  - destruct (flt y x) eqn:C.
    + destruct (IH y) as (R & I & L). split; [|split].
      * right. destruct R as [->|R]; [exact C|]. now apply (flt_trans _ y).
      * right. exact I.
      * intros z [<-|Hz]; [|now apply L].
        match goal with |- ?g = false => destruct g eqn:D end; [|reflexivity].
        rewrite <- (L y (or_introl eq_refl)). symmetry.
        apply (flt_trans _ x); [exact C|exact D].
    + destruct (IH x) as (R & I & L). split; [exact R|]. split.
      * destruct I as [<-|I]; [now left|right; now right].
      * intros z [<-|[<-|Hz]].
        -- apply L. now left.
        -- destruct R as [->|R]; [exact C|].
           match goal with |- ?g = false => destruct g eqn:D end; [|reflexivity].
           rewrite <- C. symmetry. eapply flt_trans; [exact D|exact R].
        -- apply L. now right.
Qed.

Lemma fold_max_spec rest : forall x,
  let m := fold_left (fun m y => if flt m y then y else m) rest x in
  (m = x \/ flt x m = true)
  /\ In m (x :: rest) /\ forall z, In z (x :: rest) -> flt m z = false.
Proof.
  induction rest as [|y rest IH]; intros x; cbn [fold_left].
  - split; [now left|]. split; [now left|]. intros z [<-|[]]. apply flt_irrefl.
  - destruct (flt x y) eqn:C.
    + destruct (IH y) as (R & I & L). split; [|split].
      * right. destruct R as [->|R]; [exact C|]. now apply (flt_trans _ y).
      * right. exact I.
      * intros z [<-|Hz]; [|now apply L].
        match goal with |- ?g = false => destruct g eqn:D end; [|reflexivity].
        rewrite <- (L y (or_introl eq_refl)). symmetry.
        apply (flt_trans _ x); [exact D|exact C].
    + destruct (IH x) as (R & I & L). split; [exact R|]. split.
      * destruct I as [<-|I]; [now left|right; now right].
      * intros z [<-|[<-|Hz]].
        -- apply L. now left.
        -- destruct R as [->|R]; [exact C|].
           match goal with |- ?g = false => destruct g eqn:D end; [|reflexivity].
           rewrite <- C. symmetry. eapply flt_trans; [exact R|exact D].
        -- apply L. now right.
Qed.

(** Without a NaN the two readings of "least" agree. *)
Lemma is_minimum_le m data :
  no_nan data -> is_minimum m data -> forall x, In x data -> float_le m x.
Proof.
  intros N [I L] x Hx. apply flt_false_fle; [| |now apply L].
  - now apply (no_nan_In data).
  - now apply (no_nan_In data).
Qed.

Lemma is_maximum_le m data :
  no_nan data -> is_maximum m data -> forall x, In x data -> float_le x m.
Proof.
  intros N [I L] x Hx. apply flt_false_fle; [| |now apply L].
  - now apply (no_nan_In data).
  - now apply (no_nan_In data).
Qed.

Lemma finite_no_nan data : forallb is_finite data = true -> no_nan data.
Proof.
  intros F. apply no_nan_Forall. rewrite forallb_forall in F.
  apply List.Forall_forall. intros x I. specialize (F x I). now destruct x.
Qed.

Lemma statistics_stdev_Ret_finite times v :
  statistics_stdev times = Ret v -> forallb is_finite times = true.
Proof.
  unfold statistics_stdev. destruct (length times <? 2)%nat; [discriminate|].
  destruct (forallb is_finite times); [reflexivity|discriminate].
Qed.

Lemma sorted_short_sorted `{Sorting} data :
  length data <= 1 -> StronglySorted float_le (sorted data).
Proof.
  intros L. rewrite <- sorted_length in L.
  destruct (sorted data) as [|x [|y l]]; [constructor| |cbn in L; lia].
  constructor; constructor.
Qed.
Section Summary.
Context `{Sorting}.

Lemma statistics_median_returns data :
  data <> [] -> exists m, statistics_median data = Ret m.
Proof.
  intros NE. unfold statistics_median. rewrite sorted_length.
  destruct (Nat.eqb_spec (length data) 0) as [Z|_].
  { destruct data; [congruence|discriminate]. }
  destruct (length data mod 2 =? 1)%nat; eexists; reflexivity.
Qed.

Lemma statistics_median_nonempty data :
  data <> [] -> no_nan data \/ length data <= 1 ->
  exists m, statistics_median data = Ret m /\ is_float_median m data.
Proof.
  intros NE NN.
  assert (S : StronglySorted float_le (sorted data)).
  { destruct NN; [now apply sorted_sorted|now apply sorted_short_sorted]. }
  unfold statistics_median. rewrite sorted_length.
  destruct (Nat.eqb_spec (length data) 0) as [Z|_].
  { destruct data; [congruence|discriminate]. }
  destruct (Nat.eqb_spec (length data mod 2) 1) as [O|E];
    (eexists; split; [reflexivity|]);
    exists (sorted data); (split; [apply sorted_perm|]);
    (split; [exact S|]); split.
  - reflexivity.
  - intros [k Hk]. rewrite Hk, Nat.mul_comm, Nat.Div0.mod_mul in O. discriminate.
  - intros [k Hk]. exfalso. apply E.
    rewrite Hk, Nat.add_comm, Nat.mul_comm, Nat.Div0.mod_add. reflexivity.
  - intros _. reflexivity.
Qed.

Lemma statistics_mean_returns data :
  data <> [] -> exists m, statistics_mean data = Ret m.
Proof.
  intros NE. destruct data as [|x rest]; [congruence|].
  unfold statistics_mean. destruct (forallb is_finite (x :: rest)); eexists; reflexivity.
Qed.

Lemma statistics_mean_nonempty data :
  data <> [] ->
  exists m, statistics_mean data = Ret m
            /\ (forallb is_finite data = true -> is_rounded_mean m data).
Proof.
  intros NE. destruct data as [|x rest]; [congruence|].
  unfold statistics_mean. destruct (forallb is_finite (x :: rest));
    (eexists; split; [reflexivity|]).
  - intros _. reflexivity.
  - discriminate.
Qed.

Lemma py_min_nonempty data :
  data <> [] -> exists m, py_min data = Ret m /\ is_minimum m data.
Proof.
  intros NE. destruct data as [|x rest]; [congruence|].
  eexists. split; [reflexivity|]. apply fold_min_spec.
Qed.

Lemma py_max_nonempty data :
  data <> [] -> exists m, py_max data = Ret m /\ is_maximum m data.
Proof.
  intros NE. destruct data as [|x rest]; [congruence|].
  eexists. split; [reflexivity|]. apply fold_max_spec.
Qed.

Lemma py_min_returns data : data <> [] -> exists m, py_min data = Ret m.
Proof. destruct data; [congruence|]. intros _. eexists. reflexivity. Qed.

Lemma py_max_returns data : data <> [] -> exists m, py_max data = Ret m.
Proof. destruct data; [congruence|]. intros _. eexists. reflexivity. Qed.

Lemma summary_of_nonempty times :
  times <> [] ->
  (2 <= length times -> exists v, statistics_stdev times = Ret v) ->
  exists st, summary_of times = Ret st /\ summarises_rounded st times.
Proof.
  intros NE SD. unfold summary_of.
  assert (NN : no_nan times \/ length times <= 1).
  { destruct (Nat.le_gt_cases (length times) 1) as [L|L]; [now right|left].
    destruct (SD L) as (v & E).
    now apply finite_no_nan, (statistics_stdev_Ret_finite times v). }
  destruct (statistics_mean_nonempty times NE) as (mean & -> & Hmean).
  destruct (statistics_median_nonempty times NE NN) as (med & -> & Hmed).
  destruct (py_min_nonempty times NE) as (least & -> & Hmin).
  destruct (py_max_nonempty times NE) as (greatest & -> & Hmax).
  cbn [mbind outcome_bind].
  destruct (Nat.ltb_spec 1 (length times)) as [L|L].
  - destruct (SD L) as (v & E). rewrite E.
    eexists. split; [reflexivity|].
    unfold summarises_rounded.
    cbn [Stats.count Stats.mean Stats.median Stats.min Stats.max Stats.std_dev].
    repeat (split; [assumption || reflexivity|]). split; [lia|].
    intros _. exact E.
  - eexists. split; [reflexivity|].
    unfold summarises_rounded.
    cbn [Stats.count Stats.mean Stats.median Stats.min Stats.max Stats.std_dev].
    repeat (split; [assumption || reflexivity|]). lia.
Qed.



End Summary.

(** The floats of the next example. *)
Example sample_floats :
  float_of_Z 1 = S754_finite false 4503599627370496 (-52)
  /\ float_of_Z 2 = S754_finite false 4503599627370496 (-51)
  /\ float_of_Q (5 # 2) = S754_finite false 5629499534213120 (-51)
  /\ float_of_Q (1 # 10) = S754_finite false 7205759403792794 (-56)
  /\ float_of_Z (10 ^ 308) = S754_finite false 5010420900022432 971.
Proof. repeat split; vm_compute; reflexivity. Qed.

(** [1.2909944487358056] is [S754_finite false 5814122118263953 (-52)]. *)
Example create_summary_stats_sample :
  create_summary_stats sample_build_data
  = Ret [("Bazel", Stats.Make (float_of_Z 2) (float_of_Z 2) (float_of_Z 1)
                     (float_of_Z 3) (float_of_Z 1) 3);
         ("Buck2", Stats.Make (float_of_Q (5 # 2)) (float_of_Q (5 # 2))
                     (float_of_Q (5 # 2)) (float_of_Q (5 # 2)) (float_of_Z 0) 1);
         ("Gradle", Stats.Make (float_of_Q (5 # 2)) (float_of_Q (5 # 2))
                      (float_of_Z 1) (float_of_Z 4)
                      (S754_finite false 5814122118263953 (-52)) 4)].
Proof. vm_compute. reflexivity. Qed.



(** ** Reading the measurement table *)

Lemma rstrip_space_last s c :
  last_char (rstrip_space s) = Some c -> is_space c = false.
Proof.
  induction s as [|a s IH]; cbn [rstrip_space]; [discriminate|].
  destruct (rstrip_space s) as [|b r] eqn:R.
  - cbn. destruct (is_space a) eqn:A; cbn; [discriminate|]. congruence.
  - rewrite andb_false_r. cbn [last_char]. exact IH.
Qed.

Lemma strip_last s c : last_char (strip s) = Some c -> is_space c = false.
Proof. apply rstrip_space_last. Qed.

Lemma last_char_app_NL h c : last_char (String c (h +:+ NL)) = Some LF.
Proof.
  revert c. induction h as [|a h IH]; intros c; [reflexivity|].
  change (last_char (String a (h +:+ NL)) = Some LF). apply IH.
Qed.

Lemma append_cons c a b : String c a +:+ b = String c (a +:+ b).
Proof. reflexivity. Qed.

Lemma append_empty_r s : s +:+ EmptyString = s.
Proof.
  induction s as [|c s IH]; [reflexivity|]. now rewrite append_cons, IH.
Qed.

Lemma hex_run_spec n : forall s r,
  hex_run n s = Some r <->
  exists h, s = h +:+ r /\ String.length h = n /\ all_hex h = true.
Proof.
  induction n as [|n IH]; intros s r; cbn [hex_run].
  - split.
    + intros [= ->]. exists EmptyString. auto.
    + intros (h & -> & L & _). destruct h; [reflexivity|discriminate].
  - destruct s as [|c s].
    + split; [discriminate|]. intros ([|a h] & E & L & _); discriminate.
    + destruct (is_hex_digit c) eqn:C.
      * rewrite IH. split.
        -- intros (h & -> & L & A). exists (String c h).
           unfold all_hex in *. cbn. rewrite C, A, L. auto.
        -- intros ([|a h] & E & L & A); [discriminate|].
           rewrite append_cons in E. injection E as -> ->. exists h.
           unfold all_hex in *. cbn in A. apply andb_true_iff in A as [_ A].
           cbn in L. auto.
      * split; [discriminate|]. intros ([|a h] & E & L & A); [discriminate|].
        rewrite append_cons in E. injection E as -> ->. unfold all_hex in A. cbn in A.
        rewrite C in A. discriminate.
Qed.

Lemma hex_color_match_spec s :
  last_char s <> Some LF ->
  hex_color_match s = true <-> is_hex_color s.
Proof.
  intros NoNL. split.
  - destruct s as [|c rest]; cbn [hex_color_match]; [discriminate|].
    intros H. apply andb_true_iff in H as [Hc H].
    apply Ascii.eqb_eq in Hc. subst c.
    assert (X : exists n r, hex_run n rest = Some r /\ at_dollar r = true
                            /\ (n = 3 \/ n = 6)).
    { apply orb_true_iff in H as [H|H].
      - destruct (hex_run 3 rest) as [r|] eqn:E; [|discriminate]. eauto 6.
      - destruct (hex_run 6 rest) as [r|] eqn:E; [|discriminate]. eauto 6. }
    destruct X as (n & r & E & D & Hn).
    apply hex_run_spec in E as (h & -> & L & A).
    unfold at_dollar in D. apply orb_true_iff in D as [D|D];
      apply String.eqb_eq in D; subst r.
    + exists h. rewrite append_empty_r. rewrite L. auto.
    + exfalso. apply NoNL. apply last_char_app_NL.
  - intros (h & -> & A & L). cbn [hex_color_match].
    rewrite Ascii.eqb_refl. cbn [andb]. apply orb_true_iff.
    assert (E : hex_run (String.length h) h = Some EmptyString).
    { apply hex_run_spec. exists h. now rewrite append_empty_r. }
    destruct L as [L|L]; rewrite L in E; [left|right]; now rewrite E.
Qed.

Lemma strip_no_newline s : last_char (strip s) <> Some LF.
Proof. intros H. apply strip_last in H. discriminate. Qed.

Section ReadCsvProperties.
Variable literal_eval : string -> literal.
Variable float_of_str : string -> option float.

Local Abbreviation reads_as := (record_of_row literal_eval float_of_str).

Lemma floats_spec items : forall qs,
  floats float_of_str items = Ret qs
  <-> Forall2 (fun x q => py_float float_of_str x = Ret q) items qs.
Proof.
  induction items as [|x items IH]; intros qs; cbn [floats].
  - split.
    + intros [= <-]. constructor.
    + intros F. inversion F. reflexivity.
  - split.
    + destruct (py_float float_of_str x) as [q|e] eqn:E; [|discriminate].
      destruct (floats float_of_str items) as [qs'|e] eqn:E'; [|discriminate].
      intros [= <-]. constructor; [exact E|]. now apply IH.
    + intros F. inversion F as [|? q ? qs' Hx Hrest]; subst.
      rewrite Hx. apply IH in Hrest. now rewrite Hrest.
Qed.

Lemma parse_row_three a b c row_num :
  (forall r, _parse_row literal_eval float_of_str (dict_row [a; b; c]) row_num
             = Returns r <-> reads_as [a; b; c] r)
  /\ (forall code why,
        _parse_row literal_eval float_of_str (dict_row [a; b; c]) row_num
        = Exits code why -> code = 1%Z).
Proof.
  unfold _parse_row.
  change (stripped "build_system" (dict_row [a; b; c])) with (Returns (strip a)).
  change (stripped "color" (dict_row [a; b; c])) with (Returns (strip b)).
  change (stripped "measurements" (dict_row [a; b; c])) with (Returns (strip c)).
  cbv beta iota.
  assert (Inv : forall r, reads_as [a; b; c] r ->
            exists items qs,
              r = (strip a, strip b, qs)
              /\ strip a <> EmptyString /\ is_hex_color (strip b)
              /\ literal_eval (strip c) = Value (PyList items)
              /\ floats float_of_str items = Ret qs).
  { intros [[name color] qs] (a' & b' & c' & items & [= <- <- <-] & N & NE & C & H & L & F).
    cbn [fst snd] in *. subst. exists items, qs. rewrite floats_spec. auto. }
  destruct (String.eqb_spec (strip a) EmptyString) as [E|NE].
  { split; [|intros code why [= <- _]; reflexivity].
    intros r. split; [discriminate|].
    intros R. apply Inv in R as (items & qs & _ & NE & _). contradiction. }
  destruct (hex_color_match (strip b)) eqn:H; cbn [negb].
  2:{ split; [|intros code why [= <- _]; reflexivity].
      intros r. split; [discriminate|].
      intros R. apply Inv in R as (items & qs & _ & _ & C & _).
      apply hex_color_match_spec in C; [congruence|apply strip_no_newline]. }
  apply hex_color_match_spec in H; [|apply strip_no_newline].
  destruct (literal_eval (strip c)) as [|e|[items|]] eqn:L.
  - split; [|intros code why [= <- _]; reflexivity].
    intros r. split; [discriminate|].
    intros R. apply Inv in R as (items & qs & _ & _ & _ & X & _). congruence.
  - split; [|discriminate].
    intros r. split; [discriminate|].
    intros R. apply Inv in R as (items & qs & _ & _ & _ & X & _). congruence.
  - destruct (floats float_of_str items) as [qs|e] eqn:F.
    + split; [|discriminate]. intros r. split.
      * intros [= <-]. exists a, b, c, items. cbn [fst snd].
        rewrite <- floats_spec. auto 10.
      * intros R. apply Inv in R as (items' & qs' & -> & _ & _ & X & F').
        injection X as <-. congruence.
    + assert (No : forall r, ~ reads_as [a; b; c] r).
      { intros r R. apply Inv in R as (items' & qs' & _ & _ & _ & X & F').
        injection X as <-. congruence. }
      destruct (is_ValueError e).
      * split; [|intros code why [= <- _]; reflexivity].
        intros r. split; [discriminate|]. intros R. now apply No in R.
      * split; [|discriminate].
        intros r. split; [discriminate|]. intros R. now apply No in R.
  - split; [|intros code why [= <- _]; reflexivity].
    intros r. split; [discriminate|].
    intros R. apply Inv in R as (items & qs & _ & _ & _ & X & _). congruence.
Qed.

Lemma column_check (row : list string) :
  Nat.eqb (length (List.filter (fun v => negb (is_Missing v))
                     (map snd (dict_row row)))) 3
  = Nat.eqb (length row) 3.
Proof.
  destruct row as [|a [|b [|c [|d rest]]]]; reflexivity.
Qed.

Lemma reads_as_three row r : reads_as row r -> length row = 3.
Proof. intros (a & b & c & items & -> & _). reflexivity. Qed.

Lemma read_rows_spec rows : forall row_num data colors,
  (forall d c,
     read_rows literal_eval float_of_str rows row_num data colors = Returns (d, c)
     <-> exists records,
           Forall2 reads_as (non_blank rows) records
           /\ d = foldl (fun d kv => dict_set (fst kv) (snd kv) d) data
                    (durations_of records)
           /\ c = foldl (fun d kv => dict_set (fst kv) (snd kv) d) colors
                    (colors_of records))
  /\ (forall code why,
        read_rows literal_eval float_of_str rows row_num data colors
        = Exits code why -> code = 1%Z).
Proof.
  induction rows as [|row rows IH]; intros row_num data colors.
  { cbn [read_rows non_blank List.filter]. split; [|discriminate].
    intros d c. split.
    - intros [= <- <-]. exists []. repeat split. constructor.
    - intros (records & F & -> & ->). inversion F. reflexivity. }
  destruct row as [|cell row'].
  { cbn [read_rows non_blank List.filter length Nat.eqb negb]. apply IH. }
  set (row := cell :: row') in *.
  assert (NB : non_blank (row :: rows) = row :: non_blank rows) by reflexivity.
  rewrite NB.
  change (read_rows literal_eval float_of_str (row :: rows) row_num data colors)
    with (if negb (Nat.eqb (length (List.filter (fun v => negb (is_Missing v))
                                      (map snd (dict_row row)))) 3)
          then Exits 1 (WrongColumns row_num)
          else
            match _parse_row literal_eval float_of_str (dict_row row) row_num with
            | Returns (build_system, color, measurements) =>
                read_rows literal_eval float_of_str rows (S row_num)
                  (dict_set build_system measurements data)
                  (dict_set build_system color colors)
            | Exits c w => Exits c w
            | Throws e => Throws e
            end).
  rewrite column_check.
  destruct (Nat.eqb_spec (length row) 3) as [L3|L3]; cbn [negb].
  2:{ split; [|intros code why [= <- _]; reflexivity].
      intros d c. split; [discriminate|].
      intros (records & F & _). inversion F as [|? r ? ? R]; subst.
      apply reads_as_three in R. contradiction. }
  assert (exists a b c, row = [a; b; c]) as (a & b & c & Erow).
  { subst row. destruct row' as [|b [|c [|? ?]]]; try discriminate. eauto. }
  rewrite Erow in *. clear row Erow NB L3.
  destruct (parse_row_three a b c row_num) as [PR PE].
  destruct (_parse_row literal_eval float_of_str (dict_row [a; b; c]) row_num)
    as [[[name color] qs]|code why|e] eqn:P.
  - destruct (IH (S row_num) (dict_set name qs data) (dict_set name color colors))
      as [IR IE].
    split; [|exact IE]. intros d c'. rewrite IR. split.
    + intros (records & F & -> & ->). exists ((name, color, qs) :: records).
      split; [|split; reflexivity]. constructor; [|exact F]. now apply PR.
    + intros (records & F & -> & ->).
      inversion F as [|? r ? records' R F']; subst.
      apply PR in R. injection R as <-. exists records'. auto.
  - split; [|intros code' why' [= <- _]; now apply (PE code why)].
    intros d c'. split; [discriminate|].
    intros (records & F & _). inversion F as [|? r ? ? R]; subst.
    apply PR in R. discriminate.
  - split; [|discriminate].
    intros d c'. split; [discriminate|].
    intros (records & F & _). inversion F as [|? r ? ? R]; subst.
    apply PR in R. discriminate.
Qed.
End ReadCsvProperties.

Lemma counts_check {K} (data : list (K * list float)) :
  data <> [] ->
  let counts := map (fun kv => length (snd kv)) data in
  (forallb (fun count => Nat.eqb count (nth 0 counts 0)) counts = true
   /\ Nat.eqb (nth 0 counts 0) 0 = false)
  <-> exists n, 0 < n /\ forall name times, In (name, times) data -> length times = n.
Proof.
  intros NE counts. split.
  - intros [A Z]. exists (nth 0 counts 0). apply Nat.eqb_neq in Z.
    split; [lia|]. intros name times I.
    rewrite forallb_forall in A. apply Nat.eqb_eq, A.
    unfold counts. apply in_map_iff. now exists (name, times).
  - intros (n & Pos & Hn).
    assert (F : nth 0 counts 0 = n).
    { destruct data as [|[k t] data]; [congruence|]. cbn. apply (Hn k). now left. }
    rewrite F. split; [|apply Nat.eqb_neq; lia].
    apply forallb_forall. intros count I. apply Nat.eqb_eq.
    unfold counts in I. apply in_map_iff in I as ([k t] & <- & I).
    now apply (Hn k).
Qed.

(** C9, as the reader has it: [read_csv_data] returns or leaves with
    exit status 1, nothing else; it returns exactly when the file exists,
    every non-blank row is a well-formed record ([record_of_row]), there
    is at least one, and the duration lists kept per build-system name
    (the last record of a name replaces the earlier ones) all have the
    same length, which is not 0; it then returns the name-to-durations
    and name-to-color dictionaries of those records. *)
Theorem read_csv_data_verdict
    (literal_eval : string -> literal) (float_of_str : string -> option float)
    (csv_file : option (list (list string))) :
  ((exists tables, read_csv_data literal_eval float_of_str csv_file = Returns tables)
   \/ (exists why, read_csv_data literal_eval float_of_str csv_file = Exits 1 why))
  /\ forall data colors,
       read_csv_data literal_eval float_of_str csv_file = Returns (data, colors)
       <-> exists rows records,
             csv_file = Some rows
             /\ Forall2 (record_of_row literal_eval float_of_str) (non_blank rows) records
             /\ data = table_of (durations_of records)
             /\ colors = table_of (colors_of records)
             /\ data <> []
             /\ exists n, 0 < n
                  /\ forall name times, In (name, times) data -> length times = n.
Proof.
  destruct csv_file as [rows|]; cbn [read_csv_data].
  2:{ split; [right; eauto|]. intros data colors. split; [discriminate|].
      intros (rows & records & X & _). discriminate. }
  destruct (read_rows_spec literal_eval float_of_str rows 1 [] []) as [RR RE].
  assert (Back : forall records,
            Forall2 (record_of_row literal_eval float_of_str) (non_blank rows) records ->
            read_rows literal_eval float_of_str rows 1 [] []
            = Returns (table_of (durations_of records), table_of (colors_of records))).
  { intros records F. apply RR. exists records. auto. }
  destruct (read_rows literal_eval float_of_str rows 1 [] [])
    as [[d c]|code why|e] eqn:R.
  - destruct (Nat.eqb_spec (length d) 0) as [Z|NZ].
    { split; [right; eauto|]. intros data colors. split; [discriminate|].
      intros (rows' & records & [= <-] & F & -> & -> & NE & _).
      apply Back in F. injection F as -> _.
      destruct (table_of (durations_of records)); [congruence|discriminate]. }
    assert (NE : d <> []) by (intros ->; now apply NZ).
    pose proof (counts_check d NE) as CC. cbv zeta in CC.
    destruct (forallb _ _) eqn:A; cbn [negb].
    2:{ split; [right; eauto|]. intros data colors. split; [discriminate|].
        intros (rows' & records & [= <-] & F & -> & -> & _ & Hn).
        apply Back in F. injection F as -> _.
        apply CC in Hn as [X _]. discriminate. }
    destruct (Nat.eqb (nth 0 _ 0) 0) eqn:Z.
    { split; [right; eauto|]. intros data colors. split; [discriminate|].
      intros (rows' & records & [= <-] & F & -> & -> & _ & Hn).
      apply Back in F. injection F as -> _.
      apply CC in Hn as [_ X]. discriminate. }
    split; [left; eauto|]. intros data colors. split.
    + intros [= <- <-]. destruct (proj1 (RR _ _) eq_refl) as (records & F & -> & ->).
      exists rows, records. repeat split; try assumption.
      apply CC. auto.
    + intros (rows' & records & [= <-] & F & -> & -> & _).
      apply Back in F. now injection F as -> ->.
  - rewrite (RE code why eq_refl). split; [right; eauto|].
    intros data colors. split; [discriminate|].
    intros (rows' & records & [= <-] & F & _). apply Back in F. discriminate.
  - split; [right; eauto|]. intros data colors. split; [discriminate|].
    intros (rows' & records & [= <-] & F & _). apply Back in F. discriminate.
Qed.

Lemma dict_set_fresh {V} key (v : V) d :
  ~ In key (map fst d) -> dict_set key v d = d ++ [(key, v)].
Proof.
  induction d as [|[k w] d IH]; cbn [dict_set map fst In app]; [reflexivity|].
  intros N. destruct (String.eqb_spec k key) as [->|_]; [tauto|].
  rewrite IH by tauto. reflexivity.
Qed.

(** With pairwise distinct names the dictionary is the list of records
    itself, in the order of the file. *)
Lemma table_of_distinct {V} (pairs : list (string * V)) :
  List.NoDup (map fst pairs) -> table_of pairs = pairs.
Proof.
  unfold table_of.
  enough (G : forall acc, List.NoDup (map fst (acc ++ pairs)) ->
                foldl (fun d kv => dict_set (fst kv) (snd kv) d) acc pairs
                = acc ++ pairs) by (intros ND; now apply (G [])).
  induction pairs as [|[k v] pairs IH]; intros acc ND; cbn [foldl fst snd].
  - now rewrite app_nil_r.
  - rewrite dict_set_fresh.
    + rewrite IH; rewrite <- app_assoc; [reflexivity|exact ND].
    + rewrite map_app in ND. cbn [map fst] in ND.
      apply List.NoDup_remove_2 in ND. intros I. apply ND, in_or_app. now left.
Qed.

(** C9 as stated fails three ways: a file whose only record is as the
    claim wants it, with an empty list, is rejected; two records of one
    name with lists of different lengths are accepted (the second
    replaces the first); a list of numeric strings, which is not a list
    of numbers, is accepted. *)
Lemma read_csv_data_stated_counterexample :
  (stated_record sample_literal_eval ["Bazel"; "#4CAF50"; "[]"] 0
   /\ read_csv_data sample_literal_eval sample_float_of_str
        (Some [["Bazel"; "#4CAF50"; "[]"]])
      = Exits 1 NoTimeData)
  /\ (stated_record sample_literal_eval ["Bazel"; "#4CAF50"; "[1.0]"] 1
      /\ stated_record sample_literal_eval ["Bazel"; "#FF9800"; "[1.0, 2.0]"] 2
      /\ read_csv_data sample_literal_eval sample_float_of_str
           (Some [["Bazel"; "#4CAF50"; "[1.0]"]; ["Bazel"; "#FF9800"; "[1.0, 2.0]"]])
         = Returns ([("Bazel", [float_of_Z 1; float_of_Z 2])], [("Bazel", "#FF9800")]))
  /\ (sample_literal_eval "['1.5']" = Value (PyList [PyString "1.5"])
      /\ read_csv_data sample_literal_eval sample_float_of_str
           (Some [["Bazel"; "#4CAF50"; "['1.5']"]])
         = Returns ([("Bazel", [float_of_Q (3 # 2)])], [("Bazel", "#4CAF50")])).
Proof.
  assert (C1 : is_hex_color "#4CAF50").
  { exists "4CAF50". split; [reflexivity|]. split; [reflexivity|now right]. }
  assert (C2 : is_hex_color "#FF9800").
  { exists "FF9800". split; [reflexivity|]. split; [reflexivity|now right]. }
  assert (N : forall items,
            Forall (fun x => exists q, x = PyNumber q) (map PyNumber items)).
  { intros items. apply Forall_forall. intros x I.
    apply list_elem_of_In, in_map_iff in I as (q & <- & _). now exists q. }
  split; [|split].
  - split; [|vm_compute; reflexivity].
    exists "Bazel", "#4CAF50", "[]", [].
    split; [reflexivity|]. split; [discriminate|]. split; [exact C1|].
    split; [reflexivity|]. split; [constructor|reflexivity].
  - split; [|split; [|vm_compute; reflexivity]].
    + exists "Bazel", "#4CAF50", "[1.0]", [PyNumber (float_of_Z 1)].
      split; [reflexivity|]. split; [discriminate|]. split; [exact C1|].
      split; [reflexivity|]. split; [exact (N [float_of_Z 1])|reflexivity].
    + exists "Bazel", "#FF9800", "[1.0, 2.0]", [PyNumber (float_of_Z 1); PyNumber (float_of_Z 2)].
      split; [reflexivity|]. split; [discriminate|]. split; [exact C2|].
      split; [reflexivity|]. split; [exact (N [float_of_Z 1; float_of_Z 2])|reflexivity].
  - split; vm_compute; reflexivity.
Qed.

Lemma read_csv_data_verdict_witness :
  read_csv_data sample_literal_eval sample_float_of_str (Some sample_rows)
  = Returns ([("Bazel", map float_of_Q [42 # 10; 39 # 10; 41 # 10]%Q);
              ("Buck2", map float_of_Q [87 # 10; 85 # 10; 86 # 10]%Q)],
             [("Bazel", "#4CAF50"); ("Buck2", "#fb0")]).
Proof.
  apply (proj2 (read_csv_data_verdict sample_literal_eval sample_float_of_str
                  (Some sample_rows))).
  exists sample_rows,
    [("Bazel", "#4CAF50", map float_of_Q [42 # 10; 39 # 10; 41 # 10]%Q);
     ("Buck2", "#fb0", map float_of_Q [87 # 10; 85 # 10; 86 # 10]%Q)].
  split; [reflexivity|]. split; [|split; [reflexivity|split; [reflexivity|]]].
  - constructor; [|constructor; [|constructor]].
    + exists "Bazel", "#4CAF50", "[4.2, 3.9, 4.1]",
        (map (fun q => PyNumber (float_of_Q q)) [42 # 10; 39 # 10; 41 # 10]%Q).
      repeat split; try reflexivity; try discriminate.
      * exists "4CAF50". split; [reflexivity|]. split; [reflexivity|now right].
      * repeat constructor.
    + exists " Buck2", "#fb0 ", "[8.7, 8.5, 8.6]",
        (map (fun q => PyNumber (float_of_Q q)) [87 # 10; 85 # 10; 86 # 10]%Q).
      repeat split; try reflexivity; try discriminate.
      * exists "fb0". split; [reflexivity|]. split; [reflexivity|now left].
      * repeat constructor.
  - split; [discriminate|]. exists 3. split; [lia|].
    intros name times [X|[X|[]]]; inversion X; reflexivity.
Defined.

(** The rejections, one input for each message. *)
Example read_csv_data_rejections :
  read_csv_data sample_literal_eval sample_float_of_str None = Exits 1 FileNotFound
  /\ read_csv_data sample_literal_eval sample_float_of_str (Some [[]; []])
     = Exits 1 NoBuildSystem
  /\ read_csv_data sample_literal_eval sample_float_of_str
       (Some [["  "; "#4CAF50"; "[1.0]"]]) = Exits 1 (EmptyName 1)
  /\ read_csv_data sample_literal_eval sample_float_of_str
       (Some [["Bazel"; "#4CAF5"; "[1.0]"]]) = Exits 1 (InvalidColor "#4CAF5" "Bazel" 1)
  /\ read_csv_data sample_literal_eval sample_float_of_str
       (Some [["Bazel"; "#4CAF50"; "4.2"]]) = Exits 1 (BadMeasurements "Bazel" 1)
  /\ read_csv_data sample_literal_eval sample_float_of_str
       (Some [["Bazel"; "#4CAF50"; "[1.0]"]; ["Buck2"; "#FF9800"; "[1.0, 2.0]"]])
     = Exits 1 UnequalCounts
  /\ read_csv_data sample_literal_eval sample_float_of_str
       (Some [["Bazel"; "#4CAF50"; "[1.0]"; "extra"]]) = Exits 1 (WrongColumns 1)
  /\ read_csv_data sample_literal_eval sample_float_of_str
       (Some [["Bazel"; "#4CAF50"]]) = Exits 1 (WrongColumns 1).
Proof. vm_compute. repeat split; reflexivity. Qed.

(** * Further properties *)

(** ** Footprints of the kicker *)

Lemma always_ret {A} (R : state -> state -> Prop) (a : A) :
  (forall s, R s s) -> always R (mret a).
Proof. intros Rf s. apply Rf. Qed.

Lemma always_bind {A B} (R : state -> state -> Prop) (m : M A) (f : A -> M B) :
  (forall s1 s2 s3, R s1 s2 -> R s2 s3 -> R s1 s3) ->
  always R m -> (forall a, always R (f a)) -> always R (m ≫= f).
Proof.
  intros Rt Hm Hf s. specialize (Hm s). unfold exec, mbind, M_bind in *.
  destruct (m s) as [[a|e] s']; cbn [snd] in *; [|exact Hm].
  eapply Rt; [exact Hm|apply Hf].
Qed.

Lemma always_try_except {A} (R : state -> state -> Prop) (m : M A) h :
  (forall s1 s2 s3, R s1 s2 -> R s2 s3 -> R s1 s3) ->
  always R m -> (forall e, always R (h e)) -> always R (try_except m h).
Proof.
  intros Rt Hm Hh s. specialize (Hm s). unfold exec, try_except in *.
  destruct (m s) as [[a|e] s']; cbn [snd] in *; [exact Hm|].
  eapply Rt; [exact Hm|apply Hh].
Qed.

Lemma always_for_each {A} (R : state -> state -> Prop) (xs : list A) body :
  (forall s, R s s) ->
  (forall s1 s2 s3, R s1 s2 -> R s2 s3 -> R s1 s3) ->
  (forall x, always R (body x)) -> always R (for_each xs body).
Proof.
  intros Rf Rt Hb. induction xs as [|x xs IH]; cbn [for_each].
  - now apply always_ret.
  - apply always_bind; auto.
Qed.

Ltac subset_tac :=
  apply elem_of_subseteq; intros ? ?;
  repeat match goal with
         | H : _ ⊆ _ |- _ => rewrite elem_of_subseteq in H
         end;
  rewrite ?elem_of_union in *; rewrite ?elem_of_singleton in *; auto.

Lemma kicker_step_refl file s : kicker_step file s s.
Proof. unfold kicker_step. repeat split; auto; subset_tac. Qed.

Lemma kicker_step_trans file s1 s2 s3 :
  kicker_step file s1 s2 -> kicker_step file s2 s3 -> kicker_step file s1 s3.
Proof.
  intros (F1 & A1 & B1 & L1 & P1 & E1) (F2 & A2 & B2 & L2 & P2 & E2).
  unfold kicker_step. repeat split; try congruence.
  - intros g N. rewrite F2, F1; auto.
  - subset_tac.
  - apply elem_of_subseteq. intros x Hx.
    rewrite elem_of_subseteq in B1, B2. apply B2 in Hx.
    rewrite elem_of_union in Hx. destruct Hx as [Hx|Hx]; [|now apply B1].
    rewrite elem_of_union. now left.
Qed.

(** A step that changes nothing but the output and the position of the
    generator. *)
Lemma kicker_step_quiet file s s' :
  fs s' = fs s -> dirty_files s' = dirty_files s ->
  launched s' = launched s -> processes s' = processes s ->
  entropy s' = entropy s ->
  kicker_step file s s'.
Proof.
  intros F D L P E. unfold kicker_step. rewrite F, D. repeat split; auto; subset_tac.
Qed.

Lemma validate_step file f : always (kicker_step file) (_validate_file_type f).
Proof.
  intros s. unfold exec. destruct (supported f) eqn:H.
  - rewrite (validate_supported _ _ H). apply kicker_step_refl.
  - destruct (validate_unsupported f s H) as [msg ->]. apply kicker_step_refl.
Qed.

Lemma generate_step file f : always (kicker_step file) (_generate_content f).
Proof.
  intros s. unfold exec. destruct (supported f) eqn:H.
  - destruct (generate_supported f s H) as (c & -> & _).
    now apply kicker_step_quiet.
  - destruct (generate_unsupported f s H) as [msg ->]. apply kicker_step_refl.
Qed.

Lemma print_step file l : always (kicker_step file) (print l).
Proof. intros s. now apply kicker_step_quiet. Qed.

Lemma throw_step {A} file (e : exn) : always (kicker_step file) (mthrow e : M A).
Proof. intros s. apply kicker_step_refl. Qed.

Lemma truncate_step file n : always (kicker_step file) (open_truncate_tail file n).
Proof.
  intros s. unfold exec, open_truncate_tail.
  destruct (fs s !! file) as [[data|]|] eqn:F; cbn [snd];
    try apply kicker_step_refl.
  destruct (_ <? _)%nat; cbn [snd]; [now apply kicker_step_quiet|].
  unfold kicker_step. cbn [fs dirty_files launched processes entropy set_fs].
  repeat split; auto; try subset_tac.
  intros g N. now rewrite lookup_insert_ne.
Qed.

Lemma write_step file text : always (kicker_step file) (open_append_write file text).
Proof.
  intros s. unfold exec, open_append_write.
  destruct (fs s !! file) as [[data|]|] eqn:F; cbn [snd];
    try apply kicker_step_refl;
    unfold kicker_step; cbn [fs dirty_files launched processes entropy set_fs];
    (repeat split; auto; try subset_tac);
    intros g N; now rewrite lookup_insert_ne.
Qed.

Lemma remove_step file : always (kicker_step file) (_remove_appended_content file).
Proof.
  unfold _remove_appended_content.
  apply always_try_except; [apply kicker_step_trans| |].
  - apply always_bind; [apply kicker_step_trans|apply generate_step|].
    intros c. apply truncate_step.
  - intros e. destruct (is_FileNotFoundError e); [apply print_step|].
    destruct (is_IOError e); apply print_step.
Qed.

Lemma append_content_step file content :
  always (kicker_step file) (_append_content file content).
Proof.
  unfold _append_content.
  apply always_bind; [apply kicker_step_trans|intros s; apply kicker_step_refl|].
  intros s0. apply always_bind; [apply kicker_step_trans| |].
  { destruct (bool_decide _); [apply remove_step|].
    apply always_ret, kicker_step_refl. }
  intros _. apply always_try_except; [apply kicker_step_trans| |].
  - apply always_bind; [apply kicker_step_trans|intros s; apply kicker_step_refl|].
    intros found. apply always_bind; [apply kicker_step_trans| |].
    { destruct found; [apply always_ret, kicker_step_refl|apply throw_step]. }
    intros _. apply always_bind; [apply kicker_step_trans|apply write_step|].
    intros _ s. unfold exec, modify, kicker_step.
    cbn [snd fs dirty_files launched processes entropy set_dirty].
    repeat split; auto; subset_tac.
  - intros e.
    destruct (is_FileNotFoundError e); [|destruct (is_IOError e)];
      (apply always_bind; [apply kicker_step_trans|apply print_step|]);
      intros _; apply throw_step.
Qed.

Lemma append_step file : always (kicker_step file) (append file).
Proof.
  unfold append.
  apply always_bind; [apply kicker_step_trans|apply validate_step|].
  intros _. apply always_bind; [apply kicker_step_trans|apply generate_step|].
  intros c. apply append_content_step.
Qed.

(** X1: [append] changes no path other than its file, removes nothing
    from the dirty set and adds at most its file, and starts no
    process: in every state and whatever its outcome. *)
Theorem append_touches_only_its_file (file : string) (s : state) :
  (forall g, g <> file -> fs (exec (append file) s) !! g = fs s !! g)
  /\ dirty_files s ⊆ dirty_files (exec (append file) s)
  /\ dirty_files (exec (append file) s) ⊆ {[file]} ∪ dirty_files s
  /\ launched (exec (append file) s) = launched s.
Proof.
  destruct (append_step file s) as (F & A & B & L & _). auto.
Qed.

Lemma append_touches_only_its_file_witness :
  fs (exec (append "app/Foo.java") scenario) !! "app/Bar.kt" = Some bar_kt
  /\ "stale.kt" ∈ dirty_files (exec (append "app/Foo.java") scenario)
  /\ launched (exec (append "app/Foo.java") scenario) = [].
Proof.
  destruct (append_touches_only_its_file "app/Foo.java" scenario) as (F & A & _ & L).
  split; [|split].
  - rewrite F by discriminate. vm_compute; reflexivity.
  - apply A. vm_compute. reflexivity.
  - exact L.
Defined.

(** ** What [cleanup] and [append] do to their file *)

Lemma remove_effect file s :
  exists s',
    _remove_appended_content file s = (Ret tt, s')
    /\ dirty_files s' = dirty_files s
    /\ (fs s' = fs s
        \/ exists data,
             supported file = true
             /\ fs s !! file = Some (Regular data)
             /\ removal_length file <= length data
             /\ fs s' = <[file := Regular (take (length data - removal_length file) data)]>
                          (fs s)).
Proof.
  destruct (supported file) eqn:H.
  - destruct (fs s !! file) as [[data|]|] eqn:F.
    + destruct (le_lt_dec (removal_length file) (length data)) as [L|L].
      * rewrite (remove_truncates file s data H F L). eexists.
        split; [reflexivity|]. split; [reflexivity|]. right. exists data. auto.
      * unfold _remove_appended_content.
        destruct (generate_supported file s H) as (content & G & Len).
        erewrite try_except_Ret.
        2:{ rewrite (bind_Ret _ _ _ _ _ G). unfold open_truncate_tail.
            cbn [set_draws fs]. rewrite F.
            change (length (encode_utf8 NL) * 2) with 2. rewrite Len.
            fold (removal_length file).
            destruct (Nat.ltb_spec (length data) (removal_length file));
              [reflexivity|lia]. }
        eexists. split; [reflexivity|]. cbn. auto.
    + unfold _remove_appended_content.
      destruct (generate_supported file s H) as (content & G & _).
      erewrite (try_except_Raise _ _ s (IsADirectoryError file)).
      2:{ rewrite (bind_Ret _ _ _ _ _ G). unfold open_truncate_tail.
          cbn [set_draws fs]. now rewrite F. }
      cbn. eexists. split; [reflexivity|]. cbn. auto.
    + unfold _remove_appended_content.
      destruct (generate_supported file s H) as (content & G & _).
      erewrite (try_except_Raise _ _ s (FileNotFoundError file)).
      2:{ rewrite (bind_Ret _ _ _ _ _ G). unfold open_truncate_tail.
          cbn [set_draws fs]. now rewrite F. }
      cbn. eexists. split; [reflexivity|]. cbn. auto.
  - unfold _remove_appended_content.
    destruct (generate_unsupported file s H) as (msg & G).
    erewrite (try_except_Raise _ _ s (ValueError msg))
      by exact (bind_Raise _ _ _ _ _ G).
    cbn. eexists. split; [reflexivity|]. cbn. auto.
Qed.

(** X2: [cleanup] never writes: every other path is left alone, a path
    that is not a regular file stays what it is, and a regular file
    keeps its bytes or loses exactly [removal_length] of them at its
    end. *)
Theorem cleanup_only_shortens (file : string) (s : state) :
  (forall g, g <> file -> fs (exec (cleanup file) s) !! g = fs s !! g)
  /\ (fs s !! file = None -> fs (exec (cleanup file) s) !! file = None)
  /\ (fs s !! file = Some Directory ->
      fs (exec (cleanup file) s) !! file = Some Directory)
  /\ (forall data, fs s !! file = Some (Regular data) ->
        exists cut,
          (cut = 0 \/ cut = removal_length file)
          /\ cut <= length data
          /\ fs (exec (cleanup file) s) !! file
             = Some (Regular (take (length data - cut) data))).
Proof.
  unfold exec, cleanup.
  destruct (remove_effect file s) as (s' & -> & _ & E). cbn [snd].
  destruct E as [E|(data & H & F & L & E)]; rewrite E.
  - repeat split; auto. intros data F. exists 0.
    rewrite Nat.sub_0_r, firstn_all. repeat split; auto; lia.
  - split; [intros g N; now rewrite lookup_insert_ne|].
    rewrite lookup_insert_eq. split; [congruence|]. split; [congruence|].
    intros data' F'. assert (data' = data) as -> by congruence.
    exists (removal_length file). auto.
Qed.

Lemma cleanup_only_shortens_witness :
  exists cut,
    (cut = 0 \/ cut = removal_length "Big.kt")
    /\ cut <= length (repeat "x"%byte 130)
    /\ fs (exec (cleanup "Big.kt") (sample_state [("Big.kt", big_kt)])) !! "Big.kt"
       = Some (Regular (take (length (repeat "x"%byte 130) - cut)
                             (repeat "x"%byte 130))).
Proof.
  destruct (cleanup_only_shortens "Big.kt" (sample_state [("Big.kt", big_kt)]))
    as (_ & _ & _ & R).
  apply (R (repeat "x"%byte 130)). vm_compute; reflexivity.
Defined.

Lemma append_regular file s data :
  supported file = true ->
  fs s !! file = Some (Regular data) ->
  exists content kept s',
    append file s = (Ret tt, s')
    /\ length (mutation content) = removal_length file
    /\ (exists cut, cut <= length data /\ kept = take (length data - cut) data)
    /\ fs s' = <[file := Regular (kept ++ mutation content)]> (fs s)
    /\ dirty_files s' = {[file]} ∪ dirty_files s.
Proof.
  intros H F.
  destruct (decide (file ∈ dirty_files s)) as [D|D].
  2:{ destruct (append_fresh file s data H F D) as (content & Len & A).
      exists content, data. eexists. split; [exact A|]. split; [exact Len|].
      split; [exists 0; rewrite Nat.sub_0_r, firstn_all; split; [lia|reflexivity]|].
      cbn. auto. }
  destruct (generate_supported file s H) as (content & G & Len).
  assert (ML : length (mutation content) = removal_length file).
  { unfold mutation, removal_length. rewrite mutation_length. lia. }
  pose (s1 := set_draws (draws s + FUNCTION_LENGTH) s).
  destruct (remove_effect file s1) as (s2 & R & D2 & E).
  assert (exists kept,
             (exists cut, cut <= length data /\ kept = take (length data - cut) data)
             /\ fs s2 !! file = Some (Regular kept)
             /\ <[file := Regular (kept ++ mutation content)]> (fs s2)
                = <[file := Regular (kept ++ mutation content)]> (fs s))
    as (kept & Hk & F2 & I2).
  { destruct E as [E|(data' & _ & F' & L & E)].
    - exists data. split.
      + exists 0. rewrite Nat.sub_0_r, firstn_all. split; [lia|reflexivity].
      + rewrite E. auto.
    - assert (data' = data) as -> by (cbn in F'; congruence).
      exists (take (length data - removal_length file) data). split.
      + exists (removal_length file). auto.
      + rewrite E, lookup_insert_eq, insert_insert_eq. auto. }
  exists content, kept. eexists. split; [|split; [exact ML|split; [exact Hk|]]].
  - unfold append.
    rewrite (bind_Ret _ _ _ _ _ (validate_supported _ s H)).
    rewrite (bind_Ret _ _ _ _ _ G). unfold _append_content.
    rewrite (bind_Ret _ _ s1 s1 s1) by reflexivity.
    rewrite bool_decide_eq_true_2 by exact D.
    rewrite (bind_Ret _ _ _ _ _ R).
    apply try_except_Ret.
    unfold mbind, M_bind, mret, M_ret, path_exists, open_append_write, modify.
    rewrite F2. rewrite bool_decide_eq_true_2 by eauto.
    cbn beta iota. rewrite F2. reflexivity.
  - cbn [fs dirty_files set_fs set_dirty]. fold (mutation content).
    rewrite I2, D2. auto.
Qed.

Lemma append_irregular file s :
  supported file = true ->
  (forall data, fs s !! file <> Some (Regular data)) ->
  exists s',
    append file s
    = (Raise (match fs s !! file with
              | None => FileNotFoundError EmptyString
              | Some _ => IsADirectoryError file
              end), s')
    /\ fs s' = fs s /\ dirty_files s' = dirty_files s.
Proof.
  intros H F.
  destruct (generate_supported file s H) as (content & G & _).
  pose (s1 := set_draws (draws s + FUNCTION_LENGTH) s).
  assert (exists s2,
             (if bool_decide (file ∈ dirty_files s1)
              then _remove_appended_content file else mret tt) s1 = (Ret tt, s2)
             /\ fs s2 = fs s /\ dirty_files s2 = dirty_files s)
    as (s2 & R & F2 & D2).
  { destruct (bool_decide (file ∈ dirty_files s1)).
    - destruct (remove_effect file s1) as (s2 & R & D2 & E).
      exists s2. split; [exact R|]. split; [|exact D2].
      destruct E as [E|(data & _ & F' & _)]; [exact E|].
      cbn in F'. now destruct (F data).
    - exists s1. auto. }
  unfold append.
  rewrite (bind_Ret _ _ _ _ _ (validate_supported _ s H)).
  rewrite (bind_Ret _ _ _ _ _ G). unfold _append_content.
  rewrite (bind_Ret _ _ s1 s1 s1) by reflexivity.
  rewrite (bind_Ret _ _ _ _ _ R).
  unfold try_except, mbind, M_bind, mret, M_ret, path_exists, open_append_write.
  rewrite F2.
  destruct (fs s !! file) as [[data|]|] eqn:E.
  - now destruct (F data).
  - rewrite bool_decide_eq_true_2 by eauto. cbn. rewrite F2, E. cbn. eauto.
  - rewrite bool_decide_eq_false_2 by (now intros [? ?]). cbn. eauto.
Qed.

(** X3: [append] returns normally exactly when its file is a regular
    file of a supported type.  It then leaves the file in the dirty set,
    ending in one fresh mutation of [removal_length] bytes that follows
    a prefix of its former bytes.  Otherwise it raises ([ValueError] for
    the type, [FileNotFoundError] for a missing file,
    [IsADirectoryError] for a directory) and leaves the file system and
    the dirty set exactly as they were. *)
Theorem append_outcome (file : string) (s : state) :
  (supported file = true ->
   forall data, fs s !! file = Some (Regular data) ->
   exists content cut s',
     append file s = (Ret tt, s')
     /\ file ∈ dirty_files s'
     /\ cut <= length data
     /\ length (mutation content) = removal_length file
     /\ fs s' !! file
        = Some (Regular (take (length data - cut) data ++ mutation content)))
  /\ (supported file = false ->
      exists msg, append file s = (Raise (ValueError msg), s))
  /\ (supported file = true ->
      (forall data, fs s !! file <> Some (Regular data)) ->
      exists s',
        append file s
        = (Raise (match fs s !! file with
                  | None => FileNotFoundError EmptyString
                  | Some _ => IsADirectoryError file
                  end), s')
        /\ fs s' = fs s /\ dirty_files s' = dirty_files s).
Proof.
  split; [|split].
  - intros H data F.
    destruct (append_regular file s data H F)
      as (content & kept & s' & A & L & (cut & C & ->) & Fs & D).
    exists content, cut, s'. split; [exact A|].
    split; [rewrite D; apply elem_of_union_l, elem_of_singleton; reflexivity|].
    split; [exact C|]. split; [exact L|]. rewrite Fs. apply lookup_insert_eq.
  - apply append_unsupported.
  - apply append_irregular.
Qed.

Lemma append_outcome_witness :
  (exists content cut s',
     append "src/Foo.java" (sample_state [("src/Foo.java", foo_java)]) = (Ret tt, s')
     /\ "src/Foo.java" ∈ dirty_files s'
     /\ cut <= length (encode_utf8 "class Foo {}")
     /\ length (mutation content) = removal_length "src/Foo.java"
     /\ fs s' !! "src/Foo.java"
        = Some (Regular (take (length (encode_utf8 "class Foo {}") - cut)
                           (encode_utf8 "class Foo {}") ++ mutation content)))
  /\ (exists msg,
        append "notes.txt" (sample_state [("src", Directory)])
        = (Raise (ValueError msg), sample_state [("src", Directory)]))
  /\ (exists s',
        append "src/Gone.kt" (sample_state [("src", Directory)])
        = (Raise (FileNotFoundError EmptyString), s')
        /\ fs s' = fs (sample_state [("src", Directory)])
        /\ dirty_files s' = dirty_files (sample_state [("src", Directory)])).
Proof.
  split; [|split].
  - apply (proj1 (append_outcome "src/Foo.java" _));
      [vm_compute; reflexivity|vm_compute; reflexivity].
  - apply (proj1 (proj2 (append_outcome "notes.txt" _))). vm_compute; reflexivity.
  - apply (proj2 (proj2 (append_outcome "src/Gone.kt"
                           (sample_state [("src", Directory)])))).
    + vm_compute; reflexivity.
    + intros data. vm_compute. discriminate.
Defined.

(** ** Batches of [append] and the bulk cleanup *)

Lemma tracked_start s : tracked (set_dirty ∅ s) (set_dirty ∅ s).
Proof.
  split.
  - intros f Hf. cbn in Hf. now apply not_elem_of_empty in Hf.
  - reflexivity.
Qed.

Lemma append_preserves_tracked s0 g : preserves (tracked s0) (append g).
Proof.
  intros s [Hd Hc]. destruct (supported g) eqn:Hs.
  2:{ destruct (append_unsupported g s Hs) as [msg E].
      unfold exec. rewrite E. now split. }
  destruct (fs s !! g) as [[data|]|] eqn:F.
  - destruct (decide (g ∈ dirty_files s)) as [D|D].
    + destruct (Hd g D) as (_ & data0 & m & F0 & Fm & L).
      destruct (append_marked g s data0 m Hs Fm L D) as (c & Lc & E).
      unfold exec. rewrite E. unfold tracked.
      cbn [snd fs dirty_files set_fs set_dirty set_draws]. split.
      * intros f Hf. destruct (decide (f = g)) as [->|N].
        -- split; [exact Hs|]. exists data0, (mutation c).
           now rewrite lookup_insert_eq.
        -- rewrite lookup_insert_ne by auto. apply Hd. eapply in_added_other; eauto.
      * intros f Hf. apply not_in_added in Hf as [N Hf].
        rewrite lookup_insert_ne by exact N. now apply Hc.
    + destruct (append_fresh g s data Hs F D) as (c & Lc & E).
      unfold exec. rewrite E. unfold tracked.
      cbn [snd fs dirty_files set_fs set_dirty set_draws]. split.
      * intros f Hf. destruct (decide (f = g)) as [->|N].
        -- split; [exact Hs|]. exists data, (mutation c).
           rewrite lookup_insert_eq, <- (Hc g D), F. auto.
        -- rewrite lookup_insert_ne by auto. apply Hd. eapply in_added_other; eauto.
      * intros f Hf. apply not_in_added in Hf as [N Hf].
        rewrite lookup_insert_ne by exact N. now apply Hc.
  - destruct (append_irregular g s Hs) as (s' & E & Fs & Di).
    { intros data. rewrite F. discriminate. }
    unfold exec. rewrite E. cbn [snd]. unfold tracked. rewrite Fs, Di. now split.
  - destruct (append_irregular g s Hs) as (s' & E & Fs & Di).
    { intros data. rewrite F. discriminate. }
    unfold exec. rewrite E. cbn [snd]. unfold tracked. rewrite Fs, Di. now split.
Qed.

Lemma cleanup_fold_restores_all s0 todo : forall s,
  NoDup todo ->
  (forall f, f ∈ todo ->
     supported f = true
     /\ exists data m,
          fs s0 !! f = Some (Regular data)
          /\ fs s !! f = Some (Regular (data ++ m))
          /\ length m = removal_length f) ->
  (forall f, f ∉ todo -> fs s !! f = fs s0 !! f) ->
  forall f, fs (foldl (fun st f => exec (cleanup f) st) s todo) !! f = fs s0 !! f.
Proof.
  induction todo as [|g todo IH]; intros s ND Hd Hc.
  - intros f. cbn [foldl]. apply Hc, not_elem_of_nil.
  - apply NoDup_cons in ND as [Ng ND]. cbn [foldl].
    destruct (Hd g (list_elem_of_here _ _)) as (Sg & data & m & F0 & F & L).
    pose proof (cleanup_marked g s data m Sg F L) as C.
    apply IH; [exact ND| |].
    + intros f Hf. destruct (Hd f (list_elem_of_further _ _ _ Hf))
        as (Sf & d' & m' & G0 & G & L').
      split; [exact Sf|]. exists d', m'. rewrite C.
      rewrite lookup_insert_ne by (intros ->; contradiction). auto.
    + intros f Hf. rewrite C. destruct (decide (g = f)) as [->|N].
      * now rewrite lookup_insert_eq, F0.
      * rewrite lookup_insert_ne by exact N. apply Hc.
        intros X. apply elem_of_cons in X as [->|X]; [now apply N|now apply Hf].
Qed.

(** X4: with a fresh kicker, appending to the files of any list in turn
    (the same file may come several times; the batch stops at the first
    file that raises) and then calling [cleanup_all_dirty] leaves the
    whole file system byte for byte as it was, and the dirty set empty. *)
Theorem kicker_batch_round_trip `{SetIteration} (files : list string) (s : state) :
  let batch := for_each files append in
  fs (exec cleanup_all_dirty (exec batch (set_dirty ∅ s))) = fs s
  /\ dirty_files (exec cleanup_all_dirty (exec batch (set_dirty ∅ s))) = ∅.
Proof.
  intros batch.
  assert (T : tracked (set_dirty ∅ s) (exec batch (set_dirty ∅ s))).
  { apply preserves_for_each; [intros f; apply append_preserves_tracked|].
    apply tracked_start. }
  destruct T as [Hd Hc]. unfold exec at 1 3. rewrite cleanup_all_dirty_fold.
  cbn [snd fs dirty_files set_dirty]. split; [|reflexivity].
  apply map_eq. intros f.
  pose proof (set_iter_perm (dirty_files (exec batch (set_dirty ∅ s)))) as P.
  change (fs s) with (fs (set_dirty ∅ s)).
  apply cleanup_fold_restores_all.
  - rewrite P. apply NoDup_elements.
  - intros g Hg. apply Hd. rewrite P in Hg. now apply elem_of_elements in Hg.
  - intros g Hg. apply Hc. intros X. apply Hg. rewrite P.
    now apply elem_of_elements.
Qed.

(** X5: what [cleanup] reports instead of raising: for a type without
    template the [ValueError] of the validation, before any random draw;
    for a missing file that it does not exist; for a directory the
    error of [open].  Nothing else of the state changes but the position
    of the generator. *)
Theorem cleanup_reports_errors (file : string) (s : state) :
  (supported file = false ->
   exists msg, cleanup file s = (Ret tt, add_line (PUnexpected (ValueError msg)) s))
  /\ (supported file = true -> fs s !! file = None ->
      cleanup file s
      = (Ret tt, add_line (PFileMissing file) (set_draws (draws s + FUNCTION_LENGTH) s)))
  /\ (supported file = true -> fs s !! file = Some Directory ->
      cleanup file s
      = (Ret tt, add_line (PRevertError file (IsADirectoryError file))
                   (set_draws (draws s + FUNCTION_LENGTH) s))).
Proof.
  unfold cleanup, _remove_appended_content. split; [|split].
  - intros H. destruct (generate_unsupported file s H) as (msg & G).
    exists msg. now rewrite (try_except_Raise _ _ s (ValueError msg) s)
      by exact (bind_Raise _ _ _ _ _ G).
  - intros H F. destruct (generate_supported file s H) as (content & G & _).
    erewrite (try_except_Raise _ _ s (FileNotFoundError file)); [reflexivity|].
    rewrite (bind_Ret _ _ _ _ _ G). unfold open_truncate_tail.
    cbn [set_draws fs]. now rewrite F.
  - intros H F. destruct (generate_supported file s H) as (content & G & _).
    erewrite (try_except_Raise _ _ s (IsADirectoryError file)); [reflexivity|].
    rewrite (bind_Ret _ _ _ _ _ G). unfold open_truncate_tail.
    cbn [set_draws fs]. now rewrite F.
Qed.

Lemma cleanup_reports_errors_witness :
  (exists msg,
     cleanup "notes.txt" (sample_state [("src", Directory)])
     = (Ret tt, add_line (PUnexpected (ValueError msg)) (sample_state [("src", Directory)])))
  /\ stdout (exec (cleanup "src/Gone.kt") (sample_state [("src", Directory)]))
     = [PFileMissing "src/Gone.kt"]
  /\ stdout (exec (cleanup "lib.py") (sample_state [("lib.py", Directory)]))
     = [PRevertError "lib.py" (IsADirectoryError "lib.py")].
Proof.
  split; [|split].
  - apply (proj1 (cleanup_reports_errors "notes.txt" _)). vm_compute; reflexivity.
  - unfold exec.
    rewrite (proj1 (proj2 (cleanup_reports_errors "src/Gone.kt" _)));
      [reflexivity|vm_compute; reflexivity|vm_compute; reflexivity].
  - unfold exec.
    rewrite (proj2 (proj2 (cleanup_reports_errors "lib.py" _)));
      [reflexivity|vm_compute; reflexivity|vm_compute; reflexivity].
Defined.

Lemma string_length_append a b :
  String.length (a +:+ b) = String.length a + String.length b.
Proof.
  induction a as [|c a IH]; [reflexivity|].
  rewrite append_cons. cbn [String.length]. now rewrite IH.
Qed.

Lemma string_length_of_list l : String.length (string_of_list_ascii l) = length l.
Proof. induction l as [|c l IH]; cbn; [reflexivity|now rewrite IH]. Qed.

(** X6: for a file of a supported type the generated declaration has a
    length that the extension alone decides, whatever the generator
    draws: 126 bytes for py, 134 for java, 119 for kt (two more are the
    newlines around it); it is plain ASCII, one byte per character, and
    the call consumes exactly [FUNCTION_LENGTH] draws. *)
Theorem generate_content_length (file : string) (s : state) :
  supported file = true ->
  exists content,
    _generate_content file s
    = (Ret content, set_draws (draws s + FUNCTION_LENGTH) s)
    /\ length (encode_utf8 content) = declaration_bytes (lower (extension file))
    /\ String.length content = declaration_bytes (lower (extension file))
    /\ removal_length file = 2 + declaration_bytes (lower (extension file)).
Proof.
  intros H. unfold _generate_content, removal_length, content_length.
  rewrite (bind_Ret _ _ _ _ _ (validate_supported _ s H)).
  destruct (lower_supported_cases file H) as [E|[E|E]]; rewrite E;
    (eexists; split; [reflexivity|]);
    cbn [format foldr py_template java_template kt_template];
    rewrite ?encode_utf8_app, ?length_app, ?encode_letters_length, ?length_seq;
    (split; [vm_compute; reflexivity|]);
    (split; [|vm_compute; reflexivity]).
  all: rewrite !string_length_append, string_length_of_list, length_map, length_seq;
    vm_compute; reflexivity.
Qed.

Lemma generate_content_length_witness :
  supported "a/b/Main.KT" = true
  /\ exists content,
       _generate_content "a/b/Main.KT" (sample_state [])
       = (Ret content, set_draws (draws (sample_state []) + FUNCTION_LENGTH) (sample_state []))
       /\ length (encode_utf8 content) = 119
       /\ String.length content = 119
       /\ removal_length "a/b/Main.KT" = 121.
Proof.
  assert (H : supported "a/b/Main.KT" = true) by (vm_compute; reflexivity).
  split; [exact H|]. exact (generate_content_length "a/b/Main.KT" (sample_state []) H).
Defined.

(** ** The build driver *)

Lemma bind_Ret_inv {A B} (m : M A) (f : A -> M B) s b s' :
  (m ≫= f) s = (Ret b, s') ->
  exists a s1, m s = (Ret a, s1) /\ f a s1 = (Ret b, s').
Proof.
  unfold mbind, M_bind. destruct (m s) as [[a|e] s1]; [eauto|discriminate].
Qed.

Lemma for_range_fails self cmd n target args k m i s :
  (forall j, j < k -> returncode (processes s (length (launched s) + j)) = 0%Z) ->
  returncode (processes s (length (launched s) + k)) <> 0%Z ->
  exists s',
    for_range i (k + S m) (fun i =>
      print (PBuildOf (build_sys self) (i + 1) n) ;;
      build self cmd target args ;; mret tt) s
    = (Raise (RuntimeError (build_sys self +:+ " build failed: "
                            +:+ captured (processes s (length (launched s) + k)))), s')
    /\ launched s'
       = launched s
         ++ repeat (ProcessCall (argv self cmd target args) (working_dir self)) (S k)
    /\ stdout s'
       = stdout s
         ++ flat_map (fun j => round_lines self n s (i + j) (length (launched s) + j))
              (seq 0 k)
         ++ [PBuildOf (build_sys self) (i + k + 1) n;
             PBuilding (build_sys self);
             PProcessOutput (captured (processes s (length (launched s) + k)))]
    /\ fs s' = fs s /\ dirty_files s' = dirty_files s.
Proof.
  revert i s. induction k as [|k IH]; intros i s R F.
  - cbn [Nat.add for_range].
    pose (s1 := add_line (PBuildOf (build_sys self) (i + 1) n) s).
    rewrite Nat.add_0_r in F.
    pose proof (build_failure self cmd target args s1 F) as B.
    eexists. split.
    { erewrite (bind_Raise _ _ s); [reflexivity|].
      rewrite (bind_Ret _ _ s tt s1) by reflexivity.
      rewrite (bind_Raise _ _ _ _ _ B). subst s1.
      cbn [processes launched add_line]. rewrite Nat.add_0_r. reflexivity. }
    subst s1. cbn [processes launched stdout fs dirty_files add_line add_launched
                   repeat seq flat_map app].
    rewrite !Nat.add_0_r, <- !app_assoc. repeat split; reflexivity.
  - cbn [Nat.add for_range].
    pose (s1 := add_line (PBuildOf (build_sys self) (i + 1) n) s).
    assert (R0 : returncode (processes s1 (length (launched s1))) = 0%Z).
    { specialize (R 0 ltac:(lia)). now rewrite Nat.add_0_r in R. }
    pose proof (build_success self cmd target args s1 R0) as B.
    match type of B with _ = (_, ?st) => pose (s2 := st) end.
    destruct (IH (S i) s2) as (s' & E & La & Out & Fs & Di).
    { intros j Hj. specialize (R (S j) ltac:(lia)).
      subst s2 s1. cbn [processes launched add_line add_launched].
      rewrite length_app. cbn [length].
      now replace (length (launched s) + 1 + j) with (length (launched s) + S j) by lia. }
    { subst s2 s1. cbn [processes launched add_line add_launched].
      rewrite length_app. cbn [length].
      now replace (length (launched s) + 1 + k) with (length (launched s) + S k) by lia. }
    exists s'. split.
    { rewrite (bind_Ret _ _ s tt s2).
      - rewrite E. subst s2 s1. cbn [processes launched add_line add_launched].
        rewrite length_app. cbn [length].
        now replace (length (launched s) + 1 + k) with (length (launched s) + S k) by lia.
      - rewrite (bind_Ret _ _ s tt s1) by reflexivity.
        rewrite (bind_Ret _ _ _ _ _ B). reflexivity. }
    rewrite La, Out, Fs, Di. subst s2 s1.
    cbn [processes launched stdout fs dirty_files add_line add_launched].
    repeat split; try reflexivity.
    + now rewrite <- app_assoc.
    + cbn [seq flat_map]. rewrite flat_map_seq_S, !Nat.add_0_r.
      rewrite <- !app_assoc. f_equal. unfold round_lines.
      cbn [app processes launched add_line add_launched].
      do 4 f_equal. rewrite length_app. cbn [length]. f_equal.
      * apply flat_map_ext. intros j.
        now replace (i + S j) with (S i + j) by lia;
            replace (length (launched s) + 1 + j) with (length (launched s) + S j) by lia.
      * now replace (S i + k + 1) with (i + S k + 1) by lia;
            replace (length (launched s) + 1 + k) with (length (launched s) + S k) by lia.
Qed.

(** X7: [build_n_times] stops at the first build that fails.  When the
    next [k] processes exit with status 0 and the one after them does
    not, with [k < n], the call raises the [RuntimeError] that carries
    the output of that process; exactly [k + 1] commands have been
    started, the failed round has printed no build time, and no later
    round is announced. *)
Theorem build_n_times_first_failure
    (self : BuildSys) (build_cmd : string) (n k : nat) (target : option string)
    (args : list (string * string)) (s : state) :
  k < n ->
  (forall j, j < k -> returncode (processes s (length (launched s) + j)) = 0%Z) ->
  returncode (processes s (length (launched s) + k)) <> 0%Z ->
  exists s',
    build_n_times self build_cmd n target args s
    = (Raise (RuntimeError (build_sys self +:+ " build failed: "
                            +:+ captured (processes s (length (launched s) + k)))), s')
    /\ launched s'
       = launched s
         ++ repeat (ProcessCall (argv self build_cmd target args) (working_dir self)) (S k)
    /\ stdout s'
       = stdout s
         ++ flat_map (fun j => round_lines self n s j (length (launched s) + j)) (seq 0 k)
         ++ [PBuildOf (build_sys self) (k + 1) n;
             PBuilding (build_sys self);
             PProcessOutput (captured (processes s (length (launched s) + k)))]
    /\ fs s' = fs s /\ dirty_files s' = dirty_files s.
Proof.
  intros K R F. unfold build_n_times.
  destruct (for_range_fails self build_cmd n target args k (n - S k) 0 s R F)
    as (s' & E & La & Out & Fs & Di).
  replace (k + S (n - S k)) with n in E by lia.
  exists s'. cbn [Nat.add] in Out. auto.
Qed.

Lemma build_n_times_first_failure_witness :
  exists s',
    build_n_times (Build_BuildSys "Gradle" "./gradlew" None) "assemble" 6 None [] scenario
    = (Raise (RuntimeError "Gradle build failed: out"), s')
    /\ launched s' = repeat (ProcessCall ["./gradlew"; "assemble"] None) 5
    /\ length (stdout s') = 19
    /\ fs s' = fs scenario.
Proof.
  destruct (build_n_times_first_failure
              (Build_BuildSys "Gradle" "./gradlew" None) "assemble" 6 4 None [] scenario)
    as (s' & E & La & Out & Fs & _).
  - lia.
  - intros j Hj. do 4 (destruct j as [|j]; [reflexivity|]). lia.
  - vm_compute. discriminate.
  - exists s'. split; [exact E|]. split; [exact La|]. split; [|exact Fs].
    rewrite Out. reflexivity.
Defined.

(** ** The timed loop: which process each measurement comes from *)

Lemma kick_sources_starts_nothing source_files s :
  launched (exec (kick_sources source_files) s) = launched s
  /\ processes (exec (kick_sources source_files) s) = processes s.
Proof.
  apply (always_for_each
           (fun s s' => launched s' = launched s /\ processes s' = processes s)).
  - auto.
  - intros s1 s2 s3 [L1 P1] [L2 P2]. split; congruence.
  - intros file s1. destruct (contains "/_generated_databinding/" file).
    + split; reflexivity.
    + destruct (append_step file s1) as (_ & _ & _ & L & P & _). auto.
Qed.

Lemma shutil_move_starts_nothing src dst s :
  launched (exec (shutil_move src dst) s) = launched s
  /\ processes (exec (shutil_move src dst) s) = processes s.
Proof.
  unfold exec, shutil_move.
  destruct (isdir dst s && String.eqb src dst); [auto|].
  destruct (isdir dst s && bool_decide _); [auto|].
  destruct (fs s !! src); auto.
Qed.

Lemma build_Ret_inv self cmd target args s q s' :
  build self cmd target args s = (Ret q, s') ->
  returncode (processes s (length (launched s))) = 0%Z
  /\ q = elapsed (processes s (length (launched s)))
  /\ launched s' = launched s ++ [ProcessCall (argv self cmd target args) (working_dir self)]
  /\ processes s' = processes s.
Proof.
  intros B.
  destruct (Z.eq_dec (returncode (processes s (length (launched s)))) 0%Z) as [R|R].
  - rewrite (build_success _ _ _ _ _ R) in B. injection B as <- <-. auto.
  - rewrite (build_failure _ _ _ _ _ R) in B. discriminate.
Qed.

Lemma iteration_Ret_inv wd bt kt gd sources t0 s t1 s1 :
  iteration wd bt kt gd sources t0 s = (Ret t1, s1) ->
  (forall i, i < 3 -> returncode (processes s (length (launched s) + i)) = 0%Z)
  /\ bazel_times t1 = bazel_times t0 ++ [elapsed (processes s (length (launched s)))]
  /\ gradle_times t1 = gradle_times t0 ++ [elapsed (processes s (length (launched s) + 1))]
  /\ buck_times t1 = buck_times t0 ++ [elapsed (processes s (length (launched s) + 2))]
  /\ launched s1 = launched s ++ round_calls wd bt kt gd
  /\ processes s1 = processes s.
Proof.
  unfold iteration. intros I.
  apply bind_Ret_inv in I as (u & sa & K & I).
  destruct (kick_sources_starts_nothing sources s) as [La Pa].
  unfold exec in La, Pa. rewrite K in La, Pa. cbn [snd] in La, Pa.
  apply bind_Ret_inv in I as (d1 & sb & M1 & I).
  destruct (shutil_move_starts_nothing (res +:+ "resources.properties") raw sa) as [Lb Pb].
  unfold exec in Lb, Pb. rewrite M1 in Lb, Pb. cbn [snd] in Lb, Pb.
  apply bind_Ret_inv in I as (bazel & sc & B1 & I).
  apply build_Ret_inv in B1 as (R1 & -> & Lc & Pc).
  apply bind_Ret_inv in I as (d2 & sd & M2 & I).
  destruct (shutil_move_starts_nothing (raw +:+ "resources.properties") res sc) as [Ld Pd].
  unfold exec in Ld, Pd. rewrite M2 in Ld, Pd. cbn [snd] in Ld, Pd.
  apply bind_Ret_inv in I as (gradle & se & B2 & I).
  apply build_Ret_inv in B2 as (R2 & -> & Le & Pe).
  apply bind_Ret_inv in I as (buck & sf & B3 & I).
  apply build_Ret_inv in B3 as (R3 & -> & Lf & Pf).
  injection I as <- <-. cbn [bazel_times gradle_times buck_times].
  assert (X0 : length (launched sb) = length (launched s)) by congruence.
  assert (X1 : length (launched sd) = length (launched s) + 1).
  { rewrite Ld, Lc, length_app. cbn [length]. lia. }
  assert (X2 : length (launched se) = length (launched s) + 2).
  { rewrite Le, length_app, X1. cbn [length]. lia. }
  rewrite X0, Pb, Pa in R1. rewrite X1, Pd, Pc, Pb, Pa in R2.
  rewrite X2, Pe, Pd, Pc, Pb, Pa in R3.
  rewrite X0, X1, X2, ?Pe, ?Pd, ?Pc, ?Pb, ?Pa.
  split; [|split; [|split; [|split; [|split]]]]; try reflexivity.
  - intros i Hi. destruct i as [|[|[|i]]]; [| | |lia]; auto.
    now rewrite Nat.add_0_r.
  - rewrite Lf, Le, Ld, Lc, Lb, La, <- !app_assoc. reflexivity.
  - congruence.
Qed.

Lemma iterations_Ret_inv wd bt kt gd sources n :
  forall t0 s t s',
    iterations wd bt kt gd sources n t0 s = (Ret t, s') ->
    (forall i, i < 3 * n -> returncode (processes s (length (launched s) + i)) = 0%Z)
    /\ bazel_times t
       = bazel_times t0
         ++ map (fun i => elapsed (processes s (length (launched s) + 3 * i))) (seq 0 n)
    /\ gradle_times t
       = gradle_times t0
         ++ map (fun i => elapsed (processes s (length (launched s) + 3 * i + 1))) (seq 0 n)
    /\ buck_times t
       = buck_times t0
         ++ map (fun i => elapsed (processes s (length (launched s) + 3 * i + 2))) (seq 0 n)
    /\ launched s' = launched s ++ concat (repeat (round_calls wd bt kt gd) n)
    /\ processes s' = processes s.
Proof.
  induction n as [|n IH]; intros t0 s t s' I; cbn [iterations] in I.
  - injection I as <- <-. cbn. rewrite !app_nil_r.
    repeat split; try reflexivity. intros i Hi. lia.
  - apply bind_Ret_inv in I as (t1 & s1 & I1 & I).
    apply iteration_Ret_inv in I1 as (R1 & B1 & G1 & K1 & L1 & P1).
    apply IH in I as (R & B & G & K & L & P).
    assert (X : length (launched s1) = length (launched s) + 3).
    { rewrite L1, length_app. reflexivity. }
    rewrite X, P1 in R, B, G, K. rewrite B, G, K, L, P, B1, G1, K1, L1, P1.
    cbn [seq map repeat concat]. rewrite <- !seq_shift, !map_map, <- !app_assoc.
    cbn [app]. rewrite !Nat.add_0_r.
    split; [|split; [|split; [|split; [|split]]]]; try reflexivity.
    + intros i Hi. destruct (Nat.lt_ge_cases i 3) as [C|C]; [now apply R1|].
      replace (length (launched s) + i) with (length (launched s) + 3 + (i - 3)) by lia.
      apply R. lia.
    + do 2 f_equal. apply map_ext. intros i. do 2 f_equal. lia.
    + do 2 f_equal. apply map_ext. intros i. do 2 f_equal. lia.
    + do 2 f_equal. apply map_ext. intros i. do 2 f_equal. lia.
Qed.

(** X8: when the timed loop returns, each of the three lists holds
    exactly [build_count] durations, and the [i]-th one of a list is the
    duration of one particular process: the Bazel build is the first
    process of pass [i], Gradle the second, Buck2 the third.  The loop
    has started these [3 * build_count] commands and no other, and each
    of them exited with status 0. *)
Theorem timed_loop_measurements
    (build_count : nat) (bazel_working_dir bazel_target buck_target gradle_dir : string)
    (source_files : list string) (s : state) (t : times) (s' : state) :
  timed_loop build_count bazel_working_dir bazel_target buck_target gradle_dir
    source_files s = (Ret t, s') ->
  (forall i, i < 3 * build_count ->
     returncode (processes s (length (launched s) + i)) = 0%Z)
  /\ bazel_times t
     = map (fun i => elapsed (processes s (length (launched s) + 3 * i)))
         (seq 0 build_count)
  /\ gradle_times t
     = map (fun i => elapsed (processes s (length (launched s) + 3 * i + 1)))
         (seq 0 build_count)
  /\ buck_times t
     = map (fun i => elapsed (processes s (length (launched s) + 3 * i + 2)))
         (seq 0 build_count)
  /\ launched s'
     = launched s
       ++ concat (repeat (round_calls bazel_working_dir bazel_target buck_target gradle_dir)
                    build_count).
Proof.
  intros I. unfold timed_loop in I.
  apply iterations_Ret_inv in I as (R & B & G & K & L & _). auto.
Qed.

Lemma timed_loop_measurements_witness :
  exists t s',
    timed_loop 1 "ws" "//app" "root//app:app" "android" scenario_sources scenario
    = (Ret t, s')
    /\ bazel_times t = [elapsed (processes scenario 0)]
    /\ gradle_times t = [elapsed (processes scenario 1)]
    /\ buck_times t = [elapsed (processes scenario 2)]
    /\ launched s'
       = [ProcessCall ["bazel"; "build"; "//app"] (Some "ws");
          ProcessCall ["./gradlew"; "assembleDevRelease"] (Some "android");
          ProcessCall ["/Users/b41z33d/.cargo/bin/buck2"; "build"; "root//app:app"] None].
Proof.
  destruct (timed_loop 1 "ws" "//app" "root//app:app" "android" scenario_sources scenario)
    as [[t|e] s'] eqn:E.
  - exists t, s'. split; [reflexivity|].
    destruct (timed_loop_measurements _ _ _ _ _ _ _ _ _ E) as (_ & B & G & K & L).
    rewrite B, G, K, L. repeat split; reflexivity.
  - apply (f_equal fst) in E. vm_compute in E. discriminate.
Defined.

(** ** The report after the loop *)

Lemma set_iter_empty `{SetIteration} : set_iter ∅ = [].
Proof.
  pose proof (set_iter_perm ∅) as P. rewrite elements_empty in P.
  now apply Permutation_nil_r in P.
Qed.

Lemma report_averages ib ik ig t b k g s :
  statistics_mean (bazel_times t) = Ret b ->
  statistics_mean (buck_times t) = Ret k ->
  statistics_mean (gradle_times t) = Ret g ->
  report ib ik ig t s
  = (Ret tt,
     add_line (PAverage "Gradle" g)
       (add_line (PAverage "Buck2" k)
          (add_line (PAverage "Bazel" b)
             (add_line (PWarmUp "Gradle" ig)
                (add_line (PWarmUp "Buck2" ik)
                   (add_line (PWarmUp "Bazel" ib) (add_line PWarmUpHeader s))))))).
Proof.
  intros B K G. unfold report, lift, print, modify, mbind, M_bind. cbn.
  rewrite B. cbn. rewrite K. cbn. rewrite G. reflexivity.
Qed.

Lemma measurements_nonempty (f : nat -> float) n : 0 < n -> map f (seq 0 n) <> [].
Proof. destruct n as [|n]; [lia|]. discriminate. Qed.

(** X9: a run with [build_count = 0] does not end normally.  The loop
    body never runs, the cleanup finds nothing to do, the four warm-up
    lines are printed, and the first average raises [StatisticsError]
    because the list of Bazel times is empty: no average is printed and
    no process is started. *)
Theorem timed_run_without_builds `{SetIteration}
    (bazel_working_dir bazel_target buck_target gradle_dir : string)
    (source_files : list string)
    (initial_bazel_time initial_buck_time initial_gradle_time : float) (s : state) :
  timed_run 0 bazel_working_dir bazel_target buck_target gradle_dir source_files
    initial_bazel_time initial_buck_time initial_gradle_time s
  = (Raise (StatisticsError "mean requires at least one data point"),
     add_line (PWarmUp "Gradle" initial_gradle_time)
       (add_line (PWarmUp "Buck2" initial_buck_time)
          (add_line (PWarmUp "Bazel" initial_bazel_time)
             (add_line PWarmUpHeader (set_dirty ∅ s))))).
Proof.
  unfold timed_run.
  rewrite (bind_Ret _ _ s tt (set_dirty ∅ s)) by reflexivity.
  rewrite (bind_Ret _ _ _ (Times [] [] []) (set_dirty ∅ s)); [reflexivity|].
  unfold guarded_loop, timed_loop, try_finally. cbn [iterations].
  unfold mret at 1, M_ret at 1. rewrite cleanup_all_dirty_fold.
  cbn [dirty_files set_dirty]. rewrite set_iter_empty. reflexivity.
Qed.

(** X10: whenever the timed loop has completed at least one pass, the
    report that follows cannot raise: in any state it prints the four
    warm-up lines and then the three averages, in the order Bazel,
    Buck2, Gradle, each the float that [statistics.mean] returns for the
    measurements of the loop, which for finite measurements is their
    exact mean rounded to the nearest float. *)
Theorem report_after_loop
    (build_count : nat) (bazel_working_dir bazel_target buck_target gradle_dir : string)
    (source_files : list string)
    (initial_bazel_time initial_buck_time initial_gradle_time : float)
    (s : state) (t : times) (s' : state) :
  0 < build_count ->
  timed_loop build_count bazel_working_dir bazel_target buck_target gradle_dir
    source_files s = (Ret t, s') ->
  exists bazel buck gradle,
    (statistics_mean (bazel_times t) = Ret bazel
     /\ statistics_mean (buck_times t) = Ret buck
     /\ statistics_mean (gradle_times t) = Ret gradle)
    /\ (forallb is_finite (bazel_times t) = true ->
        is_rounded_mean bazel (bazel_times t))
    /\ (forallb is_finite (buck_times t) = true ->
        is_rounded_mean buck (buck_times t))
    /\ (forallb is_finite (gradle_times t) = true ->
        is_rounded_mean gradle (gradle_times t))
    /\ forall s2,
         report initial_bazel_time initial_buck_time initial_gradle_time t s2
         = (Ret tt,
            add_line (PAverage "Gradle" gradle)
              (add_line (PAverage "Buck2" buck)
                 (add_line (PAverage "Bazel" bazel)
                    (add_line (PWarmUp "Gradle" initial_gradle_time)
                       (add_line (PWarmUp "Buck2" initial_buck_time)
                          (add_line (PWarmUp "Bazel" initial_bazel_time)
                             (add_line PWarmUpHeader s2))))))).
Proof.
  intros N I. unfold timed_loop in I.
  apply iterations_Ret_inv in I as (_ & B & G & K & _).
  cbn [bazel_times gradle_times buck_times app] in B, G, K.
  destruct (statistics_mean_nonempty (bazel_times t)) as (b & Hb & Mb).
  { rewrite B. now apply measurements_nonempty. }
  destruct (statistics_mean_nonempty (buck_times t)) as (k & Hk & Mk).
  { rewrite K. now apply measurements_nonempty. }
  destruct (statistics_mean_nonempty (gradle_times t)) as (g & Hg & Mg).
  { rewrite G. now apply measurements_nonempty. }
  exists b, k, g. split; [now repeat split|].
  do 3 (split; [assumption|]).
  intros s2. now apply report_averages.
Qed.

Lemma report_after_loop_witness :
  exists t s' bazel buck gradle,
    timed_loop 1 "ws" "//app" "root//app:app" "android" scenario_sources scenario
    = (Ret t, s')
    /\ (statistics_mean (bazel_times t) = Ret bazel
        /\ statistics_mean (buck_times t) = Ret buck
        /\ statistics_mean (gradle_times t) = Ret gradle)
    /\ (forallb is_finite (bazel_times t) = true ->
        is_rounded_mean bazel (bazel_times t))
    /\ (forallb is_finite (buck_times t) = true ->
        is_rounded_mean buck (buck_times t))
    /\ (forallb is_finite (gradle_times t) = true ->
        is_rounded_mean gradle (gradle_times t))
    /\ stdout (exec (report (float_of_Z 5) (float_of_Z 6) (float_of_Z 7) t) s')
       = stdout s'
         ++ [PWarmUpHeader; PWarmUp "Bazel" (float_of_Z 5);
             PWarmUp "Buck2" (float_of_Z 6); PWarmUp "Gradle" (float_of_Z 7);
             PAverage "Bazel" bazel; PAverage "Buck2" buck; PAverage "Gradle" gradle].
Proof.
  destruct (timed_loop 1 "ws" "//app" "root//app:app" "android" scenario_sources scenario)
    as [[t|e] s'] eqn:E.
  - destruct (report_after_loop 1 "ws" "//app" "root//app:app" "android" scenario_sources
                (float_of_Z 5) (float_of_Z 6) (float_of_Z 7) scenario t s'
                ltac:(lia) E) as (b & k & g & Rs & Mb & Mk & Mg & R).
    exists t, s', b, k, g. split; [reflexivity|]. split; [exact Rs|].
    do 3 (split; [assumption|]).
    unfold exec. rewrite R. cbn [snd stdout add_line]. now rewrite <- !app_assoc.
  - apply (f_equal fst) in E. vm_compute in E. discriminate.
Defined.

(** ** Targets and their prefixes *)

Lemma append_assoc a b c : (a +:+ b) +:+ c = a +:+ (b +:+ c).
Proof.
  induction a as [|x a IH]; [reflexivity|]. now rewrite !append_cons, IH.
Qed.

Lemma prefix_empty s : String.prefix EmptyString s = true.
Proof. now destruct s. Qed.

Lemma prefix_slashes_next c x r :
  String.prefix "//" (String c (x +:+ "//" +:+ r))
  = String.prefix "//" (String c (x +:+ "/")).
Proof.
  cbn [String.prefix]. destruct (ascii_dec "/" c); [|reflexivity].
  destruct x as [|d x]; [reflexivity|]. rewrite !append_cons.
  cbn [String.prefix]. destruct (ascii_dec "/" d); [|reflexivity].
  now rewrite !prefix_empty.
Qed.

Lemma split_from_nonempty sep s : forall skip piece,
  1 <= length (split_from sep s skip piece).
Proof.
  induction s as [|c s IH]; intros skip piece; cbn [split_from]; [cbn; lia|].
  destruct skip; [|apply IH].
  destruct (String.prefix sep (String c s)); [cbn; lia|apply IH].
Qed.

(** No separator: one piece, the whole string. *)
Lemma split_from_plain s : forall piece,
  contains "//" s = false -> split_from "//" s 0 piece = [piece +:+ s].
Proof.
  induction s as [|c s IH]; intros piece C.
  - now rewrite append_empty_r.
  - cbn [contains] in C. apply orb_false_iff in C as [P C].
    cbn [split_from]. rewrite P, (IH _ C), append_assoc. reflexivity.
Qed.

(** The leftmost separator ends the first piece. *)
Lemma split_from_leftmost cell rest : forall piece,
  contains "//" (cell +:+ "/") = false ->
  split_from "//" (cell +:+ "//" +:+ rest) 0 piece
  = (piece +:+ cell) :: split_from "//" rest 0 EmptyString.
Proof.
  induction cell as [|c cell IH]; intros piece C.
  - rewrite append_empty_r.
    change (EmptyString +:+ "//" +:+ rest) with (String "/" (String "/" rest)).
    assert (P : String.prefix "//" (String "/" (String "/" rest)) = true)
      by (cbn; apply prefix_empty).
    cbn [split_from]. rewrite P. reflexivity.
  - rewrite append_cons in C. cbn [contains] in C.
    apply orb_false_iff in C as [P C].
    rewrite append_cons. cbn [split_from].
    rewrite prefix_slashes_next, P, (IH _ C), append_assoc. reflexivity.
Qed.

(** A string that contains the separator splits at its leftmost one. *)
Lemma contains_leftmost s :
  contains "//" s = true ->
  exists cell rest,
    s = cell +:+ "//" +:+ rest /\ contains "//" (cell +:+ "/") = false.
Proof.
  induction s as [|c s IH]; intros C; [discriminate|].
  cbn [contains] in C.
  destruct (String.prefix "//" (String c s)) eqn:P.
  - exists EmptyString. cbn [String.prefix] in P.
    destruct (ascii_dec "/" c) as [<-|]; [|discriminate].
    destruct s as [|d s]; cbn [String.prefix] in P; [discriminate|].
    destruct (ascii_dec "/" d) as [<-|]; [|discriminate].
    exists s. split; reflexivity.
  - cbn [orb] in C. destruct (IH C) as (cell & rest & -> & L).
    exists (String c cell), rest. split; [reflexivity|].
    rewrite append_cons. cbn [contains].
    now rewrite <- (prefix_slashes_next c cell rest), P, L.
Qed.

(** The shapes of [s.split("//")]: one piece, or the first piece and the
    pieces of what follows the leftmost separator. *)
Lemma str_split_cases s :
  (contains "//" s = false /\ str_split "//" s = [s])
  \/ (exists cell rest,
        s = cell +:+ "//" +:+ rest
        /\ contains "//" (cell +:+ "/") = false
        /\ str_split "//" s = cell :: str_split "//" rest).
Proof.
  unfold str_split. destruct (contains "//" s) eqn:C.
  - right. destruct (contains_leftmost s C) as (cell & rest & -> & L).
    exists cell, rest. split; [reflexivity|]. split; [exact L|].
    now rewrite (split_from_leftmost _ _ _ L).
  - left. split; [reflexivity|]. now rewrite (split_from_plain _ _ C).
Qed.

(** Exactly two pieces: one separator, the leftmost, and none after it. *)
Lemma str_split_two s :
  length (str_split "//" s) = 2 <->
  exists cell path,
    s = cell +:+ "//" +:+ path
    /\ contains "//" (cell +:+ "/") = false
    /\ contains "//" path = false
    /\ str_split "//" s = [cell; path].
Proof.
  split.
  - intros L. destruct (str_split_cases s) as [[_ E]|(cell & rest & -> & C & E)].
    + rewrite E in L. discriminate.
    + rewrite E in L. cbn [length] in L.
      destruct (str_split_cases rest) as [[C' E']|(c' & r' & -> & _ & E')].
      * exists cell, rest. rewrite E, E'. auto.
      * rewrite E' in L. cbn [length] in L.
        pose proof (split_from_nonempty "//" r' 0 EmptyString) as N.
        unfold str_split in L. lia.
  - intros (cell & path & _ & _ & _ & ->). reflexivity.
Qed.

Lemma replace_target_prefix_raises target_file dir e :
  replace_target_prefix target_file dir = Raise e ->
  e = ValueError "target_file must contain '//' once".
Proof.
  unfold replace_target_prefix. destruct (negb _); [|discriminate]. now intros [= <-].
Qed.

(** X11: [replace_target_prefix] returns exactly when the target holds
    the separator [//] once (found from the left, so that of three
    slashes the first two separate).  The result is then the directory,
    with one slash added unless it ends in one, followed by what comes
    after the separator; the cell name before it is dropped.  With no
    separator, or a second one, the call raises [ValueError]. *)
Theorem replace_target_prefix_spec (target_file dir : string) :
  (forall r, replace_target_prefix target_file dir = Ret r <->
     exists cell path,
       target_file = cell +:+ "//" +:+ path
       /\ contains "//" (cell +:+ "/") = false
       /\ contains "//" path = false
       /\ r = (if ends_with_slash dir then dir else dir +:+ "/") +:+ path)
  /\ (forall e, replace_target_prefix target_file dir = Raise e ->
        e = ValueError "target_file must contain '//' once").
Proof.
  unfold replace_target_prefix. split.
  - intros r. split.
    + destruct (Nat.eqb (length (str_split "//" target_file)) 2) eqn:L;
        [|discriminate].
      apply Nat.eqb_eq, str_split_two in L as (cell & path & -> & C1 & C2 & E).
      cbn [negb]. intros R. injection R as <-. exists cell, path.
      rewrite E. cbn [nth]. repeat split; auto.
      now destruct (ends_with_slash dir).
    + intros (cell & path & -> & C1 & C2 & ->).
      assert (L : length (str_split "//" (cell +:+ "//" +:+ path)) = 2).
      { apply str_split_two. exists cell, path. repeat split; auto.
        unfold str_split.
        now rewrite (split_from_leftmost _ _ _ C1), (split_from_plain _ _ C2). }
      pose proof L as L'. apply str_split_two in L' as (c' & p' & _ & _ & _ & E).
      apply Nat.eqb_eq in L. rewrite L. cbn [negb]. rewrite E. cbn [nth].
      unfold str_split in E.
      rewrite (split_from_leftmost _ _ _ C1), (split_from_plain _ _ C2) in E.
      injection E as _ <-. now destruct (ends_with_slash dir).
  - intros e. apply replace_target_prefix_raises.
Qed.

Lemma replace_target_prefix_spec_witness :
  replace_target_prefix "root//app/src/Main.kt" "/path/repo"
  = Ret "/path/repo/app/src/Main.kt"
  /\ replace_target_prefix "app/src/Main.kt" "/path/repo/"
     = Raise (ValueError "target_file must contain '//' once").
Proof.
  split.
  - apply (proj1 (replace_target_prefix_spec "root//app/src/Main.kt" "/path/repo")).
    exists "root", "app/src/Main.kt". repeat split; vm_compute; reflexivity.
  - destruct (replace_target_prefix "app/src/Main.kt" "/path/repo/") as [r|e] eqn:E.
    + vm_compute in E. discriminate.
    + now rewrite (proj2 (replace_target_prefix_spec _ _) e E).
Defined.

(** X12: [bazel_target_type] accepts a value, and returns it unchanged,
    exactly when it is a non-empty root, the separator [//] once, and a
    non-empty name.  The split the script then makes of an accepted
    value cannot fail: it gives the root as working directory and [//]
    with the name as target, which put together are the value again. *)
Theorem bazel_target_type_spec (value : string) :
  (forall v, bazel_target_type value = Accepted v <->
     v = value
     /\ exists root name,
          value = root +:+ "//" +:+ name
          /\ root <> EmptyString /\ name <> EmptyString
          /\ contains "//" (root +:+ "/") = false
          /\ contains "//" name = false)
  /\ (forall v, bazel_target_type value = Accepted v ->
        exists bazel_working_dir bazel_target,
          bazel_parts v = Some (bazel_working_dir, bazel_target)
          /\ bazel_working_dir +:+ bazel_target = v
          /\ bazel_working_dir <> EmptyString
          /\ 2 < String.length bazel_target).
Proof.
  assert (A : forall v, bazel_target_type value = Accepted v ->
            v = value
            /\ exists root name,
                 value = root +:+ "//" +:+ name
                 /\ root <> EmptyString /\ name <> EmptyString
                 /\ contains "//" (root +:+ "/") = false
                 /\ contains "//" name = false
                 /\ str_split "//" value = [root; name]).
  { intros v. unfold bazel_target_type.
    destruct (Nat.eqb (length (str_split "//" value)) 2) eqn:L; [|discriminate].
    apply Nat.eqb_eq, str_split_two in L as (root & name & V & C1 & C2 & E).
    rewrite E. cbn [negb orb nth].
    destruct (String.eqb_spec root EmptyString) as [|N1]; [discriminate|].
    destruct (String.eqb_spec name EmptyString) as [|N2]; [discriminate|].
    cbn [orb]. intros [= <-]. split; [reflexivity|]. exists root, name.
    repeat split; auto. }
  split.
  - intros v. split.
    + intros H. destruct (A v H) as (-> & root & name & V & N1 & N2 & C1 & C2 & _).
      split; [reflexivity|]. exists root, name. repeat split; auto.
    + intros (-> & root & name & -> & N1 & N2 & C1 & C2).
      unfold bazel_target_type, str_split.
      rewrite (split_from_leftmost _ _ _ C1), (split_from_plain _ _ C2).
      cbn [length Nat.eqb negb orb nth].
      apply String.eqb_neq in N1, N2. cbn [String.append] in N1 |- *.
      change (EmptyString +:+ root) with root. change (EmptyString +:+ name) with name.
      now rewrite N1, N2.
  - intros v H. destruct (A v H) as (-> & root & name & V & N1 & N2 & C1 & C2 & E).
    exists root, ("//" +:+ name). unfold bazel_parts. rewrite E. cbn [nth_error].
    repeat split; auto.
    rewrite string_length_append. cbn [String.length].
    destruct name; [congruence|cbn [String.length]; lia].
Qed.

Lemma bazel_target_type_spec_witness :
  bazel_target_type "path/to/root//app:app" = Accepted "path/to/root//app:app"
  /\ exists bazel_working_dir bazel_target,
       bazel_parts "path/to/root//app:app" = Some (bazel_working_dir, bazel_target)
       /\ bazel_working_dir +:+ bazel_target = "path/to/root//app:app".
Proof.
  assert (H : bazel_target_type "path/to/root//app:app" = Accepted "path/to/root//app:app").
  { apply (proj1 (bazel_target_type_spec "path/to/root//app:app")).
    split; [reflexivity|]. exists "path/to/root", "app:app".
    repeat split; try discriminate; vm_compute; reflexivity. }
  split; [exact H|].
  destruct (proj2 (bazel_target_type_spec _) _ H) as (wd & t & P & J & _).
  exists wd, t. auto.
Defined.

(** ** The tables of [read_csv_data] *)

Lemma dict_set_same_keys {V W} key (v : V) (w : W) d e :
  map fst d = map fst e ->
  map fst (dict_set key v d) = map fst (dict_set key w e).
Proof.
  revert e. induction d as [|[k x] d IH]; intros [|[k' y] e] E;
    try discriminate; [reflexivity|].
  cbn [map fst] in E. injection E as <- E. cbn [dict_set].
  destruct (String.eqb k key); cbn [map fst]; [now rewrite E|].
  now rewrite (IH e E).
Qed.

Lemma fold_dict_set_same_keys {V W} (ps : list (string * V)) (qs : list (string * W)) :
  forall d e,
    map fst ps = map fst qs -> map fst d = map fst e ->
    map fst (foldl (fun d kv => dict_set (fst kv) (snd kv) d) d ps)
    = map fst (foldl (fun d kv => dict_set (fst kv) (snd kv) d) e qs).
Proof.
  revert qs. induction ps as [|[k v] ps IH]; intros [|[k' w] qs] d e E F;
    try discriminate; [exact F|].
  cbn [map fst] in E. injection E as <- E. cbn [foldl fst snd].
  apply IH; [exact E|]. now apply dict_set_same_keys.
Qed.

Lemma dict_set_keys_seen {V} key (v : V) d :
  In key (map fst d) -> map fst (dict_set key v d) = map fst d.
Proof.
  induction d as [|[k w] d IH]; [intros []|]. cbn [map fst In dict_set].
  intros I. destruct (String.eqb_spec k key) as [->|N]; [reflexivity|].
  cbn [map fst]. rewrite IH; [reflexivity|]. destruct I; [congruence|assumption].
Qed.

Lemma dict_set_NoDup {V} key (v : V) d :
  NoDup (map fst d) -> NoDup (map fst (dict_set key v d)).
Proof.
  intros ND. destruct (in_dec string_dec key (map fst d)) as [I|N].
  - now rewrite dict_set_keys_seen.
  - rewrite (dict_set_fresh _ _ _ N), map_app. cbn [map fst].
    apply NoDup_app. split; [exact ND|]. split; [|apply NoDup_singleton].
    intros x Hx Hy. apply list_elem_of_In in Hx. apply list_elem_of_In in Hy.
    destruct Hy as [<-|[]]. contradiction.
Qed.

Lemma fold_dict_set_NoDup {V} (ps : list (string * V)) : forall d,
  NoDup (map fst d) ->
  NoDup (map fst (foldl (fun d kv => dict_set (fst kv) (snd kv) d) d ps)).
Proof.
  induction ps as [|[k v] ps IH]; intros d ND; [exact ND|].
  cbn [foldl fst snd]. apply IH. now apply dict_set_NoDup.
Qed.

Lemma dict_set_In {V} key (v : V) d k x :
  In (k, x) (dict_set key v d) -> (k = key /\ x = v) \/ In (k, x) d.
Proof.
  induction d as [|[k' w] d IH]; cbn [dict_set In].
  - intros [[= <- <-]|[]]. now left.
  - destruct (String.eqb_spec k' key) as [->|N]; cbn [In].
    + intros [[= <- <-]|I]; auto.
    + intros [E|I]; [auto|]. destruct (IH I); auto.
Qed.

Lemma fold_dict_set_In {V} (ps : list (string * V)) : forall d k x,
  In (k, x) (foldl (fun d kv => dict_set (fst kv) (snd kv) d) d ps) ->
  In (k, x) d \/ In (k, x) ps.
Proof.
  induction ps as [|[k' v] ps IH]; intros d k x I; [now left|].
  cbn [foldl fst snd] in I. apply IH in I as [I|I]; [|right; now right].
  apply dict_set_In in I as [[-> ->]|I]; [right; now left|now left].
Qed.

Lemma dict_get_key {V} (d : list (string * V)) name :
  In name (map fst d) -> exists v, dict_get name d = Some v.
Proof.
  induction d as [|[k w] d IH]; [intros []|]. cbn [map fst In dict_get].
  intros I. destruct (String.eqb_spec k name) as [->|N]; [eauto|].
  apply IH. destruct I; [congruence|assumption].
Qed.

Section CsvTables.
Variable literal_eval : string -> literal.
Variable float_of_str : string -> option float.

Lemma read_csv_data_Returns csv_file data colors :
  read_csv_data literal_eval float_of_str csv_file = Returns (data, colors) ->
  exists rows,
    csv_file = Some rows
    /\ read_rows literal_eval float_of_str rows 1 [] [] = Returns (data, colors)
    /\ data <> []
    /\ exists n, 0 < n /\ forall name times, In (name, times) data -> length times = n.
Proof.
  destruct csv_file as [rows|]; cbn [read_csv_data]; [|discriminate].
  destruct (read_rows literal_eval float_of_str rows 1 [] [])
    as [[d c]|code why|e] eqn:R; [|discriminate|discriminate].
  destruct (Nat.eqb_spec (length d) 0) as [Z|NZ]; [discriminate|].
  assert (NE : d <> []) by (intros ->; now apply NZ).
  pose proof (counts_check d NE) as CC. cbv zeta in CC.
  destruct (forallb _ _) eqn:A; cbn [negb]; [|discriminate].
  destruct (Nat.eqb (nth 0 _ 0) 0) eqn:Z; [discriminate|].
  intros [= <- <-]. exists rows.
  split; [reflexivity|]. split; [exact R|]. split; [exact NE|].
  apply CC. auto.
Qed.

Lemma read_rows_tables rows data colors :
  read_rows literal_eval float_of_str rows 1 [] [] = Returns (data, colors) ->
  map fst colors = map fst data
  /\ NoDup (map fst data)
  /\ (forall name times, In (name, times) data -> name <> EmptyString)
  /\ (forall name color, In (name, color) colors -> is_hex_color color).
Proof.
  intros R. apply (proj1 (read_rows_spec literal_eval float_of_str rows 1 [] [])) in R.
  destruct R as (records & F & -> & ->).
  assert (Rec : forall r, In r records ->
            fst (fst r) <> EmptyString /\ is_hex_color (snd (fst r))).
  { clear - F. induction F as [|row r rows' records' H F IH]; [intros ? []|].
    intros r' [<-|I]; [|now apply IH].
    destruct H as (a & b & c & items & _ & -> & N & -> & C & _). auto. }
  split; [|split; [|split]].
  - apply fold_dict_set_same_keys; [|reflexivity].
    unfold colors_of, durations_of. rewrite !map_map. reflexivity.
  - apply fold_dict_set_NoDup. constructor.
  - intros name times I. apply fold_dict_set_In in I as [[]|I].
    unfold durations_of in I. apply in_map_iff in I as (r & [= <- <-] & I).
    now apply Rec.
  - intros name color I. apply fold_dict_set_In in I as [[]|I].
    unfold colors_of in I. apply in_map_iff in I as (r & E & I).
    destruct (Rec r I) as [_ C]. now rewrite E in C.
Qed.

(** X13: the two dictionaries [read_csv_data] returns fit together.
    They hold the same build-system names in the same order, each name
    once and none empty, so that looking up the color of a name of
    [data] cannot fail; every color is [#] with 3 or 6 hex digits; and
    there is at least one name. *)
Theorem read_csv_data_tables_agree
    (csv_file : option (list (list string)))
    (data : list (string * list float)) (colors : list (string * string)) :
  read_csv_data literal_eval float_of_str csv_file = Returns (data, colors) ->
  map fst colors = map fst data
  /\ NoDup (map fst data)
  /\ data <> []
  /\ (forall name, In name (map fst data) ->
        name <> EmptyString
        /\ exists color, dict_get name colors = Some color /\ is_hex_color color).
Proof.
  intros R. apply read_csv_data_Returns in R as (rows & _ & R & NE & _).
  destruct (read_rows_tables rows data colors R) as (K & ND & N & C).
  repeat split; auto.
  - apply in_map_iff in H as ([k times] & <- & I). now apply (N k times).
  - rewrite <- K in H. destruct (dict_get_key colors name H) as (color & G).
    exists color. split; [exact G|]. apply (C name).
    clear - G. induction colors as [|[k w] d IH]; [discriminate|].
    cbn [dict_get] in G. destruct (String.eqb_spec k name) as [->|_].
    + injection G as ->. now left.
    + right. now apply IH.
Qed.
End CsvTables.

Lemma read_csv_data_tables_agree_witness :
  exists data colors,
    read_csv_data sample_literal_eval sample_float_of_str (Some sample_rows)
    = Returns (data, colors)
    /\ map fst colors = map fst data
    /\ map fst data = ["Bazel"; "Buck2"].
Proof.
  destruct (read_csv_data sample_literal_eval sample_float_of_str (Some sample_rows))
    as [[data colors]|code why|e] eqn:E.
  - exists data, colors. split; [reflexivity|].
    destruct (read_csv_data_tables_agree _ _ _ _ _ E) as (K & _).
    split; [exact K|]. vm_compute in E. injection E as <- _. reflexivity.
  - vm_compute in E. discriminate.
  - vm_compute in E. discriminate.
Defined.

(** ** From the script's CSV file to the reader *)

Section CsvRoundTrip.
Variable py_str : list float -> string.
Variable literal_eval : string -> literal.
Variable float_of_str : string -> option float.

Lemma floats_of_numbers times :
  Forall2 (fun x q => py_float float_of_str x = Ret q) (map PyNumber times) times.
Proof. induction times; constructor; [reflexivity|assumption]. Qed.

Lemma written_row_reads name color times :
  strip name = name -> name <> EmptyString ->
  strip color = color -> is_hex_color color ->
  strip (py_str times) = py_str times ->
  literal_eval (py_str times) = Value (PyList (map PyNumber times)) ->
  record_of_row literal_eval float_of_str [name; color; py_str times]
    (name, color, times).
Proof.
  intros Sn Nn Sc Hc Ss L.
  exists name, color, (py_str times), (map PyNumber times).
  cbn [fst snd]. rewrite Sn, Sc, Ss.
  repeat split; auto. apply floats_of_numbers.
Qed.

(** X14: the reader accepts the file the script writes and gets the
    measurements back.  When the three lists have the same, non-zero
    number of durations, and [ast.literal_eval] reads the [str] of each
    list as that list, [read_csv_data] applied to the three written
    rows returns the three lists under Bazel, Buck2 and Gradle, and the
    colors of [custom_colors]. *)
Theorem written_rows_read_back (t : times) (n : nat) :
  0 < n ->
  length (bazel_times t) = n ->
  length (buck_times t) = n ->
  length (gradle_times t) = n ->
  (forall times, In times [bazel_times t; buck_times t; gradle_times t] ->
     strip (py_str times) = py_str times
     /\ literal_eval (py_str times) = Value (PyList (map PyNumber times))) ->
  read_csv_data literal_eval float_of_str (Some (written_rows py_str t))
  = Returns ([("Bazel", bazel_times t); ("Buck2", buck_times t);
              ("Gradle", gradle_times t)],
             custom_colors).
Proof.
  intros N Lb Lk Lg P.
  destruct (P (bazel_times t)) as [Sb Eb]; [now left|].
  destruct (P (buck_times t)) as [Sk Ek]; [right; now left|].
  destruct (P (gradle_times t)) as [Sg Eg]; [right; right; now left|].
  assert (C1 : is_hex_color "#4CAF50").
  { exists "4CAF50". split; [reflexivity|]. split; [reflexivity|now right]. }
  assert (C2 : is_hex_color "#FF9800").
  { exists "FF9800". split; [reflexivity|]. split; [reflexivity|now right]. }
  assert (C3 : is_hex_color "#9C27B0").
  { exists "9C27B0". split; [reflexivity|]. split; [reflexivity|now right]. }
  assert (R : read_rows literal_eval float_of_str (written_rows py_str t) 1 [] []
              = Returns ([("Bazel", bazel_times t); ("Buck2", buck_times t);
                          ("Gradle", gradle_times t)], custom_colors)).
  { apply (proj1 (read_rows_spec literal_eval float_of_str _ 1 [] [])).
    exists [("Bazel", "#4CAF50", bazel_times t); ("Buck2", "#FF9800", buck_times t);
            ("Gradle", "#9C27B0", gradle_times t)].
    split; [|split; reflexivity].
    repeat constructor;
      apply written_row_reads; auto; (reflexivity || discriminate). }
  cbn [read_csv_data]. rewrite R. cbn [length Nat.eqb map snd nth]. rewrite Lb, Lk, Lg.
  cbn [forallb]. rewrite Nat.eqb_refl. cbn [andb negb].
  destruct (Nat.eqb_spec n 0) as [Z|_]; [lia|reflexivity].
Qed.
End CsvRoundTrip.

Lemma written_rows_read_back_witness :
  read_csv_data sample_literal_eval sample_float_of_str
    (Some (written_rows sample_py_str
             (Times (map float_of_Q [42 # 10; 39 # 10; 41 # 10]%Q)
                    (map float_of_Q [87 # 10; 85 # 10; 86 # 10]%Q)
                    (map float_of_Q [42 # 10; 39 # 10; 41 # 10]%Q))))
  = Returns ([("Bazel", map float_of_Q [42 # 10; 39 # 10; 41 # 10]%Q);
              ("Buck2", map float_of_Q [87 # 10; 85 # 10; 86 # 10]%Q);
              ("Gradle", map float_of_Q [42 # 10; 39 # 10; 41 # 10]%Q)],
             custom_colors).
Proof.
  apply (written_rows_read_back sample_py_str sample_literal_eval sample_float_of_str
           (Times (map float_of_Q [42 # 10; 39 # 10; 41 # 10]%Q)
                  (map float_of_Q [87 # 10; 85 # 10; 86 # 10]%Q)
                  (map float_of_Q [42 # 10; 39 # 10; 41 # 10]%Q)) 3);
    [lia|reflexivity|reflexivity|reflexivity|].
  intros times [<-|[<-|[<-|[]]]]; split; vm_compute; reflexivity.
Defined.
(** ** Summary statistics: when they exist and what they respect *)

Section SummaryOutcome.
Context `{Sorting}.

Lemma summary_of_empty :
  summary_of [] = Raise (StatisticsError "mean requires at least one data point").
Proof. reflexivity. Qed.

(** On a list that is not empty only [statistics.stdev] can raise. *)
Lemma summary_of_unfold times :
  times <> [] ->
  exists mean med least greatest,
    statistics_mean times = Ret mean
    /\ statistics_median times = Ret med
    /\ py_min times = Ret least
    /\ py_max times = Ret greatest
    /\ summary_of times
       = if (1 <? length times)%nat then
           match statistics_stdev times with
           | Ret v => Ret (Stats.Make mean med least greatest v (length times))
           | Raise e => Raise e
           end
         else Ret (Stats.Make mean med least greatest (float_of_Z 0) (length times)).
Proof.
  intros NE.
  destruct (statistics_mean_returns times NE) as (mean & E1).
  destruct (statistics_median_returns times NE) as (med & E2).
  destruct (py_min_returns times NE) as (least & E3).
  destruct (py_max_returns times NE) as (greatest & E4).
  exists mean, med, least, greatest. repeat (split; [assumption|]).
  unfold summary_of. rewrite E1, E2, E3, E4. cbn [mbind outcome_bind].
  destruct (1 <? length times)%nat; [|reflexivity].
  destruct (statistics_stdev times); reflexivity.
Qed.

Lemma summary_of_summable times :
  summable times -> exists st, summary_of times = Ret st.
Proof.
  intros [NE SD].
  destruct (summary_of_unfold times NE) as (a & b & c & d & _ & _ & _ & _ & ->).
  destruct (Nat.ltb_spec 1 (length times)) as [L|L]; [|eexists; reflexivity].
  destruct (SD L) as (v & ->). eexists; reflexivity.
Qed.

Lemma summary_of_Ret_summable times st :
  summary_of times = Ret st -> summable times.
Proof.
  intros E. assert (NE : times <> []).
  { intros ->. rewrite summary_of_empty in E. discriminate. }
  split; [exact NE|]. intros L.
  destruct (summary_of_unfold times NE) as (a & b & c & d & _ & _ & _ & _ & U).
  rewrite U in E. destruct (Nat.ltb_spec 1 (length times)) as [_|L']; [|lia].
  destruct (statistics_stdev times) as [v|e]; [now exists v|discriminate].
Qed.

Lemma summary_of_Ret_inv times st :
  summary_of times = Ret st -> times <> [] /\ summarises_rounded st times.
Proof.
  intros E. destruct (summary_of_Ret_summable _ _ E) as [NE SD].
  split; [exact NE|].
  destruct (summary_of_nonempty times NE SD) as (st' & E' & S). congruence.
Qed.

Lemma summary_of_stdev_raises times e :
  2 <= length times -> statistics_stdev times = Raise e ->
  summary_of times = Raise e.
Proof.
  intros L E. assert (NE : times <> []) by (destruct times; [cbn in L; lia|discriminate]).
  destruct (summary_of_unfold times NE) as (a & b & c & d & _ & _ & _ & _ & ->).
  destruct (Nat.ltb_spec 1 (length times)) as [_|L']; [|lia].
  now rewrite E.
Qed.

Lemma summary_loop_returns items :
  forall (acc : list (string * Stats.t)) (acc0 : list (string * list float)),
    (forall name times, In (name, times) items -> summable times) ->
    map fst acc = map fst acc0 ->
    exists stats,
      summary_loop items acc = Ret stats
      /\ map fst stats
         = map fst (foldl (fun d kv => dict_set (fst kv) (snd kv) d) acc0 items).
Proof.
  induction items as [|[k t] items IH]; intros acc acc0 NE K.
  - exists acc. split; [reflexivity|exact K].
  - destruct (summary_of_summable t) as (e & E).
    { apply (NE k). now left. }
    cbn [summary_loop foldl fst snd]. rewrite E.
    apply IH.
    + intros name times I. apply (NE name). now right.
    + now apply dict_set_same_keys.
Qed.

Lemma summary_loop_Ret_summable items :
  forall acc stats,
    summary_loop items acc = Ret stats ->
    forall name times, In (name, times) items -> summable times.
Proof.
  induction items as [|[k t] items IH]; intros acc stats L name times I;
    [destruct I|].
  cbn [summary_loop] in L. destruct (summary_of t) as [e|err] eqn:E; [|discriminate].
  destruct I as [[= <- <-]|I].
  - now apply summary_of_Ret_summable in E.
  - now apply (IH _ _ L name).
Qed.

(** The first list on which [summary_of] raises decides the outcome. *)
Lemma summary_loop_first_raise before name times after e :
  forall acc,
    (forall n t, In (n, t) before -> summable t) ->
    summary_of times = Raise e ->
    summary_loop (before ++ (name, times) :: after) acc = Raise e.
Proof.
  induction before as [|[k t] before IH]; intros acc OK E.
  - cbn [app summary_loop]. now rewrite E.
  - cbn [app summary_loop].
    destruct (summary_of_summable t) as (st & ->); [apply (OK k); now left|].
    apply IH; [|exact E]. intros n t' I. apply (OK n). now right.
Qed.

Lemma summary_loop_entries items :
  forall acc stats name st,
    summary_loop items acc = Ret stats ->
    In (name, st) stats ->
    In (name, st) acc
    \/ exists times, In (name, times) items /\ summary_of times = Ret st.
Proof.
  induction items as [|[k t] items IH]; intros acc stats name st L I.
  - injection L as <-. now left.
  - cbn [summary_loop] in L. destruct (summary_of t) as [e|err] eqn:E;
      [|discriminate].
    destruct (IH _ _ _ _ L I) as [J|(times & J & S)].
    + apply dict_set_In in J as [[-> ->]|J]; [|now left].
      right. exists t. split; [now left|exact E].
    + right. exists times. split; [now right|exact S].
Qed.
End SummaryOutcome.

(** [statistics.stdev] on two values or more: a value that is not finite
    makes it raise [AttributeError]; on finite values it returns unless
    the square root is beyond the float range. *)
Lemma statistics_stdev_not_finite times :
  2 <= length times -> forallb is_finite times = false ->
  statistics_stdev times
  = Raise (AttributeError "'float' object has no attribute 'numerator'").
Proof.
  intros L F. unfold statistics_stdev.
  destruct (Nat.ltb_spec (length times) 2) as [L'|_]; [lia|]. now rewrite F.
Qed.

Lemma statistics_stdev_finite times :
  2 <= length times -> forallb is_finite times = true ->
  (exists v, statistics_stdev times = Ret v /\ is_finite v = true)
  \/ statistics_stdev times
     = Raise (OverflowError "integer division result too large for a float").
Proof.
  intros L F. unfold statistics_stdev.
  destruct (Nat.ltb_spec (length times) 2) as [L'|_]; [lia|]. rewrite F.
  unfold _float_sqrt_of_frac.
  match goal with |- context [if ?c then _ else _] => destruct c end;
    unfold int_true_div;
    match goal with |- context [is_finite ?x] => destruct (is_finite x) eqn:E end;
    ((left; eexists; split; [reflexivity|exact E]) || (right; reflexivity)).
Qed.

(** X15: [create_summary_stats] returns exactly when no build system
    has an empty list of times and [statistics.stdev] returns on every
    list of two times or more.  It then has one entry per name, in the
    order in which the names first occur.  Otherwise the first list in
    the way decides: an empty list makes the whole call raise the
    [StatisticsError] of [statistics.mean], a longer one the exception
    of [statistics.stdev], so that no statistics are returned for the
    other systems either.  A duration that is not finite in a list of
    two or more is such a case: [AttributeError]. *)
Theorem create_summary_stats_outcome `{Sorting}
    (build_data : list (string * list float)) :
  ((forall name times, In (name, times) build_data ->
      times <> []
      /\ (2 <= length times -> exists v, statistics_stdev times = Ret v))
   <-> exists stats, create_summary_stats build_data = Ret stats)
  /\ (forall stats, create_summary_stats build_data = Ret stats ->
        map fst stats = map fst (table_of build_data))
  /\ (forall before name times after,
        build_data = before ++ (name, times) :: after ->
        (forall n t, In (n, t) before ->
           t <> [] /\ (2 <= length t -> exists v, statistics_stdev t = Ret v)) ->
        (times = [] ->
         create_summary_stats build_data
         = Raise (StatisticsError "mean requires at least one data point"))
        /\ (forall e, 2 <= length times -> statistics_stdev times = Raise e ->
            create_summary_stats build_data = Raise e)
        /\ (2 <= length times -> forallb is_finite times = false ->
            create_summary_stats build_data
            = Raise (AttributeError "'float' object has no attribute 'numerator'"))).
Proof.
  split; [|split].
  - split.
    + intros OK.
      destruct (summary_loop_returns build_data [] [] OK eq_refl) as (stats & E & _).
      now exists stats.
    + intros (stats & E) name times I.
      apply (summary_loop_Ret_summable _ _ _ E name times I).
  - intros stats E.
    assert (OK := summary_loop_Ret_summable _ _ _ E).
    destruct (summary_loop_returns build_data [] [] OK eq_refl) as (stats' & E' & K).
    unfold create_summary_stats in E. rewrite E in E'. injection E' as <-. exact K.
  - intros before name times after -> OK. unfold create_summary_stats.
    split; [|split].
    + intros ->. now apply summary_loop_first_raise.
    + intros e L E. apply summary_loop_first_raise; [exact OK|].
      now apply summary_of_stdev_raises.
    + intros L F. apply summary_loop_first_raise; [exact OK|].
      apply summary_of_stdev_raises; [exact L|].
      now apply statistics_stdev_not_finite.
Qed.

Lemma create_summary_stats_outcome_witness :
  (exists stats,
     create_summary_stats sample_build_data = Ret stats
     /\ map fst stats = ["Bazel"; "Buck2"; "Gradle"])
  /\ create_summary_stats [("Bazel", [float_of_Z 1]); ("Buck2", [])]
     = Raise (StatisticsError "mean requires at least one data point")
  /\ create_summary_stats [("Bazel", [infinity; float_of_Z 1])]
     = Raise (AttributeError "'float' object has no attribute 'numerator'")
  /\ create_summary_stats
       [("Bazel", [float_of_Q (17 * 10 ^ 307 # 1); float_of_Q (- 17 * 10 ^ 307 # 1)])]
     = Raise (OverflowError "integer division result too large for a float").
Proof.
  destruct (create_summary_stats_outcome sample_build_data) as ([R _] & K & _).
  destruct R as (stats & E).
  { intros name times [[= <- <-]|[[= <- <-]|[[= <- <-]|[]]]];
      (split; [discriminate|]); intros L;
      first [cbn in L; lia | eexists; vm_compute; reflexivity]. }
  split; [exists stats; split; [exact E|exact (K stats E)]|].
  assert (B1 : forall n t, In (n, t) [("Bazel", [float_of_Z 1])] ->
            t <> [] /\ (2 <= length t -> exists v, statistics_stdev t = Ret v)).
  { intros n t [X|[]]. inversion X; subst. split; [discriminate|].
    intros L; cbn in L; lia. }
  assert (B0 : forall n t, In (n, t) (@nil (string * list float)) ->
            t <> [] /\ (2 <= length t -> exists v, statistics_stdev t = Ret v)).
  { intros n t []. }
  split; [|split].
  - apply (proj1 (proj2 (proj2 (create_summary_stats_outcome
             [("Bazel", [float_of_Z 1]); ("Buck2", [])]))
             [("Bazel", [float_of_Z 1])] "Buck2" [] [] eq_refl B1)).
    reflexivity.
  - apply (proj2 (proj2 (proj2 (proj2 (create_summary_stats_outcome
             [("Bazel", [infinity; float_of_Z 1])]))
             [] "Bazel" [infinity; float_of_Z 1] [] eq_refl B0)));
      [cbn; lia|reflexivity].
  - apply (proj1 (proj2 (proj2 (proj2 (create_summary_stats_outcome
             [("Bazel", [float_of_Q (17 * 10 ^ 307 # 1);
                         float_of_Q (- 17 * 10 ^ 307 # 1)])]))
             [] "Bazel" _ [] eq_refl B0)));
      [cbn; lia|vm_compute; reflexivity].
Defined.

(** X16: every entry [create_summary_stats] returns for durations
    without a NaN is consistent as far as no rounding is involved: the
    count is at least 1, the minimum is at most the maximum, both are
    among the durations, and for an odd count so is the median, which
    then lies between them. *)
Theorem summary_stats_bounds `{Sorting}
    (build_data : list (string * list float))
    (stats : list (string * Stats.t)) (name : string) (st : Stats.t) :
  create_summary_stats build_data = Ret stats ->
  (forall n t, In (n, t) build_data -> no_nan t) ->
  In (name, st) stats ->
  exists times,
    In (name, times) build_data
    /\ 0 < Stats.count st
    /\ In (Stats.min st) times /\ In (Stats.max st) times
    /\ float_le (Stats.min st) (Stats.max st)
    /\ (Nat.Odd (Stats.count st) ->
        In (Stats.median st) times
        /\ float_le (Stats.min st) (Stats.median st)
        /\ float_le (Stats.median st) (Stats.max st)).
Proof.
  intros C NN I. unfold create_summary_stats in C.
  destruct (summary_loop_entries _ _ _ _ _ C I) as [[]|(times & J & S)].
  apply summary_of_Ret_inv in S as (NE & Cn & _ & Md & Mi & Ma & _).
  pose proof (is_minimum_le _ _ (NN _ _ J) Mi) as Lo.
  pose proof (is_maximum_le _ _ (NN _ _ J) Ma) as Hi.
  destruct Mi as [Imin _], Ma as [Imax _].
  exists times. split; [exact J|]. split.
  { rewrite Cn. destruct times; [congruence|cbn; lia]. }
  split; [exact Imin|]. split; [exact Imax|]. split; [now apply Lo|].
  rewrite Cn. intros Od.
  destruct Md as (asc & P & _ & O & _).
  assert (M : In (Stats.median st) times).
  { rewrite (O Od). apply (Permutation_in _ P). apply nth_In.
    rewrite (Permutation_length P). apply Nat.div_lt; [|lia].
    destruct times; [congruence|cbn; lia]. }
  split; [exact M|]. split; [now apply Lo|now apply Hi].
Qed.

Lemma summary_stats_bounds_witness :
  exists stats st times,
    create_summary_stats sample_build_data = Ret stats
    /\ In ("Bazel", st) stats
    /\ In ("Bazel", times) sample_build_data
    /\ Stats.count st = 3
    /\ float_le (Stats.min st) (Stats.max st)
    /\ float_le (Stats.min st) (Stats.median st)
    /\ float_le (Stats.median st) (Stats.max st).
Proof.
  destruct (create_summary_stats sample_build_data) as [stats|e] eqn:C;
    [|vm_compute in C; discriminate C].
  assert (NN : forall n t, In (n, t) sample_build_data -> no_nan t).
  { intros n t [X|[X|[X|[]]]]; inversion X; reflexivity. }
  assert (I : In ("Bazel",
                  Stats.Make (float_of_Z 2) (float_of_Z 2) (float_of_Z 1)
                    (float_of_Z 3) (float_of_Z 1) 3) stats).
  { vm_compute in C. injection C as <-. left. vm_compute. reflexivity. }
  destruct (summary_stats_bounds sample_build_data stats "Bazel" _ C NN I)
    as (times & J & _ & _ & _ & A & B).
  destruct B as (_ & B1 & B2); [exists 1; reflexivity|].
  eexists stats, _, times. split; [reflexivity|]. split; [exact I|].
  split; [exact J|]. split; [reflexivity|]. auto.
Defined.
(** ** The systems named in the insights *)

Lemma fold_min_by_split {A} (key : A -> float) rest : forall pre m post,
  (forall x, In x (pre ++ m :: post ++ rest) -> is_nan (key x) = false) ->
  (forall x, In x pre -> float_lt (key m) (key x)) ->
  (forall x, In x post -> float_le (key m) (key x)) ->
  exists before after,
    pre ++ m :: post ++ rest
    = before
      ++ fold_left (fun m y => if flt (key y) (key m) then y else m) rest m
      :: after
    /\ (forall x, In x before ->
          float_lt
            (key (fold_left (fun m y => if flt (key y) (key m) then y else m) rest m))
            (key x))
    /\ (forall x, In x after ->
          float_le
            (key (fold_left (fun m y => if flt (key y) (key m) then y else m) rest m))
            (key x)).
Proof.
  induction rest as [|y rest IH]; intros pre m post NN Hpre Hpost; cbn [fold_left].
  - exists pre, post. rewrite app_nil_r. auto.
  - assert (Nm : is_nan (key m) = false).
    { apply NN, in_or_app. right. now left. }
    assert (Ny : is_nan (key y) = false).
    { apply NN, in_or_app. right. right. apply in_or_app. right. now left. }
    assert (E0 : (pre ++ m :: post) ++ y :: [] ++ rest
                 = pre ++ m :: post ++ y :: rest).
    { now rewrite <- app_assoc. }
    assert (E1 : pre ++ m :: (post ++ [y]) ++ rest
                 = pre ++ m :: post ++ y :: rest).
    { now rewrite <- app_assoc. }
    destruct (flt (key y) (key m)) eqn:C.
    + destruct (IH (pre ++ m :: post) y []) as (before & after & E & B & F).
      * intros x I. apply NN. now rewrite <- E0.
      * intros x I. apply in_app_or in I as [I|[<-|I]]; [| exact C |].
        -- eapply flt_trans; [exact C|now apply Hpre].
        -- eapply flt_fle_trans; [exact C|now apply Hpost].
      * intros x [].
      * exists before, after. split; [|auto].
        rewrite <- E, <- app_assoc. reflexivity.
    + apply flt_false_fle in C; [|exact Ny|exact Nm].
      destruct (IH pre m (post ++ [y])) as (before & after & E & B & F).
      * intros x I. apply NN. now rewrite <- E1.
      * exact Hpre.
      * intros x I. apply in_app_or in I as [I|[<-|[]]]; [now apply Hpost|exact C].
      * exists before, after. split; [|auto].
        rewrite <- E, <- app_assoc. reflexivity.
Qed.

Lemma fold_max_by_split {A} (key : A -> float) rest : forall pre m post,
  (forall x, In x (pre ++ m :: post ++ rest) -> is_nan (key x) = false) ->
  (forall x, In x pre -> float_lt (key x) (key m)) ->
  (forall x, In x post -> float_le (key x) (key m)) ->
  exists before after,
    pre ++ m :: post ++ rest
    = before
      ++ fold_left (fun m y => if flt (key m) (key y) then y else m) rest m
      :: after
    /\ (forall x, In x before ->
          float_lt (key x)
            (key (fold_left (fun m y => if flt (key m) (key y) then y else m) rest m)))
    /\ (forall x, In x after ->
          float_le (key x)
            (key (fold_left (fun m y => if flt (key m) (key y) then y else m) rest m))).
Proof.
  induction rest as [|y rest IH]; intros pre m post NN Hpre Hpost; cbn [fold_left].
  - exists pre, post. rewrite app_nil_r. auto.
  - assert (Nm : is_nan (key m) = false).
    { apply NN, in_or_app. right. now left. }
    assert (Ny : is_nan (key y) = false).
    { apply NN, in_or_app. right. right. apply in_or_app. right. now left. }
    assert (E0 : (pre ++ m :: post) ++ y :: [] ++ rest
                 = pre ++ m :: post ++ y :: rest).
    { now rewrite <- app_assoc. }
    assert (E1 : pre ++ m :: (post ++ [y]) ++ rest
                 = pre ++ m :: post ++ y :: rest).
    { now rewrite <- app_assoc. }
    destruct (flt (key m) (key y)) eqn:C.
    + destruct (IH (pre ++ m :: post) y []) as (before & after & E & B & F).
      * intros x I. apply NN. now rewrite <- E0.
      * intros x I. apply in_app_or in I as [I|[<-|I]]; [| exact C |].
        -- eapply flt_trans; [now apply Hpre|exact C].
        -- eapply fle_flt_trans; [now apply Hpost|exact C].
      * intros x [].
      * exists before, after. split; [|auto].
        rewrite <- E, <- app_assoc. reflexivity.
    + apply flt_false_fle in C; [|exact Nm|exact Ny].
      destruct (IH pre m (post ++ [y])) as (before & after & E & B & F).
      * intros x I. apply NN. now rewrite <- E1.
      * exact Hpre.
      * intros x I. apply in_app_or in I as [I|[<-|[]]]; [now apply Hpost|exact C].
      * exists before, after. split; [|auto].
        rewrite <- E, <- app_assoc. reflexivity.
Qed.

Lemma fold_pick_In {A} (pick : A -> A -> bool) rest : forall (m : A),
  In (fold_left (fun m y => if pick m y then y else m) rest m) (m :: rest).
Proof.
  induction rest as [|y rest IH]; intros m; cbn [fold_left]; [now left|].
  destruct (pick m y).
  - right. apply IH.
  - destruct (IH m) as [<-|I]; [now left|right; now right].
Qed.

Lemma min_by_In {A} (key : A -> float) items :
  items <> [] -> exists m, min_by key items = Ret m /\ In m items.
Proof.
  destruct items as [|x rest]; [congruence|]. intros _.
  eexists. split; [reflexivity|].
  apply (fold_pick_In (fun m y => flt (key y) (key m))).
Qed.

Lemma max_by_In {A} (key : A -> float) items :
  items <> [] -> exists m, max_by key items = Ret m /\ In m items.
Proof.
  destruct items as [|x rest]; [congruence|]. intros _.
  eexists. split; [reflexivity|].
  apply (fold_pick_In (fun m y => flt (key m) (key y))).
Qed.

Lemma min_by_spec {A} (key : A -> float) items :
  items <> [] ->
  (forall x, In x items -> is_nan (key x) = false) ->
  exists before m after,
    min_by key items = Ret m
    /\ items = before ++ m :: after
    /\ (forall x, In x before -> float_lt (key m) (key x))
    /\ (forall x, In x after -> float_le (key m) (key x)).
Proof.
  intros NE NN. destruct items as [|x rest]; [congruence|].
  destruct (fold_min_by_split key rest [] x []) as (before & after & E & B & F);
    [exact NN|intros ? []|intros ? []|].
  eexists before, _, after. split; [reflexivity|]. auto.
Qed.

Lemma max_by_spec {A} (key : A -> float) items :
  items <> [] ->
  (forall x, In x items -> is_nan (key x) = false) ->
  exists before m after,
    max_by key items = Ret m
    /\ items = before ++ m :: after
    /\ (forall x, In x before -> float_lt (key x) (key m))
    /\ (forall x, In x after -> float_le (key x) (key m)).
Proof.
  intros NE NN. destruct items as [|x rest]; [congruence|].
  destruct (fold_max_by_split key rest [] x []) as (before & after & E & B & F);
    [exact NN|intros ? []|intros ? []|].
  eexists before, _, after. split; [reflexivity|]. auto.
Qed.

(** X17: for statistics of at least one system the three selections of
    the insights return entries of the table.  When no mean is the NaN,
    the fastest system has the least mean and the slowest the greatest;
    of several systems with that same mean the first of the table is
    named, so that every entry before the one named is strictly slower
    (strictly faster for the slowest).  When no standard deviation is
    the NaN, the most consistent one is chosen in the same way by
    standard deviation. *)
Theorem insights_selection (stats : list (string * Stats.t)) :
  stats <> [] ->
  (exists fastest slowest steady,
     fastest_system stats = Ret fastest /\ In fastest stats
     /\ slowest_system stats = Ret slowest /\ In slowest stats
     /\ most_consistent stats = Ret steady /\ In steady stats)
  /\ ((forall x, In x stats -> is_nan (Stats.mean (snd x)) = false) ->
      (exists before fastest after,
         fastest_system stats = Ret fastest
         /\ stats = before ++ fastest :: after
         /\ (forall x, In x before ->
               float_lt (Stats.mean (snd fastest)) (Stats.mean (snd x)))
         /\ (forall x, In x after ->
               float_le (Stats.mean (snd fastest)) (Stats.mean (snd x))))
      /\ (exists before slowest after,
            slowest_system stats = Ret slowest
            /\ stats = before ++ slowest :: after
            /\ (forall x, In x before ->
                  float_lt (Stats.mean (snd x)) (Stats.mean (snd slowest)))
            /\ (forall x, In x after ->
                  float_le (Stats.mean (snd x)) (Stats.mean (snd slowest)))))
  /\ ((forall x, In x stats -> is_nan (Stats.std_dev (snd x)) = false) ->
      exists before steady after,
        most_consistent stats = Ret steady
        /\ stats = before ++ steady :: after
        /\ (forall x, In x before ->
              float_lt (Stats.std_dev (snd steady)) (Stats.std_dev (snd x)))
        /\ (forall x, In x after ->
              float_le (Stats.std_dev (snd steady)) (Stats.std_dev (snd x)))).
Proof.
  intros NE. split; [|split].
  - destruct (min_by_In (fun x => Stats.mean (snd x)) stats NE) as (f & F & If).
    destruct (max_by_In (fun x => Stats.mean (snd x)) stats NE) as (s & S & Is).
    destruct (min_by_In (fun x => Stats.std_dev (snd x)) stats NE) as (c & C & Ic).
    exists f, s, c. auto 10.
  - intros NN. split.
    + exact (min_by_spec (fun x => Stats.mean (snd x)) stats NE NN).
    + exact (max_by_spec (fun x => Stats.mean (snd x)) stats NE NN).
  - intros NN. exact (min_by_spec (fun x => Stats.std_dev (snd x)) stats NE NN).
Qed.

Lemma insights_selection_witness :
  exists fastest slowest steady,
    fastest_system
      [("Bazel", Stats.Make (float_of_Z 2) (float_of_Z 2) (float_of_Z 1)
                   (float_of_Z 3) (float_of_Z 1) 3);
       ("Buck2", Stats.Make (float_of_Z 5) (float_of_Z 5) (float_of_Z 5)
                   (float_of_Z 5) (float_of_Z 0) 3);
       ("Gradle", Stats.Make (float_of_Z 2) (float_of_Z 2) (float_of_Z 1)
                    (float_of_Z 4) (float_of_Z 0) 3)] = Ret fastest
    /\ slowest_system
         [("Bazel", Stats.Make (float_of_Z 2) (float_of_Z 2) (float_of_Z 1)
                      (float_of_Z 3) (float_of_Z 1) 3);
          ("Buck2", Stats.Make (float_of_Z 5) (float_of_Z 5) (float_of_Z 5)
                      (float_of_Z 5) (float_of_Z 0) 3);
          ("Gradle", Stats.Make (float_of_Z 2) (float_of_Z 2) (float_of_Z 1)
                       (float_of_Z 4) (float_of_Z 0) 3)] = Ret slowest
    /\ most_consistent
         [("Bazel", Stats.Make (float_of_Z 2) (float_of_Z 2) (float_of_Z 1)
                      (float_of_Z 3) (float_of_Z 1) 3);
          ("Buck2", Stats.Make (float_of_Z 5) (float_of_Z 5) (float_of_Z 5)
                      (float_of_Z 5) (float_of_Z 0) 3);
          ("Gradle", Stats.Make (float_of_Z 2) (float_of_Z 2) (float_of_Z 1)
                       (float_of_Z 4) (float_of_Z 0) 3)] = Ret steady
    /\ fst fastest = "Bazel" /\ fst slowest = "Buck2" /\ fst steady = "Buck2".
Proof.
  destruct (insights_selection
              [("Bazel", Stats.Make (float_of_Z 2) (float_of_Z 2) (float_of_Z 1)
                           (float_of_Z 3) (float_of_Z 1) 3);
               ("Buck2", Stats.Make (float_of_Z 5) (float_of_Z 5) (float_of_Z 5)
                           (float_of_Z 5) (float_of_Z 0) 3);
               ("Gradle", Stats.Make (float_of_Z 2) (float_of_Z 2) (float_of_Z 1)
                            (float_of_Z 4) (float_of_Z 0) 3)] ltac:(discriminate))
    as (_ & M & D).
  destruct M as ((b1 & f & a1 & F & _) & (b2 & s & a2 & S & _)).
  { intros x [<-|[<-|[<-|[]]]]; reflexivity. }
  destruct D as (b3 & c & a3 & C & _).
  { intros x [<-|[<-|[<-|[]]]]; reflexivity. }
  exists f, s, c. split; [exact F|]. split; [exact S|]. split; [exact C|].
  vm_compute in F, S, C. injection F as <-. injection S as <-. injection C as <-.
  repeat split; reflexivity.
Defined.

(** With a NaN among the means the selections still return entries, but
    not the extremes: for means NaN, 1.0, 2.0 in this order both the
    fastest and the slowest system are the first one. *)
Example insights_selection_with_nan :
  let stats :=
    [("Bazel", Stats.Make S754_nan S754_nan S754_nan S754_nan (float_of_Z 0) 1);
     ("Buck2", Stats.Make (float_of_Z 1) (float_of_Z 1) (float_of_Z 1)
                 (float_of_Z 1) (float_of_Z 0) 1);
     ("Gradle", Stats.Make (float_of_Z 2) (float_of_Z 2) (float_of_Z 2)
                  (float_of_Z 2) (float_of_Z 0) 1)] in
  (exists st, fastest_system stats = Ret ("Bazel", st))
  /\ (exists st, slowest_system stats = Ret ("Bazel", st)).
Proof. split; eexists; vm_compute; reflexivity. Qed.

Section ReportPipeline.
Variable literal_eval : string -> literal.
Variable float_of_str : string -> option float.
Context `{Sorting}.

Lemma summary_loop_cases items : forall acc,
  (exists stats, summary_loop items acc = Ret stats)
  \/ (exists name times e,
        In (name, times) items
        /\ summary_of times = Raise e
        /\ summary_loop items acc = Raise e).
Proof.
  induction items as [|[k t] items IH]; intros acc.
  - left. now exists acc.
  - cbn [summary_loop]. destruct (summary_of t) as [st|e] eqn:E.
    + destruct (IH (dict_set k st acc)) as [R|(name & times & e & I & S & L)].
      * now left.
      * right. exists name, times, e. split; [now right|]. now split.
    + right. exists k, t, e. split; [now left|]. now split.
Qed.

Lemma summary_of_Raise_inv times e :
  times <> [] -> summary_of times = Raise e ->
  2 <= length times /\ statistics_stdev times = Raise e.
Proof.
  intros NE E.
  destruct (summary_of_unfold times NE) as (a & b & c & d & _ & _ & _ & _ & U).
  rewrite U in E. destruct (Nat.ltb_spec 1 (length times)) as [L|L]; [|discriminate].
  split; [exact L|]. destruct (statistics_stdev times); [discriminate|].
  injection E as <-. reflexivity.
Qed.

(** X18: on what [read_csv_data] returns, the statistics of the report
    can fail in [statistics.stdev] only.  All lists have one length
    [n >= 1].  When [n] is 1, or when [statistics.stdev] returns on
    every list, [create_summary_stats] returns one entry per build
    system, in the order of the file, each with the count [n], and as
    there is at least one entry none of the three selections of the
    insights raises.  In every other case [n] is at least 2 and
    [create_summary_stats] raises the exception that [statistics.stdev]
    raises on one of the lists. *)
Theorem report_statistics_exist
    (csv_file : option (list (list string)))
    (build_data : list (string * list float)) (colors : list (string * string)) :
  read_csv_data literal_eval float_of_str csv_file = Returns (build_data, colors) ->
  exists n,
    0 < n
    /\ (forall name times, In (name, times) build_data -> length times = n)
    /\ ((n = 1 \/ forall name times, In (name, times) build_data ->
                    exists v, statistics_stdev times = Ret v) ->
        exists stats,
          create_summary_stats build_data = Ret stats
          /\ map fst stats = map fst build_data
          /\ (forall name st, In (name, st) stats -> Stats.count st = n)
          /\ exists fastest slowest steady,
               fastest_system stats = Ret fastest
               /\ slowest_system stats = Ret slowest
               /\ most_consistent stats = Ret steady)
    /\ ((exists stats, create_summary_stats build_data = Ret stats)
        \/ (2 <= n
            /\ exists name times e,
                 In (name, times) build_data
                 /\ statistics_stdev times = Raise e
                 /\ create_summary_stats build_data = Raise e)).
Proof.
  intros R. apply read_csv_data_Returns in R as (rows & _ & R & NE & n & N & Len).
  destruct (read_rows_tables _ _ rows build_data colors R) as (_ & ND & _).
  assert (NEs : forall name times, In (name, times) build_data -> times <> []).
  { intros name times I ->. specialize (Len _ _ I). cbn in Len. lia. }
  exists n. split; [exact N|]. split; [exact Len|]. split.
  - intros OK.
    assert (S : forall name times, In (name, times) build_data -> summable times).
    { intros name times I. split; [now apply (NEs name)|]. intros L.
      destruct OK as [->|OK]; [|now apply (OK name)].
      rewrite (Len _ _ I) in L. lia. }
    destruct (summary_loop_returns build_data [] [] S eq_refl) as (stats & C & K).
    change (foldl _ [] build_data) with (table_of build_data) in K.
    rewrite table_of_distinct in K by now apply NoDup_ListNoDup.
    exists stats. split; [exact C|]. split; [exact K|]. split.
    + intros name st I.
      destruct (summary_loop_entries _ _ _ _ _ C I) as [[]|(times & J & E)].
      destruct (summary_of_unfold times (NEs _ _ J))
        as (a & b & c & d & _ & _ & _ & _ & U).
      rewrite U in E. rewrite <- (Len _ _ J).
      destruct (1 <? length times)%nat.
      * destruct (statistics_stdev times); [|discriminate].
        injection E as <-. reflexivity.
      * injection E as <-. reflexivity.
    + assert (SNE : stats <> []).
      { intros ->. destruct build_data; [congruence|discriminate]. }
      destruct (min_by_In (fun x => Stats.mean (snd x)) stats SNE) as (f & F & _).
      destruct (max_by_In (fun x => Stats.mean (snd x)) stats SNE) as (s & S' & _).
      destruct (min_by_In (fun x => Stats.std_dev (snd x)) stats SNE) as (c & Cc & _).
      exists f, s, c. auto.
  - destruct (summary_loop_cases build_data [])
      as [Ok|(name & times & e & I & S & L)]; [now left|].
    right. destruct (summary_of_Raise_inv times e (NEs _ _ I) S) as [L2 E].
    split; [now rewrite <- (Len _ _ I)|].
    exists name, times, e. auto.
Qed.
End ReportPipeline.

Lemma report_statistics_exist_witness :
  exists build_data colors stats,
    read_csv_data sample_literal_eval sample_float_of_str (Some sample_rows)
    = Returns (build_data, colors)
    /\ create_summary_stats build_data = Ret stats
    /\ map fst stats = ["Bazel"; "Buck2"].
Proof.
  destruct (read_csv_data sample_literal_eval sample_float_of_str (Some sample_rows))
    as [[data colors]|code why|e] eqn:E.
  - destruct (report_statistics_exist sample_literal_eval sample_float_of_str
                _ _ _ E) as (n & _ & _ & OK & _).
    destruct OK as (stats & C & K & _).
    { right. vm_compute in E. injection E as <- _.
      intros name times [X|[X|[]]]; inversion X; subst;
        eexists; vm_compute; reflexivity. }
    exists data, colors, stats. split; [reflexivity|]. split; [exact C|].
    rewrite K. vm_compute in E. injection E as <- _. reflexivity.
  - vm_compute in E. discriminate.
  - vm_compute in E. discriminate.
Defined.

(** A file [read_csv_data] accepts on which the statistics raise: the
    one row [Bazel,#4CAF50,"[1e999, 1.0]"], whose first measurement is
    read as the infinity. *)
Example report_statistics_raise :
  let literal_eval := fun text : string =>
    if String.eqb text "[1e999, 1.0]"
    then Value (PyList [PyNumber infinity; PyNumber (float_of_Z 1)])
    else Malformed in
  read_csv_data literal_eval sample_float_of_str
    (Some [["Bazel"; "#4CAF50"; "[1e999, 1.0]"]])
  = Returns ([("Bazel", [infinity; float_of_Z 1])], [("Bazel", "#4CAF50")])
  /\ create_summary_stats [("Bazel", [infinity; float_of_Z 1])]
     = Raise (AttributeError "'float' object has no attribute 'numerator'").
Proof. split; vm_compute; reflexivity. Qed.

(** ** The sources a pass mutates *)

Lemma append_Ret_inv file s u s' :
  append file s = (Ret u, s') ->
  supported file = true
  /\ file ∈ dirty_files s'
  /\ exists data, fs s' !! file = Some (Regular data).
Proof.
  intros A. destruct (supported file) eqn:H.
  2:{ destruct (append_unsupported file s H) as (msg & E). congruence. }
  destruct (fs s !! file) as [[data|]|] eqn:F.
  - destruct (append_regular file s data H F)
      as (content & kept & s2 & E & _ & _ & Fs & D).
    rewrite E in A. injection A as _ <-. split; [reflexivity|]. split.
    + rewrite D. apply elem_of_union. left. now apply elem_of_singleton.
    + rewrite Fs, lookup_insert_eq. eauto.
  - destruct (append_irregular file s H) as (s2 & E & _).
    + intros data. rewrite F. discriminate.
    + rewrite E in A. discriminate.
  - destruct (append_irregular file s H) as (s2 & E & _).
    + intros data. rewrite F. discriminate.
    + rewrite E in A. discriminate.
Qed.

Lemma append_exact file s data :
  supported file = true ->
  fs s !! file = Some (Regular data) ->
  exists content s',
    append file s = (Ret tt, s')
    /\ length (mutation content) = removal_length file
    /\ fs s'
       = <[file := Regular (take (length data - cut_before_write s file data) data
                            ++ mutation content)]> (fs s)
    /\ dirty_files s' = {[file]} ∪ dirty_files s.
Proof.
  intros H F. unfold cut_before_write.
  destruct (decide (file ∈ dirty_files s)) as [D|D].
  2:{ rewrite bool_decide_eq_false_2 by exact D. cbn [andb].
      rewrite Nat.sub_0_r, firstn_all.
      destruct (append_fresh file s data H F D) as (content & Len & A).
      exists content. eexists. split; [exact A|]. split; [exact Len|]. cbn. auto. }
  rewrite bool_decide_eq_true_2 by exact D. cbn [andb].
  destruct (Nat.leb_spec (removal_length file) (length data)) as [L|L].
  - assert (Sp : data = take (length data - removal_length file) data
                        ++ drop (length data - removal_length file) data)
      by (symmetry; apply take_drop).
    rewrite Sp in F.
    destruct (append_marked file s _ _ H F) as (content & Len & A);
      [rewrite length_drop; lia|exact D|].
    exists content. eexists. split; [exact A|]. split; [exact Len|]. cbn. auto.
  - rewrite Nat.sub_0_r, firstn_all.
    destruct (generate_supported file s H) as (content & G & Len).
    assert (ML : length (mutation content) = removal_length file).
    { unfold mutation, removal_length. rewrite mutation_length. lia. }
    pose (s1 := set_draws (draws s + FUNCTION_LENGTH) s).
    destruct (remove_effect file s1) as (s2 & R & D2 & E).
    assert (E' : fs s2 = fs s).
    { destruct E as [E|(data' & _ & F' & L' & _)]; [exact E|].
      assert (data' = data) as -> by (cbn in F'; congruence). lia. }
    exists content. eexists. split; [|split; [exact ML|]].
    + unfold append.
      rewrite (bind_Ret _ _ _ _ _ (validate_supported _ s H)).
      rewrite (bind_Ret _ _ _ _ _ G). unfold _append_content.
      rewrite (bind_Ret _ _ s1 s1 s1) by reflexivity.
      rewrite bool_decide_eq_true_2 by exact D.
      rewrite (bind_Ret _ _ _ _ _ R).
      apply try_except_Ret.
      unfold mbind, M_bind, mret, M_ret, path_exists, open_append_write, modify.
      rewrite E', F. rewrite bool_decide_eq_true_2 by eauto.
      cbn beta iota. rewrite E', F. reflexivity.
    + cbn [fs dirty_files set_fs set_dirty]. fold (mutation content).
      rewrite ?E', D2. auto.
Qed.

Lemma removal_length_pos file : 2 <= removal_length file.
Proof. unfold removal_length. lia. Qed.

Lemma kick_keeps file s u s' :
  (if contains "/_generated_databinding/" file then mret tt else append file) s
  = (Ret u, s') ->
  dirty_files s ⊆ dirty_files s'
  /\ (forall g, g <> file -> fs s' !! g = fs s !! g)
  /\ (forall g, g <> file -> g ∈ dirty_files s' -> g ∈ dirty_files s).
Proof.
  destruct (contains "/_generated_databinding/" file).
  - intros E. injection E as _ <-. split; [subset_tac|auto].
  - intros A. destruct (append_step file s) as (F & D & B & _).
    unfold exec in F, D, B. rewrite A in F, D, B. cbn [snd] in F, D, B.
    split; [exact D|]. split; [exact F|].
    intros g N I. rewrite elem_of_subseteq in B. apply B in I.
    apply elem_of_union in I as [I|I]; [|exact I].
    apply elem_of_singleton in I. contradiction.
Qed.

Lemma kick_sources_Ret_inv source_files : forall s s',
  kick_sources source_files s = (Ret tt, s') ->
  (forall file, In file source_files ->
     contains "/_generated_databinding/" file = false ->
     supported file = true
     /\ file ∈ dirty_files s'
     /\ exists data content,
          fs s !! file = Some (Regular data)
          /\ length (mutation content) = removal_length file
          /\ fs s' !! file
             = Some (Regular (take (length data - cut_before_write s file data) data
                              ++ mutation content)))
  /\ (forall g, contains "/_generated_databinding/" g = true \/ ~ In g source_files ->
        fs s' !! g = fs s !! g /\ (g ∈ dirty_files s' -> g ∈ dirty_files s))
  /\ dirty_files s ⊆ dirty_files s'.
Proof.
  unfold kick_sources.
  induction source_files as [|x files IH]; intros s s' K; cbn [for_each] in K.
  - injection K as <-. split; [intros ? []|]. split; [auto|subset_tac].
  - apply bind_Ret_inv in K as (u & s1 & B & K).
    destruct (IH _ _ K) as (P1 & P2 & P3).
    destruct (kick_keeps _ _ _ _ B) as (Q3 & Qf & Qd).
    split; [|split].
    + intros file I G.
      destruct (in_dec string_dec file files) as [J|J].
      * destruct (P1 file J G) as (H & D & data1 & c1 & F1 & L1 & F').
        split; [exact H|]. split; [exact D|].
        destruct (string_dec file x) as [->|N].
        -- rewrite G in B.
           destruct (fs s !! x) as [[data|]|] eqn:F.
           2,3: destruct (append_irregular x s H) as (s2 & E & _);
                [intros d; rewrite F; discriminate|rewrite E in B; discriminate].
           destruct (append_exact x s data H F) as (c0 & s2 & A & L0 & Fs & Ds).
           rewrite A in B. injection B as _ <-.
           rewrite Fs, lookup_insert_eq in F1. injection F1 as <-.
           exists data, c1. split; [reflexivity|]. split; [exact L1|].
           rewrite F'. do 2 f_equal.
           set (kept := take (length data - cut_before_write s x data) data).
           unfold cut_before_write.
           rewrite bool_decide_eq_true_2
             by (rewrite Ds; apply elem_of_union; left; now apply elem_of_singleton).
           rewrite length_app, L0.
           destruct (Nat.leb_spec (removal_length x) (length kept + removal_length x))
             as [_|X]; [|lia].
           cbn [andb].
           replace (length kept + removal_length x - removal_length x)
             with (length kept) by lia.
           now rewrite take_app_length.
        -- exists data1, c1. rewrite <- (Qf file N). split; [exact F1|].
           split; [exact L1|]. rewrite F'. do 3 f_equal. unfold cut_before_write.
           replace (bool_decide (file ∈ dirty_files s1))
             with (bool_decide (file ∈ dirty_files s)); [reflexivity|].
           apply bool_decide_ext. split; [|now apply Qd].
           rewrite elem_of_subseteq in Q3. apply Q3.
      * destruct I as [<-|I]; [|contradiction].
        rewrite G in B.
        destruct (supported x) eqn:H.
        2:{ destruct (append_unsupported x s H) as (msg & E). congruence. }
        destruct (fs s !! x) as [[data|]|] eqn:F.
        2,3: destruct (append_irregular x s H) as (s2 & E & _);
             [intros d; rewrite F; discriminate|rewrite E in B; discriminate].
        destruct (append_exact x s data H F) as (c0 & s2 & A & L0 & Fs & Ds).
        rewrite A in B. injection B as _ <-.
        destruct (P2 x (or_intror J)) as [Fx _].
        split; [reflexivity|]. split.
        -- rewrite elem_of_subseteq in P3. apply P3. rewrite Ds.
           apply elem_of_union. left. now apply elem_of_singleton.
        -- exists data, c0. split; [reflexivity|]. split; [exact L0|].
           now rewrite Fx, Fs, lookup_insert_eq.
    + intros g Hg.
      assert (Hg' : contains "/_generated_databinding/" g = true \/ ~ In g files).
      { destruct Hg as [Hg|Hg]; [now left|right]. intros I. apply Hg. now right. }
      destruct (P2 g Hg') as [F D]. rewrite F.
      destruct (contains "/_generated_databinding/" x) eqn:Gx.
      * injection B as _ <-. auto.
      * assert (N : g <> x).
        { intros ->. destruct Hg as [Hg|Hg]; [congruence|]. apply Hg. now left. }
        split; [now apply Qf|]. intros I. apply (Qd g N). now apply D.
    + rewrite elem_of_subseteq in *. auto.
Qed.

(** X19: when the inner loop over the sources returns, every source
    outside [/_generated_databinding/] is of a supported type, is marked
    dirty, and ends in a declaration written by this pass: it holds
    what it held before the loop, less the bytes [append] cuts from a
    file that was already marked dirty, followed by one mutation of
    [removal_length] bytes.  A source that was not marked dirty holds
    all its former bytes and the mutation, and so has changed.  The
    generated sources, and every path that is not in the list, are as
    they were and have not become dirty. *)
Theorem kick_sources_marks_every_source
    (source_files : list string) (s s' : state) :
  kick_sources source_files s = (Ret tt, s') ->
  (forall file, In file source_files ->
     contains "/_generated_databinding/" file = false ->
     supported file = true
     /\ file ∈ dirty_files s'
     /\ exists data content,
          fs s !! file = Some (Regular data)
          /\ length (mutation content) = removal_length file
          /\ fs s' !! file
             = Some (Regular (take (length data - cut_before_write s file data) data
                              ++ mutation content))
          /\ (file ∉ dirty_files s ->
              fs s' !! file = Some (Regular (data ++ mutation content))
              /\ fs s' !! file <> fs s !! file))
  /\ (forall g, contains "/_generated_databinding/" g = true \/ ~ In g source_files ->
        fs s' !! g = fs s !! g /\ (g ∈ dirty_files s' -> g ∈ dirty_files s)).
Proof.
  intros K. destruct (kick_sources_Ret_inv source_files s s' K) as (P1 & P2 & _).
  split; [|exact P2]. intros file I G.
  destruct (P1 file I G) as (H & D & data & content & F & L & F').
  split; [exact H|]. split; [exact D|]. exists data, content.
  split; [exact F|]. split; [exact L|]. split; [exact F'|].
  intros N. unfold cut_before_write in F'.
  rewrite bool_decide_eq_false_2 in F' by exact N. cbn [andb] in F'.
  rewrite Nat.sub_0_r, firstn_all in F'. split; [exact F'|].
  rewrite F', F. intros X. injection X as X.
  apply (f_equal length) in X. rewrite length_app, L in X.
  pose proof (removal_length_pos file). lia.
Qed.

Lemma kick_sources_marks_every_source_witness :
  exists s' m1 m2,
    kick_sources scenario_sources (set_dirty ∅ scenario) = (Ret tt, s')
    /\ fs s' !! "app/Foo.java" = Some (Regular (encode_utf8 "class Foo {}" ++ m1))
    /\ length m1 = removal_length "app/Foo.java"
    /\ fs s' !! "app/Bar.kt" = Some (Regular (encode_utf8 "fun bar() = 1" ++ m2))
    /\ length m2 = removal_length "app/Bar.kt"
    /\ fs s' !! "app/_generated_databinding/Gen.java" = Some foo_java.
Proof.
  destruct (kick_sources scenario_sources (set_dirty ∅ scenario)) as [[[]|e] s'] eqn:E.
  - destruct (kick_sources_marks_every_source _ _ _ E) as (P1 & P2).
    destruct (P1 "app/Foo.java") as (_ & _ & d1 & c1 & F1 & L1 & _ & N1);
      [now left|reflexivity|].
    destruct (P1 "app/Bar.kt") as (_ & _ & d2 & c2 & F2 & L2 & _ & N2);
      [right; right; now left|reflexivity|].
    destruct N1 as [N1 _]; [apply not_elem_of_empty|].
    destruct N2 as [N2 _]; [apply not_elem_of_empty|].
    vm_compute in F1. injection F1 as <-. vm_compute in F2. injection F2 as <-.
    exists s', (mutation c1), (mutation c2).
    split; [reflexivity|]. split; [exact N1|]. split; [exact L1|].
    split; [exact N2|]. split; [exact L2|].
    destruct (P2 "app/_generated_databinding/Gen.java") as [F _];
      [left; reflexivity|]. rewrite F. reflexivity.
  - apply (f_equal fst) in E. vm_compute in E. discriminate.
Defined.

(** ** The data of the charts *)

Lemma existsb_eqb_In k l : existsb (String.eqb k) l = true <-> In k l.
Proof.
  rewrite existsb_exists. split.
  - intros (x & I & E). apply String.eqb_eq in E. now subst.
  - intros I. exists k. split; [exact I|apply String.eqb_refl].
Qed.

Lemma check_keys_spec key value expected_keys all_keys :
  (check_keys key value expected_keys all_keys = Ret tt
   <-> forall k, In k expected_keys -> In k (map fst value))
  /\ (forall e, check_keys key value expected_keys all_keys = Raise e ->
        exists msg, e = ValueError msg).
Proof.
  induction expected_keys as [|k rest [IH1 IH2]]; cbn [check_keys].
  - split; [|discriminate]. split; [intros _ ? []|reflexivity].
  - destruct (existsb (String.eqb k) (map fst value)) eqn:E; cbn [negb].
    + apply existsb_eqb_In in E. split; [|exact IH2]. rewrite IH1. split.
      * intros H x [<-|I]; auto.
      * intros H x I. apply H. now right.
    + split.
      * split; [discriminate|]. intros H.
        assert (X : existsb (String.eqb k) (map fst value) = true)
          by (apply existsb_eqb_In, H; now left).
        congruence.
      * intros e [= <-]. eauto.
Qed.

Lemma validate_items_spec items expected_keys :
  (validate_items items expected_keys = Ret tt
   <-> forall key value, In (key, value) items ->
         exists entries,
           value = PyDict entries
           /\ forall k, In k expected_keys -> In k (map fst entries))
  /\ (forall e, validate_items items expected_keys = Raise e ->
        exists msg, e = ValueError msg).
Proof.
  induction items as [|[key value] rest [IH1 IH2]]; cbn [validate_items].
  - split; [|discriminate]. split; [intros _ ? ? []|reflexivity].
  - destruct value as [entries|q|text|values].
    2-4: split; [|intros e [= <-]; eauto];
         (split; [discriminate|]); intros H;
         destruct (H key _ (or_introl eq_refl)) as (entries & X & _); discriminate.
    destruct (check_keys_spec key entries expected_keys expected_keys) as [C1 C2].
    destruct (check_keys key entries expected_keys expected_keys) as [[]|e] eqn:C.
    + split; [|exact IH2]. rewrite IH1. split.
      * intros H k v [[= <- <-]|I]; [|now apply (H k)].
        exists entries. split; [reflexivity|]. now apply C1.
      * intros H k v I. apply (H k). now right.
    + split.
      * split; [discriminate|]. intros H.
        destruct (H key _ (or_introl eq_refl)) as (entries' & [= <-] & K).
        apply C1 in K. discriminate.
      * intros e' [= <-]. now apply C2.
Qed.

(** X20: [validate_data] returns exactly when the data is a dictionary
    each value of which is a dictionary that holds every expected key.
    Data that is not a dictionary raises [TypeError]; anything else
    that is rejected raises [ValueError]. *)
Theorem validate_data_spec (data : pyobj) (expected_keys : list string) :
  (validate_data data expected_keys = Ret tt
   <-> exists items,
         data = PyDict items
         /\ forall key value, In (key, value) items ->
              exists entries,
                value = PyDict entries
                /\ forall k, In k expected_keys -> In k (map fst entries))
  /\ (forall e, validate_data data expected_keys = Raise e ->
        (exists msg, e = TypeError msg /\ forall items, data <> PyDict items)
        \/ (exists msg items, e = ValueError msg /\ data = PyDict items)).
Proof.
  destruct data as [items|q|text|values]; cbn [validate_data].
  2-4: split; [split; [discriminate|intros (items & X & _); discriminate]|];
       intros e [= <-]; left; eexists; split; [reflexivity|discriminate].
  destruct (validate_items_spec items expected_keys) as [V1 V2]. split.
  - rewrite V1. split.
    + intros H. exists items. auto.
    + intros (items' & [= <-] & H). exact H.
  - intros e E. right. destruct (V2 e E) as (msg & ->). eauto.
Qed.

Lemma validate_data_spec_witness :
  validate_data
    (PyDict [("Bazel", PyDict [("value", PyFloat (float_of_Z 2)); ("color", PyStr "#4CAF50")])])
    ["value"; "color"] = Ret tt
  /\ (exists msg,
        validate_data (PyDict [("Bazel", PyDict [("value", PyFloat (float_of_Z 2))])])
          ["value"; "color"] = Raise (ValueError msg))
  /\ exists msg, validate_data (PyFloats [float_of_Z 2]) ["value"; "color"] = Raise (TypeError msg).
Proof.
  split; [|split].
  - apply (proj1 (validate_data_spec _ _)). eexists. split; [reflexivity|].
    intros key value [[= <- <-]|[]]. eexists. split; [reflexivity|].
    intros k [<-|[<-|[]]]; cbn; auto.
  - destruct (validate_data (PyDict [("Bazel", PyDict [("value", PyFloat (float_of_Z 2))])])
                ["value"; "color"]) as [[]|e] eqn:E; [vm_compute in E; discriminate|].
    destruct (proj2 (validate_data_spec _ _) e E) as [(msg & -> & N)|(msg & ? & -> & _)].
    + exfalso. now apply (N [("Bazel", PyDict [("value", PyFloat (float_of_Z 2))])]).
    + eauto.
  - destruct (validate_data (PyFloats [float_of_Z 2]) ["value"; "color"]) as [[]|e] eqn:E;
      [vm_compute in E; discriminate|].
    destruct (proj2 (validate_data_spec _ _) e E) as [(msg & -> & _)|(msg & ? & _ & X)].
    + eauto.
    + discriminate.
Defined.

Lemma fill_data_spec field value_of items colors :
  forall (data : list (string * pyobj)) (data0 : list (string * list float)),
    (forall name times, In (name, times) items ->
       (exists v, value_of times = Got v) /\ exists c, dict_get name colors = Some c) ->
    map fst data = map fst data0 ->
    exists d,
      fill_data field value_of items colors data = Got d
      /\ map fst d = map fst (foldl (fun d kv => dict_set (fst kv) (snd kv) d) data0 items)
      /\ forall k v, In (k, v) d ->
           In (k, v) data
           \/ exists x c, v = PyDict [(field, x); ("color", PyStr c)].
Proof.
  induction items as [|[name times] items IH]; intros data data0 H K.
  - exists data. split; [reflexivity|]. split; [exact K|]. auto.
  - destruct (H name times (or_introl eq_refl)) as ((v & Ev) & (c & Ec)).
    cbn [fill_data foldl fst snd]. rewrite Ev, Ec.
    destruct (IH (dict_set name (PyDict [(field, v); ("color", PyStr c)]) data)
                 (dict_set name times data0)) as (d & E & Kd & Hd).
    + intros n t I. apply H. now right.
    + now apply dict_set_same_keys.
    + exists d. split; [exact E|]. split; [exact Kd|].
      intros k w I. destruct (Hd k w I) as [J|J]; [|now right].
      apply dict_set_In in J as [[-> ->]|J]; [right; eauto|now left].
Qed.

Lemma filled_data_valid field d :
  (forall k v, In (k, v) d ->
     In (k, v) (@nil (string * pyobj))
     \/ exists x c, v = PyDict [(field, x); ("color", PyStr c)]) ->
  validate_data (PyDict d) [field; "color"] = Ret tt.
Proof.
  intros H. apply (proj1 (validate_items_spec d [field; "color"])).
  intros key value I. destruct (H key value I) as [[]|(x & c & ->)].
  eexists. split; [reflexivity|]. intros k [<-|[<-|[]]]; cbn; auto.
Qed.

Section ChartData.
Variable literal_eval : string -> literal.
Variable float_of_str : string -> option float.

(** X21: what [read_csv_data] returns is what
    [generate_build_visualisations] needs.  The number of rounds is
    defined and not 0; the data of the average chart, of the line graph
    and of the comparison of every round are built without
    [StatisticsError], [KeyError] or [IndexError], with one entry per
    build system in the order of the file; and [validate_data] accepts
    each of them with the keys its chart function expects. *)
Theorem chart_data_accepted
    (csv_file : option (list (list string)))
    (build_data : list (string * list float)) (colors : list (string * string)) :
  read_csv_data literal_eval float_of_str csv_file = Returns (build_data, colors) ->
  exists n,
    num_rounds build_data = Got n /\ 0 < n
    /\ (exists d, average_data build_data colors = Got d
                  /\ map fst d = map fst build_data
                  /\ validate_data (PyDict d) ["value"; "color"] = Ret tt)
    /\ (exists d, sequential_data build_data colors = Got d
                  /\ map fst d = map fst build_data
                  /\ validate_data (PyDict d) ["y_values"; "color"] = Ret tt)
    /\ forall i, i < n ->
         exists d, round_data i build_data colors = Got d
                   /\ map fst d = map fst build_data
                   /\ validate_data (PyDict d) ["value"; "color"] = Ret tt.
Proof.
  intros R. apply read_csv_data_Returns in R as (rows & _ & R & NE & n & N & Len).
  destruct (read_rows_tables _ _ rows build_data colors R) as (K & ND & _).
  assert (Col : forall name times, In (name, times) build_data ->
            exists c, dict_get name colors = Some c).
  { intros name times I. apply dict_get_key. rewrite K.
    apply in_map_iff. now exists (name, times). }
  assert (T : table_of build_data = build_data)
    by now apply table_of_distinct, NoDup_ListNoDup.
  assert (Fill : forall field value_of,
            (forall name times, In (name, times) build_data ->
               exists v, value_of times = Got v) ->
            exists d, fill_data field value_of build_data colors [] = Got d
                      /\ map fst d = map fst build_data
                      /\ validate_data (PyDict d) [field; "color"] = Ret tt).
  { intros field value_of V.
    destruct (fill_data_spec field value_of build_data colors [] [])
      as (d & E & Kd & Hd); [|reflexivity|].
    - intros name times I. split; [now apply (V name)|now apply (Col name times)].
    - exists d. split; [exact E|]. split.
      + rewrite Kd. change (foldl _ [] build_data) with (table_of build_data).
        now rewrite T.
      + now apply filled_data_valid. }
  exists n. split; [|split; [exact N|split; [|split]]].
  - destruct build_data as [|[name times] rest]; [congruence|].
    cbn [num_rounds]. f_equal. apply (Len name). now left.
  - apply Fill. intros name times I.
    destruct (statistics_mean_nonempty times) as (m & -> & _); [|eauto].
    intros ->. specialize (Len _ _ I). cbn in Len. lia.
  - apply Fill. eauto.
  - intros i Hi. apply Fill. intros name times I.
    destruct (nth_error times i) eqn:E; [eauto|].
    apply nth_error_None in E. specialize (Len _ _ I). lia.
Qed.
End ChartData.

Lemma chart_data_accepted_witness :
  exists build_data colors d,
    read_csv_data sample_literal_eval sample_float_of_str (Some sample_rows)
    = Returns (build_data, colors)
    /\ num_rounds build_data = Got 3
    /\ round_data 2 build_data colors = Got d
    /\ map fst d = ["Bazel"; "Buck2"].
Proof.
  destruct (read_csv_data sample_literal_eval sample_float_of_str (Some sample_rows))
    as [[data colors]|code why|e] eqn:E.
  - destruct (chart_data_accepted sample_literal_eval sample_float_of_str _ _ _ E)
      as (n & Nr & _ & _ & _ & Rd).
    assert (X : data = [("Bazel", map float_of_Q [42 # 10; 39 # 10; 41 # 10]%Q);
                        ("Buck2", map float_of_Q [87 # 10; 85 # 10; 86 # 10]%Q)]).
    { vm_compute in E. now injection E as <- _. }
    assert (n = 3) as -> by (rewrite X in Nr; now injection Nr as <-).
    destruct (Rd 2 ltac:(lia)) as (d & Ed & Kd & _).
    exists data, colors, d. split; [reflexivity|]. split; [exact Nr|].
    split; [exact Ed|]. rewrite Kd, X. reflexivity.
  - vm_compute in E. discriminate.
  - vm_compute in E. discriminate.
Defined.

(** ** The sources of the Buck target *)

Lemma lower_app a b : lower (a +:+ b) = lower a +:+ lower b.
Proof.
  induction a as [|c a IH]; [reflexivity|].
  rewrite append_cons. cbn [lower]. now rewrite IH, append_cons.
Qed.

Lemma contains_slash_app a b : contains "/" (a +:+ "/" +:+ b) = true.
Proof.
  induction a as [|c a IH].
  - change (EmptyString +:+ "/" +:+ b) with (String "/" b).
    cbn [contains String.prefix]. destruct (ascii_dec "/" "/"); [|congruence].
    now rewrite prefix_empty.
  - rewrite append_cons. cbn [contains]. rewrite IH. apply orb_true_r.
Qed.

(** A tail that starts before a slash is not [.xml]. *)
Lemma ends_with_xml_after_slash a b :
  ends_with ".xml" (a +:+ "/" +:+ b) = ends_with ".xml" b.
Proof.
  assert (N : forall a, String.eqb (a +:+ "/" +:+ b) ".xml" = false).
  { intros x. apply String.eqb_neq. intros E.
    pose proof (contains_slash_app x b) as C. rewrite E in C. discriminate. }
  induction a as [|c a IH].
  - change (EmptyString +:+ "/" +:+ b) with (String "/" b).
    cbn [ends_with]. specialize (N EmptyString).
    change (EmptyString +:+ "/" +:+ b) with (String "/" b) in N. now rewrite N.
  - rewrite append_cons. cbn [ends_with]. rewrite <- append_cons, N. exact IH.
Qed.

Lemma ends_with_slash_split p :
  ends_with_slash p = true -> exists d, p = d +:+ "/".
Proof.
  unfold ends_with_slash. induction p as [|c p IH]; [discriminate|].
  destruct p as [|c' p'].
  - cbn. intros E. apply Ascii.eqb_eq in E. subst c. now exists EmptyString.
  - intros E. destruct IH as (d & ->).
    + cbn [String.length Nat.sub String.get] in E |- *.
      rewrite Nat.sub_0_r in *. exact E.
    + exists (String c d). reflexivity.
Qed.

Lemma replace_prefixes_spec source_files path_to_cell : forall paths,
  replace_prefixes source_files path_to_cell = Ret paths <->
  Forall2 (fun source_file path => replace_target_prefix source_file path_to_cell = Ret path)
    source_files paths.
Proof.
  induction source_files as [|f rest IH]; intros paths; cbn [replace_prefixes].
  - split; [intros [= <-]; constructor|]. intros F. now inversion F.
  - split.
    + destruct (replace_target_prefix f path_to_cell) as [p|e] eqn:E; [|discriminate].
      destruct (replace_prefixes rest path_to_cell) as [ps|e] eqn:E'; [|discriminate].
      intros [= <-]. constructor; [exact E|]. now apply IH.
    + intros F. inversion F as [|? p ? ps Hp Hrest]; subst.
      rewrite Hp. apply IH in Hrest. now rewrite Hrest.
Qed.

(** X22: the paths [get_source_files_buck] makes of the query result.
    When it returns, there is one path per source that is not an XML
    file, in the order of the result; each is the cell directory, a
    slash, and what follows [//] in its source, and none ends in [.xml]
    in whatever case.  A source other than XML without the separator
    makes the call raise [ValueError], and no path is returned. *)
Theorem get_source_files_buck_spec
    (path_to_cell : string) (data : list (string * list (string * list string))) :
  (forall paths,
     get_source_files_buck path_to_cell data = Ret paths ->
     Forall2 (fun source_file path =>
                exists cell rest,
                  source_file = cell +:+ "//" +:+ rest
                  /\ path = (if ends_with_slash path_to_cell then path_to_cell
                             else path_to_cell +:+ "/") +:+ rest
                  /\ ends_with ".xml" (lower path) = false)
       (List.filter not_xml (collect_sources data)) paths)
  /\ ((exists source_file,
         In source_file (collect_sources data)
         /\ not_xml source_file = true
         /\ contains "//" source_file = false) ->
      get_source_files_buck path_to_cell data
      = Raise (ValueError "target_file must contain '//' once")).
Proof.
  unfold get_source_files_buck. split.
  - intros paths R. apply replace_prefixes_spec in R.
    assert (X : Forall (fun f => not_xml f = true)
                  (List.filter not_xml (collect_sources data))).
    { apply Forall_forall. intros f I. apply list_elem_of_In, filter_In in I. tauto. }
    induction R as [|f p fs ps Hp R IH]; [constructor|].
    apply Forall_cons in X as [Xf X]. constructor; [|now apply IH].
    unfold replace_target_prefix in Hp.
    destruct (Nat.eqb (length (str_split "//" f)) 2) eqn:L; [|discriminate].
    apply Nat.eqb_eq, str_split_two in L as (cell & rest & -> & _ & _ & E).
    rewrite E in Hp. cbn [negb nth] in Hp. injection Hp as <-.
    exists cell, rest. split; [reflexivity|].
    assert (S : exists d,
               (if negb (ends_with_slash path_to_cell) then path_to_cell +:+ "/"
                else path_to_cell) = d +:+ "/").
    { destruct (ends_with_slash path_to_cell) eqn:Es; cbn [negb]; [|eauto].
      now apply ends_with_slash_split. }
    split; [now destruct (ends_with_slash path_to_cell)|].
    destruct S as (d & ->). unfold not_xml in Xf. apply negb_true_iff in Xf.
    rewrite append_assoc, !lower_app. change (lower "/") with "/".
    rewrite ends_with_xml_after_slash.
    rewrite !lower_app in Xf. change (lower "//") with ("/" +:+ "/") in Xf.
    rewrite (append_assoc "/" "/"), ends_with_xml_after_slash in Xf.
    rewrite <- (ends_with_xml_after_slash EmptyString). exact Xf.
  - intros (f & I & Xf & C).
    assert (J : In f (List.filter not_xml (collect_sources data)))
      by (apply filter_In; auto).
    induction (List.filter not_xml (collect_sources data)) as [|g fs IH];
      [destruct J|].
    cbn [replace_prefixes]. destruct J as [->|J].
    + unfold replace_target_prefix, str_split.
      now rewrite (split_from_plain _ _ C).
    + destruct (replace_target_prefix g path_to_cell) as [p|e] eqn:E.
      * now rewrite (IH J).
      * f_equal. now apply (replace_target_prefix_raises g path_to_cell).
Qed.

Lemma get_source_files_buck_spec_witness :
  (exists paths,
     get_source_files_buck "/path/repo" sample_query = Ret paths
     /\ paths = ["/path/repo/app/src/Main.kt"]
     /\ Forall2 (fun source_file path =>
                   exists cell rest,
                     source_file = cell +:+ "//" +:+ rest
                     /\ path = "/path/repo/" +:+ rest
                     /\ ends_with ".xml" (lower path) = false)
          ["root//app/src/Main.kt"] paths)
  /\ get_source_files_buck "/path/repo" [("root//app:app", [("srcs", ["app/Main.kt"])])]
     = Raise (ValueError "target_file must contain '//' once").
Proof.
  split.
  - destruct (get_source_files_buck "/path/repo" sample_query) as [paths|e] eqn:E.
    + exists paths. split; [reflexivity|]. split.
      * vm_compute in E. now injection E as <-.
      * exact (proj1 (get_source_files_buck_spec "/path/repo" sample_query) paths E).
    + vm_compute in E. discriminate.
  - apply (proj2 (get_source_files_buck_spec "/path/repo"
                    [("root//app:app", [("srcs", ["app/Main.kt"])])])).
    exists "app/Main.kt". repeat split; try reflexivity. now left.
Defined.

(** ** Which file names have a supported extension *)

Lemma contains_char_cons c x s :
  contains (String c EmptyString) (String x s)
  = Ascii.eqb x c || contains (String c EmptyString) s.
Proof.
  cbn [contains String.prefix]. destruct (ascii_dec c x) as [<-|N].
  - now rewrite prefix_empty, Ascii.eqb_refl.
  - apply not_eq_sym, Ascii.eqb_neq in N. now rewrite N.
Qed.

Lemma contains_char_app c a b :
  contains (String c EmptyString) (a +:+ b)
  = contains (String c EmptyString) a || contains (String c EmptyString) b.
Proof.
  induction a as [|x a IH]; [reflexivity|].
  rewrite append_cons, !contains_char_cons, IH. apply orb_assoc.
Qed.

Lemma contains_char_dots c n :
  c <> "."%char -> contains (String c EmptyString) (dots n) = false.
Proof.
  intros N. induction n as [|n IH]; [reflexivity|].
  change (dots (S n)) with (String "." (dots n)).
  rewrite contains_char_cons, IH.
  apply not_eq_sym, Ascii.eqb_neq in N. now rewrite N.
Qed.

Lemma rfind_from_absent c s : forall i last,
  contains (String c EmptyString) s = false -> rfind_from c s i last = last.
Proof.
  induction s as [|x s IH]; intros i last C; [reflexivity|].
  rewrite contains_char_cons in C. apply orb_false_iff in C as [X C].
  cbn [rfind_from]. rewrite X. now apply IH.
Qed.

Lemma rfind_from_app_absent c a b : forall i last,
  contains (String c EmptyString) b = false ->
  rfind_from c (a +:+ b) i last = rfind_from c a i last.
Proof.
  induction a as [|x a IH]; intros i last C.
  - now apply rfind_from_absent.
  - rewrite append_cons. cbn [rfind_from]. now apply IH.
Qed.

Lemma rfind_from_last c a : forall i last,
  rfind_from c (a +:+ String c EmptyString) i last
  = (i + Z.of_nat (String.length a))%Z.
Proof.
  induction a as [|x a IH]; intros i last.
  - change (EmptyString +:+ String c EmptyString) with (String c EmptyString).
    cbn [rfind_from String.length]. rewrite Ascii.eqb_refl. lia.
  - rewrite append_cons. cbn [rfind_from String.length]. rewrite IH. lia.
Qed.

Lemma rfind_from_bound c s : forall i last,
  (last < i)%Z -> (rfind_from c s i last < i + Z.of_nat (String.length s))%Z.
Proof.
  induction s as [|x s IH]; intros i last L; cbn [rfind_from String.length].
  - lia.
  - specialize (IH (i + 1)%Z (if Ascii.eqb x c then i else last)).
    destruct (Ascii.eqb x c); lia.
Qed.

(** The index after the last [/] of a directory prefix. *)
Lemma rfind_sep_prefix dir name :
  dir = EmptyString \/ (exists d, dir = d +:+ "/") ->
  contains "/" name = false ->
  (rfind "/" (dir +:+ name) + 1)%Z = Z.of_nat (String.length dir).
Proof.
  intros D C. unfold rfind. rewrite (rfind_from_app_absent _ _ _ _ _ C).
  destruct D as [->|(d & ->)]; [reflexivity|].
  rewrite rfind_from_last, string_length_append. cbn [String.length]. lia.
Qed.

Lemma get_app_r a b k : String.get (String.length a + k) (a +:+ b) = String.get k b.
Proof. induction a as [|x a IH]; [reflexivity|exact IH]. Qed.

Lemma get_dots n j : j < n -> String.get j (dots n) = Some "."%char.
Proof.
  revert j. induction n as [|n IH]; intros j L; [lia|].
  change (dots (S n)) with (String "." (dots n)).
  destruct j as [|j]; [reflexivity|]. cbn [String.get]. apply IH. lia.
Qed.

Lemma get_app_l a b k :
  k < String.length a -> String.get k (a +:+ b) = String.get k a.
Proof.
  revert k. induction a as [|x a IH]; intros k L; cbn [String.length] in L; [lia|].
  rewrite append_cons. destruct k as [|k]; [reflexivity|].
  cbn [String.get]. apply IH. lia.
Qed.

Lemma length_dots n : String.length (dots n) = n.
Proof. induction n as [|n IH]; [reflexivity|]. cbn. now rewrite <- IH at 2. Qed.

Lemma non_dot_before_true p c n : forall i m,
  (forall j, j < n -> String.get (i + j) p = Some "."%char) ->
  String.get (i + n) p = Some c -> c <> "."%char -> n < m ->
  non_dot_before p i m = true.
Proof.
  induction n as [|n IH]; intros i m D G N L;
    (destruct m as [|m]; [lia|]); cbn [non_dot_before].
  - rewrite Nat.add_0_r in G. rewrite G.
    apply Ascii.eqb_neq in N. now rewrite N.
  - pose proof (D 0 ltac:(lia)) as D0. rewrite Nat.add_0_r in D0.
    rewrite D0, Ascii.eqb_refl. apply IH; [| |exact N|lia].
    + intros j Hj. rewrite <- (D (S j)) by lia. f_equal. lia.
    + rewrite <- G. f_equal. lia.
Qed.

Lemma non_dot_before_false p : forall m i,
  (forall j, j < m -> String.get (i + j) p = Some "."%char) ->
  non_dot_before p i m = false.
Proof.
  induction m as [|m IH]; intros i D; cbn [non_dot_before]; [reflexivity|].
  pose proof (D 0 ltac:(lia)) as D0. rewrite Nat.add_0_r in D0.
  rewrite D0, Ascii.eqb_refl. apply IH. intros j Hj. rewrite <- (D (S j)) by lia. f_equal. lia.
Qed.

Lemma substring_all s : substring 0 (String.length s) s = s.
Proof. induction s as [|x s IH]; [reflexivity|]. cbn. now rewrite IH. Qed.

Lemma slice_from_app a b : slice_from (String.length a) (a +:+ b) = b.
Proof.
  unfold slice_from. rewrite string_length_append.
  replace (String.length a + String.length b - String.length a)
    with (String.length b) by lia.
  induction a as [|x a IH]; [apply substring_all|exact IH].
Qed.

Lemma lstrip_no_dot ext :
  contains "." ext = false -> lstrip "." ext = ext.
Proof.
  destruct ext as [|x ext]; [reflexivity|]. rewrite contains_char_cons.
  intros C. apply orb_false_iff in C as [X _]. cbn [lstrip]. now rewrite X.
Qed.

Lemma extension_with_stem dir n c rest ext :
  dir = EmptyString \/ (exists d, dir = d +:+ "/") ->
  c <> "."%char ->
  contains "/" (String c rest) = false ->
  contains "/" ext = false ->
  contains "." ext = false ->
  extension (dir +:+ dots n +:+ String c rest +:+ "." +:+ ext) = ext.
Proof.
  intros D N Cs Ce Cd. unfold extension, splitext.
  set (p := dir +:+ dots n +:+ String c rest +:+ "." +:+ ext).
  assert (Sep : (rfind "/" p + 1)%Z = Z.of_nat (String.length dir)).
  { apply rfind_sep_prefix; [exact D|].
    rewrite !contains_char_app, Cs, Ce, contains_char_dots by discriminate.
    reflexivity. }
  set (A := dir +:+ dots n +:+ String c rest).
  assert (P : p = A +:+ "." +:+ ext).
  { unfold p, A. now rewrite !append_assoc. }
  assert (Dot : rfind "." p = Z.of_nat (String.length A)).
  { rewrite P. unfold rfind.
    rewrite <- append_assoc, (rfind_from_app_absent _ _ _ _ _ Cd), rfind_from_last.
    lia. }
  assert (LA : String.length A = String.length dir + n + S (String.length rest)).
  { unfold A. rewrite !string_length_append, length_dots. cbn [String.length]. lia. }
  rewrite Dot. replace (rfind "/" p) with (Z.of_nat (String.length dir) - 1)%Z by lia.
  replace (Z.of_nat (String.length dir) - 1 + 1)%Z
    with (Z.of_nat (String.length dir)) by lia.
  assert (Lt : (Z.of_nat (String.length dir) - 1 <? Z.of_nat (String.length A))%Z = true)
    by (apply Z.ltb_lt; lia).
  rewrite Lt, Nat2Z.id.
  rewrite (non_dot_before_true p c n).
  - cbn [andb snd]. rewrite Nat2Z.id, P, slice_from_app.
    change ("." +:+ ext) with (String "." ext). cbn [lstrip].
    rewrite Ascii.eqb_refl. now apply lstrip_no_dot.
  - intros j Hj. unfold p. rewrite get_app_r, get_app_l by (rewrite length_dots; lia).
    now apply get_dots.
  - unfold p. rewrite <- Nat.add_0_r at 1. rewrite <- Nat.add_assoc.
    rewrite get_app_r. rewrite <- (length_dots n) at 1. rewrite get_app_r.
    reflexivity.
  - exact N.
  - lia.
Qed.

Lemma extension_without_stem dir n ext :
  dir = EmptyString \/ (exists d, dir = d +:+ "/") ->
  contains "/" ext = false ->
  contains "." ext = false ->
  extension (dir +:+ dots n +:+ ext) = EmptyString.
Proof.
  intros D Ce Cd. unfold extension, splitext.
  set (p := dir +:+ dots n +:+ ext).
  assert (Sep : (rfind "/" p + 1)%Z = Z.of_nat (String.length dir)).
  { apply rfind_sep_prefix; [exact D|].
    rewrite contains_char_app, Ce, contains_char_dots by discriminate. reflexivity. }
  replace (rfind "/" p) with (Z.of_nat (String.length dir) - 1)%Z by lia.
  replace (Z.of_nat (String.length dir) - 1 + 1)%Z
    with (Z.of_nat (String.length dir)) by lia.
  rewrite Nat2Z.id.
  destruct n as [|n].
  - assert (Dot : (rfind "." p < Z.of_nat (String.length dir))%Z).
    { unfold p, rfind. change (dots 0) with EmptyString.
      change (EmptyString +:+ ext) with ext.
      rewrite (rfind_from_app_absent _ _ _ _ _ Cd).
      destruct D as [->|(d & ->)]; [cbn; lia|].
      rewrite (rfind_from_app_absent "." d "/") by reflexivity.
      rewrite string_length_append. cbn [String.length].
      pose proof (rfind_from_bound "." d 0 (-1) ltac:(lia)). lia. }
    replace (Z.of_nat (String.length dir) - 1 <? rfind "." p)%Z with false
      by (symmetry; apply Z.ltb_ge; lia).
    reflexivity.
  - assert (Dot : rfind "." p = Z.of_nat (String.length dir + n)).
    { unfold p, rfind. rewrite <- append_assoc.
      rewrite (rfind_from_app_absent _ _ _ _ _ Cd).
      replace (dots (S n)) with (dots n +:+ ".").
      - rewrite <- append_assoc, rfind_from_last, string_length_append, length_dots.
        lia.
      - clear. induction n as [|n IH]; [reflexivity|].
        change (dots (S n)) with (String "." (dots n)).
        rewrite append_cons, IH. reflexivity. }
    rewrite Dot.
    replace (Z.to_nat (Z.of_nat (String.length dir + n) - Z.of_nat (String.length dir)))
      with n by lia.
    rewrite non_dot_before_false; [now rewrite andb_false_r|].
    intros j Hj. unfold p.
    rewrite get_app_r, get_app_l by (rewrite length_dots; lia).
    apply get_dots. lia.
Qed.

(** X23: which names the kicker has a template for.  In a path made of
    a directory prefix and a file name, a name with a character other
    than a dot before its last dot has what follows that dot as its
    extension, and is supported exactly when the extension is py, java
    or kt in any letter case.  A name without such a dot (no dot at all,
    or only dots in front, as in [.kt]) has no extension and is never
    supported, whatever the directories are called. *)
Theorem supported_file_names (dir : string) (n : nat) (c : ascii) (rest ext : string) :
  dir = EmptyString \/ (exists d, dir = d +:+ "/") ->
  c <> "."%char ->
  contains "/" (String c rest) = false ->
  contains "/" ext = false ->
  contains "." ext = false ->
  supported (dir +:+ dots n +:+ String c rest +:+ "." +:+ ext)
  = bool_decide (lower ext ∈ ["py"; "java"; "kt"])
  /\ supported (dir +:+ dots n +:+ ext) = false
  /\ forall s,
       _validate_file_type (dir +:+ dots n +:+ ext) s
       = (Raise (ValueError "File must have an extension"), s).
Proof.
  intros D N Cs Ce Cd. unfold supported, _validate_file_type.
  rewrite (extension_with_stem dir n c rest ext D N Cs Ce Cd).
  rewrite (extension_without_stem dir n ext D Ce Cd).
  repeat split.
Qed.

Lemma supported_file_names_witness :
  supported "app/src.v2/Main.activity.KT" = true
  /\ supported "app/src.kt/.kt" = false
  /\ _validate_file_type "app/src.kt/.kt" (sample_state [])
     = (Raise (ValueError "File must have an extension"), sample_state []).
Proof.
  destruct (supported_file_names "app/src.v2/" 0 "M" "ain.activity" "KT")
    as (A & _); [right; now exists "app/src.v2"|discriminate|reflexivity..|].
  destruct (supported_file_names "app/src.kt/" 1 "M" "ain" "kt")
    as (_ & B & C); [right; now exists "app/src.kt"|discriminate|reflexivity..|].
  split; [exact A|]. split; [exact B|]. exact (C (sample_state [])).
Defined.
